(** * A verified model of the Tkinter to-do list (werrors1.py)

    The development follows the layout of the program: the Python and
    SQLite primitives the program relies on ([Py], [Date], [Sql], [Csv]),
    then the three classes of the source file ([TaskRepo], [TaskDialog],
    [ToDoApp]), then the properties.

    Modelling conventions.
    - A Python [str] and an SQLite TEXT value are a [string]: the sequence
      of bytes of the UTF-8 form of the text, which is how SQLite stores
      it and how the program's files are encoded.  A character is a
      group of these bytes ([Utf8.chars]); the white space of
      [str.strip] and the digits of [strptime] are the Unicode ones
      (Unicode 14.0, the tables of Python 3.11), the letters folded by
      LIKE the ASCII ones, as in SQLite.
    - Python [int] and SQLite INTEGER are [Z].  The limits of SQLite (64-bit
      integers, patterns of LIKE of at most 50000 bytes) are not modelled;
      where a statement is about LIKE it says so in a hypothesis.
    - [None] and SQL NULL are the [None] of an [option].
    - The clock is an argument: [now] is the text returned by
      [datetime.now().isoformat(timespec="seconds")], [today] the value of
      [date.today()].
    - An exception that the program does not catch is a [Raise] result. *)

From Stdlib Require Import ZArith Lia Bool List String Ascii DecimalString.
From Stdlib Require Import Sorting.Sorted Sorting.Permutation.
Import ListNotations.

Open Scope string_scope.
Open Scope Z_scope.

(** ** Results of fallible code *)

Inductive exn : Type :=
| IntegrityError      (* sqlite3: a CHECK / NOT NULL constraint failed *)
| ProgrammingError    (* sqlite3: wrong number of bindings *)
| AttributeError      (* a method called on None *)
| OverflowError       (* datetime: date value out of range *)
| CsvError.           (* _csv.Error: field larger than field limit *)

Inductive result (A : Type) : Type :=
| Ok (a : A)
| Raise (e : exn).

Arguments Ok {A} a.
Arguments Raise {A} e.

Definition bind {A B : Type} (r : result A) (k : A -> result B) : result B :=
  match r with
  | Ok a => k a
  | Raise e => Raise e
  end.

Notation "x <- r ;; k" := (bind r (fun x => k))
  (at level 61, r at next level, right associativity).

(** ** UTF-8 *)

Module Utf8.

Definition byte (n : N) : ascii := ascii_of_N n.

(** A continuation byte: 10xxxxxx. *)
Definition is_cont (b : ascii) : bool :=
  ((128 <=? N_of_ascii b) && (N_of_ascii b <? 192))%N.

(** A byte that opens a character of several bytes: 11xxxxxx. *)
Definition is_lead (b : ascii) : bool := (192 <=? N_of_ascii b)%N.

(** The leading characters of [cs] that are one continuation byte each,
    as bytes, and the other characters. *)
Fixpoint span_cont (cs : list (list ascii)) : list ascii * list (list ascii) :=
  match cs with
  | [b] :: cs' =>
      if is_cont b then let (run, rest) := span_cont cs' in (b :: run, rest)
      else ([], cs)
  | _ => ([], cs)
  end.

(** The characters of a text, each with its bytes: a byte below 0xC0 is
    a character by itself, a byte from 0xC0 on takes the continuation
    bytes that follow it.  This is how SQLite reads a text
    ([sqlite3Utf8Read]), and on the UTF-8 form of a [str] it gives the
    characters of the [str]. *)
Fixpoint chars (l : list ascii) : list (list ascii) :=
  match l with
  | [] => []
  | b :: r =>
      if is_lead b
      then let (run, rest) := span_cont (chars r) in (b :: run) :: rest
      else [b] :: chars r
  end.

(** [len(s)]: the number of characters. *)
Definition length (s : string) : Z :=
  Z.of_nat (List.length (chars (list_ascii_of_string s))).

(** The continuation bytes at the head of [l], and the rest. *)
Fixpoint take_cont (l : list ascii) : list ascii * list ascii :=
  match l with
  | b :: r =>
      if is_cont b then let (run, rest) := take_cont r in (b :: run, rest)
      else ([], l)
  | [] => ([], [])
  end.

(** The first character of a text and what follows it. *)
Definition next (l : list ascii) : option (list ascii * list ascii) :=
  match l with
  | [] => None
  | b :: r =>
      if is_lead b
      then let (run, rest) := take_cont r in Some (b :: run, rest)
      else Some ([b], r)
  end.

(** The number of a character (its code point), from the payload bits of
    its bytes; -1 for a continuation byte that stands alone, which is no
    character. *)
Definition code_point (c : list ascii) : Z :=
  match c with
  | [] => -1
  | b :: r =>
      let n := Z.of_N (N_of_ascii b) in
      let first :=
        if n <? 128 then n
        else if n <? 192 then -1
        else if n <? 224 then n - 192
        else if n <? 240 then n - 224
        else n - 240 in
      fold_left (fun acc x => 64 * acc + (Z.of_N (N_of_ascii x) - 128)) r first
  end.

End Utf8.

(** ** Python primitives *)

Module Py.

(** The characters for which [str.isspace] is true, each as the bytes of
    its UTF-8 form: U+0009..U+000D, U+001C..U+0020, U+0085, U+00A0,
    U+1680, U+2000..U+200A, U+2028, U+2029, U+202F, U+205F, U+3000. *)
Definition whitespace : list (list ascii) :=
  (map (fun n => [Utf8.byte n]) [9; 10; 11; 12; 13; 28; 29; 30; 31; 32]%N
   ++ [[Utf8.byte 194; Utf8.byte 133]; [Utf8.byte 194; Utf8.byte 160];
       [Utf8.byte 225; Utf8.byte 154; Utf8.byte 128]]
   ++ map (fun n => [Utf8.byte 226; Utf8.byte 128; Utf8.byte n])
        [128; 129; 130; 131; 132; 133; 134; 135; 136; 137; 138;
         168; 169; 175]%N
   ++ [[Utf8.byte 226; Utf8.byte 129; Utf8.byte 159];
       [Utf8.byte 227; Utf8.byte 128; Utf8.byte 128]])%list.

(** [l] without the prefix [w], if it starts with it. *)
Fixpoint drop_prefix (w l : list ascii) : option (list ascii) :=
  match w, l with
  | [], _ => Some l
  | a :: w', b :: l' => if Ascii.eqb a b then drop_prefix w' l' else None
  | _ :: _, [] => None
  end.

(** [l] without its first character, if that is one of [ws]. *)
Fixpoint drop_one (ws : list (list ascii)) (l : list ascii)
  : option (list ascii) :=
  match ws with
  | [] => None
  | w :: ws' =>
      match drop_prefix w l with
      | Some r => Some r
      | None => drop_one ws' l
      end
  end.

(** Dropping leading characters of [ws], at most [n] of them. *)
Fixpoint drop_leading (ws : list (list ascii)) (n : nat) (l : list ascii)
  : list ascii :=
  match n with
  | O => l
  | S n' =>
      match drop_one ws l with
      | Some r => drop_leading ws n' r
      | None => l
      end
  end.

(** [s.lstrip()]: every leading white-space character goes; there are no
    more of them than bytes. *)
Definition lstrip_bytes (l : list ascii) : list ascii :=
  drop_leading whitespace (List.length l) l.

(** [s.rstrip()]: the same from the end, on the reversed bytes. *)
Definition rstrip_bytes (l : list ascii) : list ascii :=
  rev (drop_leading (map (@rev ascii) whitespace) (List.length l) (rev l)).

Definition lstrip (s : string) : string :=
  string_of_list_ascii (lstrip_bytes (list_ascii_of_string s)).

Definition rstrip (s : string) : string :=
  string_of_list_ascii (rstrip_bytes (list_ascii_of_string s)).

(** [s.strip()] *)
Definition strip (s : string) : string :=
  string_of_list_ascii (rstrip_bytes (lstrip_bytes (list_ascii_of_string s))).

(** Truth value of a string: non-empty. *)
Definition truthy (s : string) : bool :=
  match s with EmptyString => false | _ => true end.

(** [str(n)] for an integer. *)
Definition str_of_int (n : Z) : string :=
  NilEmpty.string_of_int (Z.to_int n).

(** [x in xs] for strings. *)
Fixpoint mem (x : string) (xs : list string) : bool :=
  match xs with
  | [] => false
  | y :: ys => String.eqb x y || mem x ys
  end.

End Py.

(** ** Calendar dates: the part of [datetime] the program uses *)

Module Date.

Record date : Type := mkdate { year : Z; month : Z; day : Z }.

Definition MINYEAR : Z := 1.
Definition MAXYEAR : Z := 9999.

Definition is_leap (y : Z) : bool :=
  (y mod 4 =? 0) && (negb (y mod 100 =? 0) || (y mod 400 =? 0)).

Definition days_in_month (y m : Z) : Z :=
  if m =? 2 then (if is_leap y then 29 else 28)
  else if (m =? 4) || (m =? 6) || (m =? 9) || (m =? 11) then 30
  else 31.

(** The check made by the [date] constructor. *)
Definition valid (d : date) : bool :=
  (MINYEAR <=? year d) && (year d <=? MAXYEAR)
  && (1 <=? month d) && (month d <=? 12)
  && (1 <=? day d) && (day d <=? days_in_month (year d) (month d)).

(** Dates compare as the triples (year, month, day). *)
Definition compare (a b : date) : comparison :=
  match year a ?= year b with
  | Eq => match month a ?= month b with
          | Eq => day a ?= day b
          | c => c
          end
  | c => c
  end.

Definition ltb (a b : date) : bool :=
  match compare a b with Lt => true | _ => false end.
Definition eqb (a b : date) : bool :=
  match compare a b with Eq => true | _ => false end.
Definition leb (a b : date) : bool :=
  match compare a b with Gt => false | _ => true end.

(** The day after [d]; [None] past 9999-12-31. *)
Definition next_day (d : date) : option date :=
  if day d <? days_in_month (year d) (month d)
  then Some (mkdate (year d) (month d) (day d + 1))
  else if month d <? 12
       then Some (mkdate (year d) (month d + 1) 1)
       else if year d <? MAXYEAR
            then Some (mkdate (year d + 1) 1 1)
            else None.

(** [d + timedelta(days=n)] for a natural [n]; the library raises
    OverflowError when the result leaves the supported range. *)
Fixpoint add_days (n : nat) (d : date) : result date :=
  match n with
  | O => Ok d
  | S n' =>
      match next_day d with
      | Some d' => add_days n' d'
      | None => Raise OverflowError
      end
  end.

(** *** Formatting with "%Y-%m-%d" *)

Definition digit_char (k : Z) : ascii := ascii_of_N (Z.to_N (48 + k)).

Definition pad2 (n : Z) : string :=
  String (digit_char (n / 10)) (String (digit_char (n mod 10)) EmptyString).

Definition pad4 (n : Z) : string :=
  String (digit_char (n / 1000))
    (String (digit_char ((n / 100) mod 10))
       (String (digit_char ((n / 10) mod 10))
          (String (digit_char (n mod 10)) EmptyString))).

(** [d.strftime("%Y-%m-%d")].  The year is written with four digits; for
    the years from 1000 on, which is where a system clock lives, every
    platform agrees with this. *)
Definition strftime (d : date) : string :=
  pad4 (year d) ++ "-" ++ pad2 (month d) ++ "-" ++ pad2 (day d).

(** *** Parsing with "%Y-%m-%d"

    [strptime] turns the format into the regular expression

      (?P<Y>\d\d\d\d)-(?P<m>1[0-2]|0[1-9]|[1-9])-(?P<d>3[0-1]|[1-2]\d|0[1-9]|[1-9]| [1-9])

    runs [re.match] on the text, raises ValueError when there is no match
    or when the match does not reach the end of the text, and then builds
    the date, which raises ValueError on an impossible date.  A matcher
    returns its successes in the order in which a backtracking engine
    tries them; each success is the number read and the rest of the
    input. *)

Definition matcher : Type := list ascii -> list (Z * list ascii).

Definition digit_value (c : ascii) : Z := Z.of_N (N_of_ascii c) - 48.

(** The zeros of the runs of ten decimal digits of Unicode 14.0, by their
    numbers: [\d] of a [str] pattern matches a character of any of these
    runs, and [int] reads it as its place in the run. *)
Definition digit_zeros : list Z :=
  [48; 1632; 1776; 1984; 2406; 2534; 2662; 2790; 2918; 3046; 3174; 3302;
   3430; 3558; 3664; 3792; 3872; 4160; 4240; 6112; 6160; 6470; 6608; 6784;
   6800; 6992; 7088; 7232; 7248; 42528; 43216; 43264; 43472; 43504; 43600;
   44016; 65296; 66720; 68912; 69734; 69872; 69942; 70096; 70384; 70736;
   70864; 71248; 71360; 71472; 71904; 72016; 72784; 73040; 73120; 92768;
   92864; 93008; 120782; 120792; 120802; 120812; 120822; 123200; 123632;
   125264; 130032].

(** The value of a decimal digit, by the number of the character. *)
Definition decimal (cp : Z) : option Z :=
  match find (fun z => (z <=? cp) && (cp <=? z + 9)) digit_zeros with
  | Some z => Some (cp - z)
  | None => None
  end.

(** [\d]: one decimal digit of any script. *)
Definition digit : matcher :=
  fun l =>
    match Utf8.next l with
    | Some (c, r) =>
        match decimal (Utf8.code_point c) with
        | Some v => [(v, r)]
        | None => []
        end
    | None => []
    end.

(** One character in the range [lo-hi] of the ASCII digits. *)
Definition range (lo hi : Z) : matcher :=
  fun l =>
    match l with
    | c :: r =>
        if (lo <=? digit_value c) && (digit_value c <=? hi)
        then [(digit_value c, r)] else []
    | [] => []
    end.

(** One literal character, reading the number [v]. *)
Definition lit (a : ascii) (v : Z) : matcher :=
  fun l =>
    match l with
    | c :: r => if Ascii.eqb c a then [(v, r)] else []
    | [] => []
    end.

(** Two characters in sequence, the number read in base ten. *)
Definition two (p q : matcher) : matcher :=
  fun l => flat_map (fun '(a, r) => map (fun '(b, r') => (10 * a + b, r')) (q r)) (p l).

(** Ordered alternation. *)
Definition alt (ps : list matcher) : matcher :=
  fun l => flat_map (fun p => p l) ps.

Definition re_Y : matcher := two (two (two digit digit) digit) digit.

Definition re_m : matcher :=
  alt [ two (lit "1" 1) (range 0 2); two (lit "0" 0) (range 1 9); range 1 9 ].

Definition re_d : matcher :=
  alt [ two (lit "3" 3) (range 0 1); two (range 1 2) digit;
        two (lit "0" 0) (range 1 9); range 1 9; two (lit " " 0) (range 1 9) ].

Definition dash : matcher := lit "-" 0.

(** All the ways the whole expression matches a prefix of the input, in
    the engine's order. *)
Definition re_date (l : list ascii) : list (date * list ascii) :=
  flat_map (fun '(y, r1) =>
    flat_map (fun '(_, r2) =>
      flat_map (fun '(m, r3) =>
        flat_map (fun '(_, r4) =>
          map (fun '(d, r5) => (mkdate y m d, r5)) (re_d r4))
        (dash r3))
      (re_m r2))
    (dash r1))
  (re_Y l).

(** [datetime.strptime(s, "%Y-%m-%d").date()]; [None] is ValueError. *)
Definition strptime (s : string) : option date :=
  match re_date (list_ascii_of_string s) with
  | (d, []) :: _ => if valid d then Some d else None
  | _ => None
  end.

End Date.

(** ** The table [tasks] *)

(** The columns of the table, in the order of the CREATE TABLE statement. *)
Inductive column : Type :=
| c_id | c_title | c_details | c_category | c_priority | c_due_date
| c_is_done | c_order_index | c_created_at | c_updated_at.

Definition column_eqb (a b : column) : bool :=
  match a, b with
  | c_id, c_id | c_title, c_title | c_details, c_details
  | c_category, c_category | c_priority, c_priority
  | c_due_date, c_due_date | c_is_done, c_is_done
  | c_order_index, c_order_index | c_created_at, c_created_at
  | c_updated_at, c_updated_at => true
  | _, _ => false
  end.

(** One row.  [details] and [category] are the two text columns that the
    program can leave NULL. *)
Record task : Type := mktask {
  id : Z;
  title : string;
  details : option string;
  category : option string;
  priority : string;
  due_date : string;
  is_done : Z;
  order_index : Z;
  created_at : string;
  updated_at : string
}.

Definition PRIORITIES : list string := ["Low"; "Medium"; "High"].
Definition STATUSES : list string := ["Активные"; "Выполненные"; "Все"].

(** ** The fragment of SQL the program sends to SQLite *)

Module Sql.

Inductive value : Type :=
| VNull
| VInt (z : Z)
| VText (s : string).

Definition of_text (o : option string) : value :=
  match o with Some s => VText s | None => VNull end.

(** The value of a column in a row. *)
Definition get (c : column) (t : task) : value :=
  match c with
  | c_id => VInt (id t)
  | c_title => VText (title t)
  | c_details => of_text (details t)
  | c_category => of_text (category t)
  | c_priority => VText (priority t)
  | c_due_date => VText (due_date t)
  | c_is_done => VInt (is_done t)
  | c_order_index => VInt (order_index t)
  | c_created_at => VText (created_at t)
  | c_updated_at => VText (updated_at t)
  end.

(** Ordering of values: NULL first, then numbers, then text compared
    byte by byte (the BINARY collation). *)
Definition value_compare (a b : value) : comparison :=
  match a, b with
  | VNull, VNull => Eq
  | VNull, _ => Lt
  | _, VNull => Gt
  | VInt x, VInt y => x ?= y
  | VInt _, VText _ => Lt
  | VText _, VInt _ => Gt
  | VText x, VText y => String.compare x y
  end.

(** *** LIKE

    [%] matches any run of characters, [_] exactly one character, any
    other character matches itself, letters A-Z and a-z without regard
    to case.  No escape character is set.  Pattern and text are read
    character by character, each up to its first zero byte. *)

Definition lower (c : ascii) : ascii :=
  let n := N_of_ascii c in
  if ((65 <=? n) && (n <=? 90))%N then ascii_of_N (n + 32) else c.

(** Characters are lists of bytes. *)
Fixpoint char_eqb (x y : list ascii) : bool :=
  match x, y with
  | [], [] => true
  | a :: x', b :: y' => Ascii.eqb a b && char_eqb x' y'
  | _, _ => false
  end.

(** Two characters are the same letter: equal, or ASCII letters that
    differ in case only. *)
Definition eq_nocase (x y : list ascii) : bool :=
  char_eqb (map lower x) (map lower y).

Definition percent : list ascii := ["%"%char].
Definition underscore : list ascii := ["_"%char].

Fixpoint like_match (p s : list (list ascii)) {struct p} : bool :=
  match p with
  | [] => match s with [] => true | _ :: _ => false end
  | c :: p' =>
      if char_eqb c percent then
        (fix star (s : list (list ascii)) : bool :=
           like_match p' s
           || match s with [] => false | _ :: s' => star s' end) s
      else
        match s with
        | [] => false
        | d :: s' => (char_eqb c underscore || eq_nocase c d) && like_match p' s'
        end
  end.

(** A text as the LIKE function reads it, from a C string: the bytes
    before the first zero byte. *)
Fixpoint c_string (l : list ascii) : list ascii :=
  match l with
  | [] => []
  | b :: r => if Ascii.eqb b zero then [] else b :: c_string r
  end.

(** The characters of a text that LIKE compares. *)
Definition like_chars (s : string) : list (list ascii) :=
  Utf8.chars (c_string (list_ascii_of_string s)).

(** [text LIKE pattern] *)
Definition like (text pattern : string) : bool :=
  like_match (like_chars pattern) (like_chars text).

(** *** WHERE clauses *)

Inductive term : Type :=
| Col (c : column)       (* a column name *)
| Param                  (* a [?] placeholder *)
| Lit (v : value).       (* a literal, or a placeholder once bound *)

Inductive cond : Type :=
| Like (a b : term)      (* a LIKE b *)
| Eq (a b : term)        (* a = b *)
| Ne (a b : term)        (* a <> b *)
| Lt (a b : term)        (* a < b *)
| Or (p q : cond)
| And (p q : cond).

(** Binding of the placeholders to the parameters, by position. *)
Definition bind_term (a : term) (ps : list value) : option (term * list value) :=
  match a with
  | Param => match ps with v :: ps' => Some (Lit v, ps') | [] => None end
  | _ => Some (a, ps)
  end.

Definition bind2 {A : Type} (mk : A -> A -> cond)
  (ba : list value -> option (A * list value))
  (bb : list value -> option (A * list value))
  (ps : list value) : option (cond * list value) :=
  match ba ps with
  | Some (a', ps1) =>
      match bb ps1 with
      | Some (b', ps2) => Some (mk a' b', ps2)
      | None => None
      end
  | None => None
  end.

Fixpoint bind_cond (c : cond) (ps : list value) : option (cond * list value) :=
  match c with
  | Like a b => bind2 Like (bind_term a) (bind_term b) ps
  | Eq a b => bind2 Eq (bind_term a) (bind_term b) ps
  | Ne a b => bind2 Ne (bind_term a) (bind_term b) ps
  | Lt a b => bind2 Lt (bind_term a) (bind_term b) ps
  | Or p q => bind2 Or (bind_cond p) (bind_cond q) ps
  | And p q => bind2 And (bind_cond p) (bind_cond q) ps
  end.

Definition eval_term (a : term) (t : task) : value :=
  match a with
  | Col c => get c t
  | Param => VNull
  | Lit v => v
  end.

(** Three-valued logic: [None] is NULL. *)
Definition or3 (x y : option bool) : option bool :=
  match x, y with
  | Some true, _ | _, Some true => Some true
  | Some false, Some false => Some false
  | _, _ => None
  end.

Definition and3 (x y : option bool) : option bool :=
  match x, y with
  | Some false, _ | _, Some false => Some false
  | Some true, Some true => Some true
  | _, _ => None
  end.

Definition text_of (v : value) : string :=
  match v with
  | VText s => s
  | VInt z => Py.str_of_int z
  | VNull => EmptyString
  end.

Definition cmp3 (f : comparison -> bool) (x y : value) : option bool :=
  match x, y with
  | VNull, _ | _, VNull => None
  | _, _ => Some (f (value_compare x y))
  end.

Fixpoint eval (c : cond) (t : task) : option bool :=
  match c with
  | Like a b =>
      match eval_term a t, eval_term b t with
      | VNull, _ | _, VNull => None
      | x, y => Some (like (text_of x) (text_of y))
      end
  | Eq a b =>
      cmp3 (fun r => match r with Datatypes.Eq => true | _ => false end)
        (eval_term a t) (eval_term b t)
  | Ne a b =>
      cmp3 (fun r => match r with Datatypes.Eq => false | _ => true end)
        (eval_term a t) (eval_term b t)
  | Lt a b =>
      cmp3 (fun r => match r with Datatypes.Lt => true | _ => false end)
        (eval_term a t) (eval_term b t)
  | Or p q => or3 (eval p t) (eval q t)
  | And p q => and3 (eval p t) (eval q t)
  end.

(** A row passes a WHERE clause when the clause is true, not NULL. *)
Definition holds (c : cond) (t : task) : bool :=
  match eval c t with Some true => true | _ => false end.

(** The rows selected by [WHERE c] with parameters [ps]; no clause at all
    is [None].  sqlite3 refuses a parameter list of the wrong length. *)
Definition where_rows (w : option cond) (ps : list value) (rows : list task)
  : result (list task) :=
  match w with
  | None => match ps with [] => Ok rows | _ :: _ => Raise ProgrammingError end
  | Some c =>
      match bind_cond c ps with
      | Some (c', []) => Ok (filter (holds c') rows)
      | _ => Raise ProgrammingError
      end
  end.

(** *** ORDER BY *)

Inductive direction : Type := ASC | DESC.

Definition order_term : Type := (column * direction)%type.

Definition term_compare (o : order_term) (a b : task) : comparison :=
  match snd o with
  | ASC => value_compare (get (fst o) a) (get (fst o) b)
  | DESC => value_compare (get (fst o) b) (get (fst o) a)
  end.

(** Rows compare by the first term on which they differ. *)
Fixpoint order_compare (o : list order_term) (a b : task) : comparison :=
  match o with
  | [] => Datatypes.Eq
  | k :: o' =>
      match term_compare k a b with
      | Datatypes.Eq => order_compare o' a b
      | c => c
      end
  end.

Definition order_leb (o : list order_term) (a b : task) : bool :=
  match order_compare o a b with Gt => false | _ => true end.

Fixpoint insert (o : list order_term) (x : task) (l : list task) : list task :=
  match l with
  | [] => [x]
  | y :: l' => if order_leb o x y then x :: l else y :: insert o x l'
  end.

(** The rows in the order asked for; rows that agree on every term keep
    the order of the table. *)
Fixpoint order_by (o : list order_term) (l : list task) : list task :=
  match l with
  | [] => []
  | x :: l' => insert o x (order_by o l')
  end.

(** SELECT * FROM tasks [WHERE w] ORDER BY o *)
Definition select (w : option cond) (ps : list value) (o : list order_term)
  (rows : list task) : result (list task) :=
  l <- where_rows w ps rows ;; Ok (order_by o l).

(** SELECT COUNT( * ) FROM tasks [WHERE w] *)
Definition count (w : option cond) (ps : list value) (rows : list task)
  : result Z :=
  l <- where_rows w ps rows ;; Ok (Z.of_nat (List.length l)).

End Sql.

(** ** class TaskRepo *)

Module TaskRepo.

(** The state behind [self.conn]: the rows of [tasks] in rowid order and
    the AUTOINCREMENT counter kept in [sqlite_sequence] (the largest id
    ever given out). *)
Record repo : Type := mkrepo {
  rows : list task;
  seq : Z
}.

(** A fresh database after [_init_schema]. *)
Definition empty : repo := mkrepo [] 0.

(** CHECK(priority in ('Low','Medium','High')) *)
Definition check_priority (p : string) : bool :=
  Py.mem p ["Low"; "Medium"; "High"].

(** MAX(col) over the table: NULL on an empty table. *)
Definition sql_max (f : task -> Z) (l : list task) : option Z :=
  match l with
  | [] => None
  | t :: l' => Some (fold_left (fun m r => Z.max m (f r)) l' (f t))
  end.

Definition coalesce (o : option Z) (d : Z) : Z :=
  match o with Some v => v | None => d end.

(** The rowid an AUTOINCREMENT table gives to a new row: one more than
    the largest rowid ever present. *)
Definition next_rowid (s : repo) : Z :=
  Z.max (seq s) (coalesce (sql_max id (rows s)) 0) + 1.

Definition or_empty (o : option string) : string :=
  match o with Some s => s | None => EmptyString end.

(** [create(self, title, details, category, priority, due_date)]; the
    result is [cur.lastrowid] and the new state.  [due_date] may be None
    ([due_date or ""]). *)
Definition create (now : string) (title : string)
  (details category : option string) (priority : string)
  (due_date : option string) (s : repo) : result (Z * repo) :=
  let next_idx := coalesce (sql_max order_index (rows s)) 0 + 1 in
  let rowid := next_rowid s in
  let t := mktask rowid title details category priority (or_empty due_date)
             0 next_idx now now in
  if check_priority priority
  then Ok (rowid, mkrepo (rows s ++ [t])%list rowid)
  else Raise IntegrityError.

(** One keyword argument of [update]: a column of the table other than
    the key, with a value of the column's type. *)
Inductive field : Type :=
| f_title (v : string)
| f_details (v : option string)
| f_category (v : option string)
| f_priority (v : string)
| f_due_date (v : string)
| f_is_done (v : Z)
| f_order_index (v : Z)
| f_created_at (v : string)
| f_updated_at (v : string).

Definition field_col (f : field) : column :=
  match f with
  | f_title _ => c_title
  | f_details _ => c_details
  | f_category _ => c_category
  | f_priority _ => c_priority
  | f_due_date _ => c_due_date
  | f_is_done _ => c_is_done
  | f_order_index _ => c_order_index
  | f_created_at _ => c_created_at
  | f_updated_at _ => c_updated_at
  end.

Definition field_value (f : field) : Sql.value :=
  match f with
  | f_title v | f_priority v | f_due_date v
  | f_created_at v | f_updated_at v => Sql.VText v
  | f_details v | f_category v => Sql.of_text v
  | f_is_done v | f_order_index v => Sql.VInt v
  end.

(** [fields[k] = v] on the keyword dictionary: an existing key keeps its
    place, a new key goes last. *)
Fixpoint dict_set (f : field) (d : list field) : list field :=
  match d with
  | [] => [f]
  | g :: d' =>
      if column_eqb (field_col g) (field_col f) then f :: d'
      else g :: dict_set f d'
  end.

(** SET col=? on one row. *)
Definition set_field (t : task) (f : field) : task :=
  match f with
  | f_title v =>
      mktask (id t) v (details t) (category t) (priority t) (due_date t)
        (is_done t) (order_index t) (created_at t) (updated_at t)
  | f_details v =>
      mktask (id t) (title t) v (category t) (priority t) (due_date t)
        (is_done t) (order_index t) (created_at t) (updated_at t)
  | f_category v =>
      mktask (id t) (title t) (details t) v (priority t) (due_date t)
        (is_done t) (order_index t) (created_at t) (updated_at t)
  | f_priority v =>
      mktask (id t) (title t) (details t) (category t) v (due_date t)
        (is_done t) (order_index t) (created_at t) (updated_at t)
  | f_due_date v =>
      mktask (id t) (title t) (details t) (category t) (priority t) v
        (is_done t) (order_index t) (created_at t) (updated_at t)
  | f_is_done v =>
      mktask (id t) (title t) (details t) (category t) (priority t)
        (due_date t) v (order_index t) (created_at t) (updated_at t)
  | f_order_index v =>
      mktask (id t) (title t) (details t) (category t) (priority t)
        (due_date t) (is_done t) v (created_at t) (updated_at t)
  | f_created_at v =>
      mktask (id t) (title t) (details t) (category t) (priority t)
        (due_date t) (is_done t) (order_index t) v (updated_at t)
  | f_updated_at v =>
      mktask (id t) (title t) (details t) (category t) (priority t)
        (due_date t) (is_done t) (order_index t) (created_at t) v
  end.

Definition sets_column (c : column) (fields : list field) : bool :=
  existsb (fun f => column_eqb (field_col f) c) fields.

(** UPDATE tasks SET k1=?, k2=?, ... WHERE id=?  SQLite verifies the CHECK
    constraint of a row being updated when the statement sets the column
    the constraint is about; a row that breaks it fails the whole
    statement. *)
Fixpoint sql_update (task_id : Z) (fields : list field) (l : list task)
  : result (list task) :=
  match l with
  | [] => Ok []
  | t :: l' =>
      if id t =? task_id then
        let t' := fold_left set_field fields t in
        if negb (sets_column c_priority fields) || check_priority (priority t')
        then (r <- sql_update task_id fields l' ;; Ok (t' :: r))
        else Raise IntegrityError
      else (r <- sql_update task_id fields l' ;; Ok (t :: r))
  end.

(** [update(self, task_id, **fields)] *)
Definition update (now : string) (task_id : Z) (fields : list field)
  (s : repo) : result repo :=
  match fields with
  | [] => Ok s
  | _ :: _ =>
      let fields := dict_set (f_updated_at now) fields in
      r <- sql_update task_id fields (rows s) ;;
      Ok (mkrepo r (seq s))
  end.

(** [delete(self, task_id)] *)
Definition delete (task_id : Z) (s : repo) : repo :=
  mkrepo (filter (fun t => negb (id t =? task_id)) (rows s)) (seq s).

(** [bulk_delete_done(self)]: DELETE FROM tasks WHERE is_done=1 *)
Definition bulk_delete_done (s : repo) : repo :=
  mkrepo (filter (fun t => negb (is_done t =? 1)) (rows s)) (seq s).

(** The default of the [order_by] argument of [fetch]. *)
Definition default_order : list Sql.order_term :=
  [(c_order_index, Sql.ASC); (c_id, Sql.ASC)].

(** [fetch(self, where_sql, params, order_by)]; an empty [where_sql] is
    [None]. *)
Definition fetch (where_sql : option Sql.cond) (params : list Sql.value)
  (order_by : list Sql.order_term) (s : repo) : result (list task) :=
  Sql.select where_sql params order_by (rows s).

Fixpoint insert_distinct (x : string) (l : list string) : list string :=
  match l with
  | [] => [x]
  | y :: l' =>
      match String.compare x y with
      | Datatypes.Lt => x :: l
      | Datatypes.Eq => l
      | Datatypes.Gt => y :: insert_distinct x l'
      end
  end.

(** [all_categories(self)]: SELECT DISTINCT COALESCE(NULLIF(category,''), '')
    ... ORDER BY category *)
Definition all_categories (s : repo) : list string :=
  fold_right insert_distinct [] (map (fun t => or_empty (category t)) (rows s)).

Record stats_dict : Type := mkstats {
  total : Z;
  done : Z;
  active : Z;
  overdue : Z
}.

(** [stats(self)]; [today] is [date.today()]. *)
Definition stats (today : Date.date) (s : repo) : result stats_dict :=
  total <- Sql.count None [] (rows s) ;;
  done <- Sql.count
            (Some (Sql.Eq (Sql.Col c_is_done) (Sql.Lit (Sql.VInt 1))))
            [] (rows s) ;;
  active <- Sql.count
              (Some (Sql.Eq (Sql.Col c_is_done) (Sql.Lit (Sql.VInt 0))))
              [] (rows s) ;;
  let today_str := Date.strftime today in
  overdue <- Sql.count
               (Some (Sql.And
                        (Sql.And
                           (Sql.Eq (Sql.Col c_is_done) (Sql.Lit (Sql.VInt 0)))
                           (Sql.Ne (Sql.Col c_due_date)
                              (Sql.Lit (Sql.VText EmptyString))))
                        (Sql.Lt (Sql.Col c_due_date) Sql.Param)))
               [Sql.VText today_str] (rows s) ;;
  Ok (mkstats total done active overdue).

End TaskRepo.

(** ** The [csv] module

    A file is kept as the list of its records, cell by cell, as
    [csv.writer] is given them; quoting and delimiters are the library's
    business.  What the program adds is the way it opens the files:
    [on_export_csv] writes with newline set to the empty string,
    [on_import_csv] reads in text mode with universal newlines, so that a
    carriage return inside a cell is read as a line feed.  The reader
    refuses a field of more than 131072 characters. *)

Module Csv.

Definition record : Type := list string.
Definition file : Type := list record.

(** What [csv.writer] writes for one value: None is the empty field,
    anything else its [str]. *)
Definition cell (v : Sql.value) : string :=
  match v with
  | Sql.VNull => EmptyString
  | Sql.VInt z => Py.str_of_int z
  | Sql.VText s => s
  end.

(** [writer.writerow(values)] *)
Definition writerow (values : list Sql.value) (f : file) : file :=
  (f ++ [map cell values])%list.

Definition CR : ascii := ascii_of_N 13.
Definition LF : ascii := ascii_of_N 10.

(** Universal newlines: "\r\n" and "\r" are read as "\n". *)
Fixpoint universal_newlines (s : string) : string :=
  match s with
  | EmptyString => EmptyString
  | String c s' =>
      if Ascii.eqb c CR then
        match s' with
        | String c' s'' =>
            if Ascii.eqb c' LF then String LF (universal_newlines s'')
            else String LF (universal_newlines s')
        | EmptyString => String LF EmptyString
        end
      else String c (universal_newlines s')
  end.

(** The records of a file as the reader meets them when the file is
    opened with [open(path, "r")]. *)
Definition reopen (f : file) : file :=
  map (map universal_newlines) f.

(** [csv.field_size_limit()]: the reader raises [_csv.Error] on a field of
    more characters. *)
Definition field_size_limit : Z := 131072.

Definition too_long (r : record) : bool :=
  existsb (fun c => field_size_limit <? Utf8.length c) r.

(** The records that [csv.reader] returns: those before the first record
    with a field over the limit. *)
Fixpoint accepted (f : file) : file :=
  match f with
  | [] => []
  | r :: f' => if too_long r then [] else r :: accepted f'
  end.

(** The reader ends in [_csv.Error] when the file has such a record. *)
Definition raises (f : file) : bool := existsb too_long f.

(** A row of [csv.DictReader]: the bindings in the order in which the
    dictionary receives them, a later binding replacing an earlier one
    with the same key.  A value is None where the record is shorter than
    the header ([restval]). *)
Definition dict : Type := list (string * option string).

Definition row_dict (fieldnames : record) (r : record) : dict :=
  (combine fieldnames (map Some r)
   ++ map (fun k => (k, None)) (skipn (List.length r) fieldnames))%list.

Fixpoint lookup (k : string) (d : dict) : option (option string) :=
  match d with
  | [] => None
  | (k', v) :: d' =>
      match lookup k d' with
      | Some r => Some r
      | None => if String.eqb k k' then Some v else None
      end
  end.

(** [row.get(k, default)] *)
Definition get (d : dict) (k : string) (default : option string)
  : option string :=
  match lookup k d with
  | Some v => v
  | None => default
  end.

Definition is_blank (r : record) : bool :=
  match r with [] => true | _ :: _ => false end.

(** [csv.DictReader(f)]: the first record is the header, blank records
    are skipped. *)
Definition DictReader (f : file) : list dict :=
  match f with
  | [] => []
  | fieldnames :: recs =>
      map (row_dict fieldnames) (filter (fun r => negb (is_blank r)) recs)
  end.

End Csv.

(** ** class TaskDialog *)

Module TaskDialog.

(** The five variables behind the entry fields. *)
Record dialog : Type := mkdialog {
  var_title : string;
  var_details : string;
  var_category : string;
  var_priority : string;
  var_due : string
}.

(** [self.result] *)
Record result_dict : Type := mkresult {
  r_title : string;
  r_details : string;
  r_category : string;
  r_priority : string;
  r_due_date : string
}.

(** [__init__(self, master, title, task)]: the fields of a new dialog. *)
Definition init (t : option task) : dialog :=
  match t with
  | Some t =>
      mkdialog (title t) (TaskRepo.or_empty (details t))
        (TaskRepo.or_empty (category t)) (priority t) (due_date t)
  | None => mkdialog EmptyString EmptyString EmptyString "Medium" EmptyString
  end.

(** [on_ok(self)]: [None] when the title is empty (a warning is shown and
    the dialog stays open). *)
Definition on_ok (d : dialog) : option result_dict :=
  let title := Py.strip (var_title d) in
  if negb (Py.truthy title) then None
  else
    let due := Py.strip (var_due d) in
    Some (mkresult title (Py.strip (var_details d))
            (Py.strip (var_category d)) "Medium" due).

End TaskDialog.

(** ** class ToDoApp *)

Module ToDoApp.

(** One line of the table widget: the values given to [tree.insert]
    (id, title, category, priority, due_date, status, created_at) and
    the tags. *)
Record item : Type := mkitem {
  values : Z * string * option string * string * string * string * string;
  tags : list string
}.

(** The attributes of the application object that the handlers use. *)
Record app : Type := mkapp {
  repo : TaskRepo.repo;
  var_search : string;
  var_filter_status : string;
  var_filter_priority : string;
  var_filter_category : string;
  sort_by : column;
  sort_desc : bool;
  cmb_category : list string;
  tree : list item;
  lbl_stats : option TaskRepo.stats_dict   (* the numbers shown; None: empty label *)
}.

Definition set_repo (s : TaskRepo.repo) (a : app) : app :=
  mkapp s (var_search a) (var_filter_status a) (var_filter_priority a)
    (var_filter_category a) (sort_by a) (sort_desc a) (cmb_category a)
    (tree a) (lbl_stats a).

Definition set_filters (q st pri cat : string) (a : app) : app :=
  mkapp (repo a) q st pri cat (sort_by a) (sort_desc a) (cmb_category a)
    (tree a) (lbl_stats a).

Definition set_filter_category (cat : string) (a : app) : app :=
  set_filters (var_search a) (var_filter_status a) (var_filter_priority a)
    cat a.

Definition set_sort (c : column) (desc : bool) (a : app) : app :=
  mkapp (repo a) (var_search a) (var_filter_status a) (var_filter_priority a)
    (var_filter_category a) c desc (cmb_category a) (tree a) (lbl_stats a).

Definition set_cmb_category (cats : list string) (a : app) : app :=
  mkapp (repo a) (var_search a) (var_filter_status a) (var_filter_priority a)
    (var_filter_category a) (sort_by a) (sort_desc a) cats (tree a)
    (lbl_stats a).

Definition set_tree (l : list item) (a : app) : app :=
  mkapp (repo a) (var_search a) (var_filter_status a) (var_filter_priority a)
    (var_filter_category a) (sort_by a) (sort_desc a) (cmb_category a) l
    (lbl_stats a).

Definition set_lbl_stats (st : TaskRepo.stats_dict) (a : app) : app :=
  mkapp (repo a) (var_search a) (var_filter_status a) (var_filter_priority a)
    (var_filter_category a) (sort_by a) (sort_desc a) (cmb_category a)
    (tree a) (Some st).

(** A handler changes the application object and may end in an exception;
    what it changed before the exception stays changed. *)
Definition act (A : Type) : Type := app -> app * result A.

Definition ret {A : Type} (x : A) : act A := fun a => (a, Ok x).

Definition bnd {A B : Type} (m : act A) (k : A -> act B) : act B :=
  fun a =>
    match m a with
    | (a', Ok x) => k x a'
    | (a', Raise e) => (a', Raise e)
    end.

Definition lift {A : Type} (r : result A) : act A := fun a => (a, r).

Definition modify (f : app -> app) : act unit := fun a => (f a, Ok tt).

Definition ALL : string := "Все".

(** The query of [_query_tasks]: the WHERE clause ([None] when the list
    [where] is empty; the list is [where_] here), the parameters and the ORDER BY clause. *)

(** "(title LIKE ? OR details LIKE ? OR category LIKE ?)" *)
Definition search_cond : Sql.cond :=
  Sql.Or (Sql.Or (Sql.Like (Sql.Col c_title) Sql.Param)
                 (Sql.Like (Sql.Col c_details) Sql.Param))
         (Sql.Like (Sql.Col c_category) Sql.Param).

(** [" AND ".join(where)] *)
Definition join_and (where_ : list Sql.cond) : option Sql.cond :=
  match where_ with
  | [] => None
  | c :: cs => Some (fold_left Sql.And cs c)
  end.

Definition query_where (a : app) : list Sql.cond * list Sql.value :=
  let where_ := [] in
  let params := [] in
  let q := Py.strip (var_search a) in
  let '(where_, params) :=
    if Py.truthy q then
      let like := Sql.VText ("%" ++ q ++ "%")%string in
      ((where_ ++ [search_cond])%list, (params ++ [like; like; like])%list)
    else (where_, params) in
  let status := var_filter_status a in
  let where_ :=
    if String.eqb status "Активные" then
      (where_ ++ [Sql.Eq (Sql.Col c_is_done) (Sql.Lit (Sql.VInt 0))])%list
    else if String.eqb status "Выполненные" then
      (where_ ++ [Sql.Eq (Sql.Col c_is_done) (Sql.Lit (Sql.VInt 1))])%list
    else where_ in
  let pri := var_filter_priority a in
  let '(where_, params) :=
    if negb (String.eqb pri ALL) then
      ((where_ ++ [Sql.Eq (Sql.Col c_priority) Sql.Param])%list,
       (params ++ [Sql.VText pri])%list)
    else (where_, params) in
  let cat := var_filter_category a in
  let '(where_, params) :=
    if negb (String.eqb cat ALL) then
      ((where_ ++ [Sql.Eq (Sql.Col c_category) Sql.Param])%list,
       (params ++ [Sql.VText cat])%list)
    else (where_, params) in
  (where_, params).

Definition query_order (a : app) : list Sql.order_term :=
  [(sort_by a, if sort_desc a then Sql.DESC else Sql.ASC);
   (c_order_index, Sql.ASC); (c_id, Sql.ASC)].

(** [_query_tasks(self)] *)
Definition _query_tasks (a : app) : result (list task) :=
  let '(where_, params) := query_where a in
  TaskRepo.fetch (join_and where_) params (query_order a) (repo a).

(** [_apply_row_tags(self, row)]; [today] is [date.today()]. *)
Definition _apply_row_tags (today : Date.date) (row : task)
  : result (list string) :=
  let tags := [] in
  let tags := if negb (is_done row =? 0) then (tags ++ ["done"])%list else tags in
  tags <-
    (if is_done row =? 0 then
       if Py.truthy (due_date row) then
         match Date.strptime (due_date row) with
         | Some d =>
             if Date.ltb d today then Ok (tags ++ ["overdue"])%list
             else if Date.eqb d today then Ok (tags ++ ["today"])%list
             else
               lim <- Date.add_days 3 today ;;
               if Date.leb d lim then Ok (tags ++ ["soon"])%list
               else Ok tags
         | None => Ok tags
         end
       else Ok tags
     else Ok tags) ;;
  Ok (if String.eqb (priority row) "High" then (tags ++ ["high"])%list
      else tags).

Definition status_str (r : task) : string :=
  if negb (is_done r =? 0) then "Выполнена" else "Активна".

(** The loop of [refresh] that fills the table. *)
Fixpoint fill_tree (today : Date.date) (rows : list task) : act unit :=
  match rows with
  | [] => ret tt
  | r :: rows' =>
      bnd (lift (_apply_row_tags today r)) (fun tags =>
      bnd (modify (fun a =>
             set_tree (tree a ++ [mkitem (id r, title r, category r,
                                          priority r, due_date r,
                                          status_str r, created_at r)
                                    tags])%list a)) (fun _ =>
      fill_tree today rows'))
  end.

(** [refresh(self)] *)
Definition refresh (today : Date.date) : act unit :=
  bnd (modify (fun a =>
         let cats := (ALL :: filter Py.truthy
                               (TaskRepo.all_categories (repo a)))%list in
         let a := set_cmb_category cats a in
         let a := if negb (Py.mem (var_filter_category a) cats)
                  then set_filter_category ALL a else a in
         set_tree [] a)) (fun _ =>
  bnd (fun a => lift (_query_tasks a) a) (fun rows =>
  bnd (fill_tree today rows) (fun _ =>
  bnd (fun a => lift (TaskRepo.stats today (repo a)) a) (fun st =>
  modify (set_lbl_stats
            (TaskRepo.mkstats (TaskRepo.total st + 2) (TaskRepo.done st)
               (TaskRepo.active st) (TaskRepo.overdue st))))))).

(** The object after [_make_vars] and [_make_ui], over the database [s]. *)
Definition make_vars (s : TaskRepo.repo) : app :=
  mkapp s EmptyString "Активные" ALL ALL c_order_index false [ALL] [] None.

(** [__init__(self)] *)
Definition init (today : Date.date) (s : TaskRepo.repo) : app * result unit :=
  refresh today (make_vars s).

(** [_sort_by(self, column)] *)
Definition _sort_by (today : Date.date) (column : column) : act unit :=
  bnd (modify (fun a =>
         if column_eqb (sort_by a) column
         then set_sort (sort_by a) (negb (sort_desc a)) a
         else set_sort column false a)) (fun _ =>
  refresh today).

(** [_reset_filters(self)] *)
Definition _reset_filters (today : Date.date) : act unit :=
  bnd (modify (set_filters EmptyString "Активные" ALL ALL)) (fun _ =>
  refresh today).

(** [on_add(self)]; [d] is the dialog as the user leaves it with OK. *)
Definition on_add (now : string) (today : Date.date)
  (d : TaskDialog.dialog) : act unit :=
  match TaskDialog.on_ok d with
  | Some r =>
      bnd (fun a =>
             match TaskRepo.create now (TaskDialog.r_title r)
                     (Some (TaskDialog.r_details r))
                     (Some (TaskDialog.r_category r))
                     (TaskDialog.r_priority r)
                     (Some (TaskDialog.r_due_date r)) (repo a) with
             | Ok (_, s) => (set_repo s a, Ok tt)
             | Raise e => (a, Raise e)
             end) (fun _ =>
      refresh today)
  | None => ret tt
  end.

(** [on_edit(self)] for the selected task [task_id]. *)
Definition on_edit (now : string) (today : Date.date) (task_id : Z)
  (d : TaskDialog.dialog) : act unit :=
  match TaskDialog.on_ok d with
  | Some r =>
      bnd (fun a =>
             match TaskRepo.update now task_id
                     [TaskRepo.f_title (TaskDialog.r_title r);
                      TaskRepo.f_details (Some (TaskDialog.r_details r));
                      TaskRepo.f_category (Some (TaskDialog.r_category r));
                      TaskRepo.f_priority (TaskDialog.r_priority r);
                      TaskRepo.f_due_date (TaskDialog.r_due_date r)]
                     (repo a) with
             | Ok s => (set_repo s a, Ok tt)
             | Raise e => (a, Raise e)
             end) (fun _ =>
      refresh today)
  | None => ret tt
  end.

(** [for tid in ids: self.repo.delete(tid)] *)
Definition delete_each (ids : list Z) : act unit :=
  modify (fun a => set_repo (fold_left (fun s tid => TaskRepo.delete tid s)
                               ids (repo a)) a).

(** [on_delete(self)] for a confirmed dialog; [ids] is what
    [_get_selected_ids] returns for the selection. *)
Definition on_delete (today : Date.date) (ids : list Z) : act unit :=
  match ids with
  | [] => ret tt
  | _ :: _ => bnd (delete_each ids) (fun _ => refresh today)
  end.

(** [for tid in ids: self.repo.update(tid, is_done=new_done)] *)
Fixpoint update_each (clock : nat -> string) (ids : list Z) (new_done : Z)
  : act unit :=
  match ids with
  | [] => ret tt
  | tid :: ids' =>
      bnd (fun a =>
             match TaskRepo.update (clock O) tid [TaskRepo.f_is_done new_done]
                     (repo a) with
             | Ok s => (set_repo s a, Ok tt)
             | Raise e => (a, Raise e)
             end) (fun _ =>
      update_each (fun k => clock (S k)) ids' new_done)
  end.

(** The lines of the table widget that are selected, in the order of the
    table, which is the order of [self.tree.selection()]; [mask] says for
    each line whether it is selected. *)
Definition selection (mask : list bool) (a : app) : list item :=
  map snd (filter fst (combine mask (tree a))).

(** [int(self.tree.item(item_id, "values")[0])]: the table has no column
    named id, so [_get_selected_ids] takes the first value of a line. *)
Definition line_id (i : item) : Z :=
  let '(id, _, _, _, _, _, _) := values i in id.

(** [_get_selected_ids(self)] *)
Definition _get_selected_ids (mask : list bool) (a : app) : list Z :=
  map line_id (selection mask a).

(** [self.tree.set(item, "status")].  The table has the six columns title,
    category, priority, due, status, created, and [refresh] gives each
    line seven values, the id first; a column shows the value at its own
    place, so the column status, the fifth, shows the fifth value: the
    due date. *)
Definition tree_set_status (i : item) : string :=
  let '(_, _, _, _, due_date, _, _) := values i in due_date.

(** The body of [on_toggle_done] after its two reads from the table
    widget: [ids] is what [_get_selected_ids] returned and [status] what
    [self.tree.set(first_item, "status")] returned. *)
Definition on_toggle_done (clock : nat -> string) (today : Date.date)
  (ids : list Z) (status : string) : act unit :=
  match ids with
  | [] => ret tt
  | _ :: _ =>
      let first_done := if String.eqb status "Выполнена" then 1 else 0 in
      let new_done := if first_done =? 0 then 1 else 0 in
      bnd (update_each clock ids new_done) (fun _ => refresh today)
  end.

(** [on_toggle_done(self)] with the lines of [mask] selected. *)
Definition on_toggle_done_selected (clock : nat -> string)
  (today : Date.date) (mask : list bool) : act unit :=
  fun a =>
    match selection mask a with
    | [] => (a, Ok tt)
    | first_item :: _ =>
        on_toggle_done clock today (_get_selected_ids mask a)
          (tree_set_status first_item) a
    end.

(** [on_clear_done(self)] for a confirmed dialog. *)
Definition on_clear_done (today : Date.date) : act unit :=
  bnd (modify (fun a => set_repo (TaskRepo.bulk_delete_done (repo a)) a))
    (fun _ => refresh today).

(** The header written by [on_export_csv]. *)
Definition csv_header : list string :=
  ["id"; "title"; "details"; "category"; "priority"; "due_date"; "is_done";
   "created_at"; "updated_at"; "order_index"].

Definition csv_columns : list column :=
  [c_id; c_title; c_details; c_category; c_priority; c_due_date; c_is_done;
   c_created_at; c_updated_at; c_order_index].

(** [on_export_csv(self)]: the file written, for a chosen path. *)
Definition on_export_csv (a : app) : result Csv.file :=
  rows <- _query_tasks a ;;
  Ok (fold_left
        (fun f r => Csv.writerow (map (fun c => Sql.get c r) csv_columns) f)
        rows
        (Csv.writerow (map Sql.VText csv_header) [])).

(** The body of the loop of [on_import_csv] for one row: [None] is
    [continue], otherwise the arguments given to [create]. *)
Definition import_row (row : Csv.dict)
  : result (option (string * option string * option string
                    * string * option string)) :=
  match Csv.get row "title" (Some EmptyString) with
  | None => Raise AttributeError
  | Some t =>
      let title := Py.strip t in
      if negb (Py.truthy title) then Ok None
      else
        let details := Csv.get row "details" (Some EmptyString) in
        let category := Csv.get row "category" (Some EmptyString) in
        (* both calls of row.get("priority") read the same binding *)
        let priority :=
          match Csv.get row "priority" None with
          | Some p => if Py.mem p PRIORITIES then p else "Medium"
          | None => "Medium"
          end in
        match Csv.get row "due_date" (Some EmptyString) with
        | None => Raise AttributeError
        | Some dd =>
            let due_date := Py.strip dd in
            let due_date :=
              if Py.truthy due_date then
                match Date.strptime due_date with
                | Some _ => due_date
                | None => EmptyString
                end
              else due_date in
            Ok (Some (title, details, category, priority, Some due_date))
        end
  end.

(** The loop of [on_import_csv]; [clock k] is the time at the [k]-th
    reading of the clock. *)
Fixpoint import_rows (clock : nat -> string) (rows : list Csv.dict)
  : act unit :=
  match rows with
  | [] => ret tt
  | row :: rows' =>
      bnd (lift (import_row row)) (fun args =>
      match args with
      | None => import_rows clock rows'
      | Some (title, details, category, priority, due_date) =>
          bnd (fun a =>
                 match TaskRepo.create (clock O) title details category
                         priority due_date (repo a) with
                 | Ok (_, s) => (set_repo s a, Ok tt)
                 | Raise e => (a, Raise e)
                 end) (fun _ =>
          import_rows (fun k => clock (S k)) rows')
      end)
  end.

(** [on_import_csv(self)] for a chosen, readable file [f] and a confirmed
    dialog. *)
Definition on_import_csv (clock : nat -> string) (today : Date.date)
  (f : Csv.file) : act unit :=
  bnd (import_rows clock (Csv.DictReader (Csv.accepted (Csv.reopen f))))
    (fun _ =>
  if Csv.raises (Csv.reopen f) then lift (Raise CsvError)
  else refresh today).

End ToDoApp.

(** ** Scenarios used by the properties *)

(** The arguments of one call of [create], with the time of the call. *)
Record create_args : Type := mkargs {
  a_now : string;
  a_title : string;
  a_details : option string;
  a_category : option string;
  a_priority : string;
  a_due_date : option string
}.

(** Calls of [create] one after the other; the ids returned and the final
    state. *)
Fixpoint create_all (l : list create_args) (s : TaskRepo.repo)
  : result (list Z * TaskRepo.repo) :=
  match l with
  | [] => Ok ([], s)
  | x :: l' =>
      r <- TaskRepo.create (a_now x) (a_title x) (a_details x) (a_category x)
             (a_priority x) (a_due_date x) s ;;
      r' <- create_all l' (snd r) ;;
      Ok (fst r :: fst r', snd r')
  end.

(** ** Vocabulary of the properties *)

(** A handler keeps the relation [R] between the state it starts from and
    the state it leaves, exception or not. *)
Definition keeps (R : ToDoApp.app -> ToDoApp.app -> Prop) {A : Type}
  (m : ToDoApp.act A) : Prop :=
  forall a, R a (fst (m a)).

(** [refresh] rewrites the widgets; it leaves the database, the search
    text, the status and priority filters and the sort settings alone. *)
Definition same_core (a a' : ToDoApp.app) : Prop :=
  ToDoApp.repo a' = ToDoApp.repo a
  /\ ToDoApp.var_search a' = ToDoApp.var_search a
  /\ ToDoApp.var_filter_status a' = ToDoApp.var_filter_status a
  /\ ToDoApp.var_filter_priority a' = ToDoApp.var_filter_priority a
  /\ ToDoApp.sort_by a' = ToDoApp.sort_by a
  /\ ToDoApp.sort_desc a' = ToDoApp.sort_desc a.

(** [adds_not_done a a']: the table of [a'] is the table of [a] with rows
    added at the end, each with the completion flag 0. *)
Definition adds_not_done (a a' : ToDoApp.app) : Prop :=
  exists new,
    TaskRepo.rows (ToDoApp.repo a') = (TaskRepo.rows (ToDoApp.repo a) ++ new)%list
    /\ Forall (fun t => is_done t = 0) new.


(** A value of [date.today()]: a date of the calendar, in a year that every
    platform's "%Y" writes with four digits. *)
Definition clock_date (d : Date.date) : Prop :=
  Date.valid d = true /\ 1000 <= Date.year d.

(** A row counts as overdue on the day whose text is [today_str]: not done,
    a due date that is not empty and that comes before [today_str] in the
    order of strings. *)
Definition overdue_row (today_str : string) (t : task) : bool :=
  (is_done t =? 0)
  && negb (String.eqb (due_date t) EmptyString)
  && String.ltb (due_date t) today_str.

Definition count_rows (p : task -> bool) (l : list task) : Z :=
  Z.of_nat (List.length (filter p l)).

(** *** Filters of the query, row by row *)

(** [text LIKE pattern] as a condition: NULL is not a match. *)
Definition like_text (o : option string) (pattern : string) : bool :=
  match o with
  | Some s => Sql.like s pattern
  | None => false
  end.

(** The search filter: active when the stripped search text is not empty;
    then one of title, details, category is LIKE %text%. *)
Definition search_filter (a : ToDoApp.app) (t : task) : bool :=
  let q := Py.strip (ToDoApp.var_search a) in
  if Py.truthy q then
    let p := ("%" ++ q ++ "%")%string in
    like_text (Some (title t)) p || like_text (details t) p
    || like_text (category t) p
  else true.

(** The status filter: active-only, done-only, or anything else for all. *)
Definition status_filter (a : ToDoApp.app) (t : task) : bool :=
  if String.eqb (ToDoApp.var_filter_status a) "Активные" then is_done t =? 0
  else if String.eqb (ToDoApp.var_filter_status a) "Выполненные"
       then is_done t =? 1
       else true.

(** The priority filter: absent for the sentinel, else equality. *)
Definition priority_filter (a : ToDoApp.app) (t : task) : bool :=
  if String.eqb (ToDoApp.var_filter_priority a) ToDoApp.ALL then true
  else String.eqb (priority t) (ToDoApp.var_filter_priority a).

(** The category filter: absent for the sentinel, else equality. *)
Definition category_filter (a : ToDoApp.app) (t : task) : bool :=
  if String.eqb (ToDoApp.var_filter_category a) ToDoApp.ALL then true
  else match category t with
       | Some c => String.eqb c (ToDoApp.var_filter_category a)
       | None => false
       end.










(** A row passes the query when it passes every filter. *)
Definition all_filters (a : ToDoApp.app) (t : task) : bool :=
  search_filter a t && status_filter a t && priority_filter a t
  && category_filter a t.


(** Two rows in the order asked for by [o]. *)
Definition in_order (o : list Sql.order_term) (x y : task) : Prop :=
  Sql.order_leb o x y = true.

(** Two rows in order_index order, ties by id. *)
Definition index_then_id (x y : task) : Prop :=
  order_index x < order_index y
  \/ (order_index x = order_index y /\ id x <= id y).

(** *** Tags of a row, as a function of the row and the day

    [lim] is the day three days after [today]. *)

Definition done_tags (row : task) : list string :=
  if is_done row =? 0 then [] else ["done"].

Definition deadline_tags (today lim : Date.date) (row : task) : list string :=
  if is_done row =? 0 then
    match Date.strptime (due_date row) with
    | Some d =>
        match Date.compare d today with
        | Datatypes.Lt => ["overdue"]
        | Datatypes.Eq => ["today"]
        | Datatypes.Gt =>
            match Date.compare d lim with
            | Datatypes.Gt => []
            | _ => ["soon"]
            end
        end
    | None => []
    end
  else [].

Definition high_tags (row : task) : list string :=
  if String.eqb (priority row) "High" then ["high"] else [].

(** The values shown for a row in the table widget. *)
Definition item_values (r : task)
  : Z * string * option string * string * string * string * string :=
  (id r, title r, category r, priority r, due_date r, ToDoApp.status_str r,
   created_at r).

(** The widgets aside, two states of the application are the same. *)
Definition same_query (a a' : ToDoApp.app) : Prop :=
  ToDoApp.repo a' = ToDoApp.repo a
  /\ ToDoApp.var_search a' = ToDoApp.var_search a
  /\ ToDoApp.var_filter_status a' = ToDoApp.var_filter_status a
  /\ ToDoApp.var_filter_priority a' = ToDoApp.var_filter_priority a
  /\ ToDoApp.var_filter_category a' = ToDoApp.var_filter_category a
  /\ ToDoApp.sort_by a' = ToDoApp.sort_by a
  /\ ToDoApp.sort_desc a' = ToDoApp.sort_desc a.

(** An item of the table widget shows the row [r] with the tags that
    [_apply_row_tags] gives it. *)
Definition shows (today : Date.date) (i : ToDoApp.item) (r : task) : Prop :=
  ToDoApp.values i = item_values r
  /\ ToDoApp._apply_row_tags today r = Ok (ToDoApp.tags i).

(** *** CSV round trip *)

(** The record that [on_export_csv] writes for a row. *)
Definition export_record (r : task) : Csv.record :=
  map Csv.cell (map (fun c => Sql.get c r) ToDoApp.csv_columns).

(** The five fields that a round trip is about; a NULL text reads as the
    empty text. *)
Definition core (t : task) : string * string * string * string * string :=
  (title t, TaskRepo.or_empty (details t), TaskRepo.or_empty (category t),
   priority t, due_date t).

Definition no_cr (s : string) : Prop := Csv.universal_newlines s = s.

Definition stripped (s : string) : Prop := Py.strip s = s.

(** The form that the handlers of the program give to the rows they
    write: a title that is not empty, title and due date without
    surrounding white space, a priority of the table's three. *)
Definition well_formed (t : task) : Prop :=
  title t <> EmptyString
  /\ stripped (title t)
  /\ In (priority t) PRIORITIES
  /\ stripped (due_date t).

(** The rows that the import takes back as they are: well formed, with a
    due date that is empty or accepted by [strptime], and no carriage
    return in the five texts. *)
Definition round_trips (t : task) : Prop :=
  well_formed t
  /\ (due_date t = EmptyString \/ Date.strptime (due_date t) <> None)
  /\ no_cr (title t)
  /\ no_cr (TaskRepo.or_empty (details t))
  /\ no_cr (TaskRepo.or_empty (category t))
  /\ no_cr (due_date t).

(** A handler keeps the rows of the table well formed. *)
Definition keeps_well_formed (a a' : ToDoApp.app) : Prop :=
  Forall well_formed (TaskRepo.rows (ToDoApp.repo a)) ->
  Forall well_formed (TaskRepo.rows (ToDoApp.repo a')).


(** No filter is active: the view is the whole table. *)
Definition no_filter (a : ToDoApp.app) : Prop :=
  Py.strip (ToDoApp.var_search a) = EmptyString
  /\ ToDoApp.var_filter_status a = "Все"
  /\ ToDoApp.var_filter_priority a = ToDoApp.ALL
  /\ ToDoApp.var_filter_category a = ToDoApp.ALL.

(** *** The table as the handlers keep it *)

(** The completion flag is 0 or 1. *)
Definition flag_ok (t : task) : Prop := is_done t = 0 \/ is_done t = 1.

(** The ids of the table are distinct and none is above the AUTOINCREMENT
    counter. *)
Definition ids_ok (s : TaskRepo.repo) : Prop :=
  NoDup (map id (TaskRepo.rows s))
  /\ Forall (fun t => id t <= TaskRepo.seq s) (TaskRepo.rows s).

(** What every handler keeps true of the table. *)
Definition table_ok (s : TaskRepo.repo) : Prop :=
  Forall well_formed (TaskRepo.rows s)
  /\ Forall flag_ok (TaskRepo.rows s)
  /\ ids_ok s.

(** A handler keeps the flags and the ids of the table as they should
    be. *)
Definition keeps_flags_ids (a a' : ToDoApp.app) : Prop :=
  Forall flag_ok (TaskRepo.rows (ToDoApp.repo a)) /\ ids_ok (ToDoApp.repo a) ->
  Forall flag_ok (TaskRepo.rows (ToDoApp.repo a')) /\ ids_ok (ToDoApp.repo a').

(** What [on_toggle_done] does to a row [t] for the selection [ids] and
    the new flag [v]: every column but [is_done] and [updated_at] is kept;
    a selected row gets the flag [v], a row outside the selection is
    untouched. *)
Definition toggled (ids : list Z) (v : Z) (t t' : task) : Prop :=
  id t' = id t /\ title t' = title t /\ details t' = details t
  /\ category t' = category t /\ priority t' = priority t
  /\ due_date t' = due_date t /\ order_index t' = order_index t
  /\ created_at t' = created_at t
  /\ (In (id t) ids -> is_done t' = v)
  /\ (~ In (id t) ids -> t' = t).

(** [refresh] leaves the category filter and the choices of its combobox
    alone once it has set them. *)
Definition same_choice (a a' : ToDoApp.app) : Prop :=
  ToDoApp.var_filter_category a' = ToDoApp.var_filter_category a
  /\ ToDoApp.cmb_category a' = ToDoApp.cmb_category a.

(** Strictly ascending texts. *)
Definition ascending (l : list string) : Prop :=
  StronglySorted (fun x y => String.compare x y = Datatypes.Lt) l.

(** A due date as [strftime] writes it, or none. *)
Definition canonical_due (t : task) : Prop :=
  due_date t = EmptyString
  \/ exists d, Date.valid d = true /\ due_date t = Date.strftime d.

(** The row is shown with the tag "overdue" on the day [today]. *)
Definition tagged_overdue (today : Date.date) (t : task) : bool :=
  match ToDoApp._apply_row_tags today t with
  | Ok tags => Py.mem "overdue" tags
  | Raise _ => false
  end.

(** A row as the import writes it: well formed, not done, with a due
    date that is empty or accepted by [strptime], and never updated since
    its creation. *)
Definition imported (t : task) : Prop :=
  well_formed t
  /\ is_done t = 0
  /\ (due_date t = EmptyString \/ Date.strptime (due_date t) <> None)
  /\ updated_at t = created_at t.

(** [adds_imported a a']: the table of [a'] is the table of [a] with such
    rows added at the end. *)
Definition adds_imported (a a' : ToDoApp.app) : Prop :=
  exists new,
    TaskRepo.rows (ToDoApp.repo a')
    = (TaskRepo.rows (ToDoApp.repo a) ++ new)%list
    /\ Forall imported new.



(** The application with the status filter set to [st]. *)
Definition with_status (st : string) (a : ToDoApp.app) : ToDoApp.app :=
  ToDoApp.set_filters (ToDoApp.var_search a) st (ToDoApp.var_filter_priority a)
    (ToDoApp.var_filter_category a) a.

(** The label of the statistics is left as it is. *)
Definition same_label (a a' : ToDoApp.app) : Prop :=
  ToDoApp.lbl_stats a' = ToDoApp.lbl_stats a.

(** No cell of the record that the export writes for the row has more
    characters than the reader accepts. *)
Definition within_limit (r : task) : Prop :=
  Csv.too_long (map Csv.universal_newlines (export_record r)) = false.


(** *** The sort clause *)

(** The ORDER BY clause in the words of the specification: the chosen
    column with the chosen direction, then order_index ascending, then
    id ascending. *)
Definition sort_clause (c : column) (desc : bool) : list Sql.order_term :=
  [(c, if desc then Sql.DESC else Sql.ASC);
   (c_order_index, Sql.ASC); (c_id, Sql.ASC)].

(** [x] comes before [y] in the list. *)
Definition before (x y : task) (l : list task) : Prop :=
  exists l1 l2 l3, l = (l1 ++ x :: l2 ++ y :: l3)%list.
(** * Properties *)

(** ** Results *)

Lemma bind_Ok {A B : Type} (r : result A) (k : A -> result B) (b : B) :
  bind r k = Ok b -> exists a, r = Ok a /\ k a = Ok b.
Proof.
  destruct r as [a|e]; simpl; intros H; [exists a; auto | discriminate].
Qed.

(** ** MAX over a table *)

Section SqlMax.

Variable f : task -> Z.

Lemma fold_max_le (l : list task) (a : Z) :
  a <= fold_left (fun m r => Z.max m (f r)) l a.
Proof.
  revert a; induction l as [|x l IH]; intros a; simpl; [lia|].
  specialize (IH (Z.max a (f x))); lia.
Qed.

Lemma fold_max_upper (l : list task) (a : Z) (r : task) :
  In r l -> f r <= fold_left (fun m r => Z.max m (f r)) l a.
Proof.
  revert a; induction l as [|x l IH]; intros a Hin; simpl; [destruct Hin|].
  destruct Hin as [->|Hin].
  - pose proof (fold_max_le l (Z.max a (f r))); lia.
  - apply IH; exact Hin.
Qed.

Lemma fold_max_attained (l : list task) (a : Z) :
  fold_left (fun m r => Z.max m (f r)) l a = a
  \/ exists r, In r l /\ fold_left (fun m r => Z.max m (f r)) l a = f r.
Proof.
  revert a; induction l as [|x l IH]; intros a; simpl; [left; reflexivity|].
  destruct (IH (Z.max a (f x))) as [E|[r [Hin E]]].
  - rewrite E. destruct (Z.max_spec a (f x)) as [[_ ->]|[_ ->]].
    + right; exists x; auto.
    + left; reflexivity.
  - right; exists r; auto.
Qed.

Lemma sql_max_empty : TaskRepo.sql_max f [] = None.
Proof. reflexivity. Qed.

Lemma sql_max_upper (l : list task) (m : Z) (r : task) :
  TaskRepo.sql_max f l = Some m -> In r l -> f r <= m.
Proof.
  destruct l as [|x l]; simpl; [discriminate|].
  intros [= <-] [->|Hin].
  - apply fold_max_le.
  - apply fold_max_upper; exact Hin.
Qed.

Lemma sql_max_attained (l : list task) :
  l <> [] ->
  exists m r, TaskRepo.sql_max f l = Some m /\ In r l /\ f r = m.
Proof.
  destruct l as [|x l]; [congruence|]; intros _; simpl.
  destruct (fold_max_attained l (f x)) as [E|[r [Hin E]]].
  - exists (f x), x; rewrite E; auto.
  - exists (f r), r; rewrite E; auto.
Qed.

End SqlMax.

Lemma check_priority_iff (p : string) :
  TaskRepo.check_priority p = true <-> In p PRIORITIES.
Proof.
  unfold TaskRepo.check_priority, PRIORITIES; simpl.
  rewrite !orb_true_iff, !String.eqb_eq.
  intuition; try discriminate; subst; auto.
Qed.

(** What a successful [create] does to the state. *)
Lemma create_Ok now title details category priority due_date s :
  In priority PRIORITIES ->
  TaskRepo.create now title details category priority due_date s
  = Ok (TaskRepo.next_rowid s,
        TaskRepo.mkrepo
          (TaskRepo.rows s ++
             [mktask (TaskRepo.next_rowid s) title details category priority
                (TaskRepo.or_empty due_date) 0
                (TaskRepo.coalesce
                   (TaskRepo.sql_max order_index (TaskRepo.rows s)) 0 + 1)
                now now])%list
          (TaskRepo.next_rowid s)).
Proof.
  intros Hp; unfold TaskRepo.create.
  apply check_priority_iff in Hp; rewrite Hp; reflexivity.
Qed.

Lemma next_rowid_fresh (s : TaskRepo.repo) (r : task) :
  In r (TaskRepo.rows s) -> id r < TaskRepo.next_rowid s.
Proof.
  intros Hin; unfold TaskRepo.next_rowid.
  destruct (TaskRepo.sql_max id (TaskRepo.rows s)) as [m|] eqn:E.
  - pose proof (sql_max_upper id _ m r E Hin); simpl; lia.
  - destruct (TaskRepo.rows s); [destruct Hin | discriminate].
Qed.

(** The order_index column of a table that holds 1..n has maximum n. *)
Lemma max_of_iota (l : list task) (n : nat) :
  map order_index l = map Z.of_nat (seq 1 n) ->
  TaskRepo.coalesce (TaskRepo.sql_max order_index l) 0 = Z.of_nat n.
Proof.
  intros H.
  assert (Hlen : List.length l = n)
    by (rewrite <- (length_map order_index), H, length_map, length_seq; reflexivity).
  destruct l as [|x l].
  - simpl in Hlen; subst n; reflexivity.
  - destruct (sql_max_attained order_index (x :: l)) as [m [r [E [Hin Hr]]]];
      [discriminate|].
    rewrite E; simpl.
    assert (Hrange : forall t, In t (x :: l) -> 1 <= order_index t <= Z.of_nat n).
    { intros t Ht. apply (in_map order_index) in Ht. rewrite H in Ht.
      apply in_map_iff in Ht. destruct Ht as [k [<- Hk]].
      apply in_seq in Hk. lia. }
    assert (Hn : In (Z.of_nat n) (map order_index (x :: l))).
    { rewrite H. apply in_map. apply in_seq. simpl in Hlen. lia. }
    apply in_map_iff in Hn. destruct Hn as [t [Ht Hint]].
    pose proof (sql_max_upper order_index _ m t E Hint).
    pose proof (Hrange r Hin). lia.
Qed.

Lemma create_all_iota (l : list create_args) :
  forall (s : TaskRepo.repo) (n : nat),
    Forall (fun x => In (a_priority x) PRIORITIES) l ->
    map order_index (TaskRepo.rows s) = map Z.of_nat (seq 1 n) ->
    exists ids s',
      create_all l s = Ok (ids, s')
      /\ List.length ids = List.length l
      /\ map order_index (TaskRepo.rows s')
         = map Z.of_nat (seq 1 (n + List.length l)).
Proof.
  induction l as [|x l IH]; intros s n Hall Hs; simpl.
  - exists [], s. rewrite Nat.add_0_r. auto.
  - inversion Hall as [|? ? Hx Hl]; subst.
    rewrite (create_Ok _ _ _ _ _ _ s Hx); simpl.
    rewrite (max_of_iota _ n Hs).
    match goal with |- context [create_all l ?s1] => set (s1' := s1) end.
    destruct (IH s1' (S n) Hl) as [ids [s' [E [Hlen Hidx]]]].
    { subst s1'. cbn [TaskRepo.rows]. rewrite map_app, Hs, seq_S, map_app.
      cbn [map order_index]. do 2 f_equal. lia. }
    exists (TaskRepo.next_rowid s :: ids), s'.
    rewrite E; simpl. repeat split; [congruence|].
    rewrite Hidx. do 2 f_equal. lia.
Qed.

(** C1.  [create] gives the new task the order_index max(existing)+1, which
    is 1 on an empty table: it is above every order_index of the table and
    one more than one of them.  Both timestamps are the current time, the
    value returned is the id of the new row, and the other rows stay as they
    are.  N calls in sequence from an empty table give the order_index
    values 1, 2, ..., N. *)
Theorem create_order_index :
  (forall now title details category priority due_date s,
      In priority PRIORITIES ->
      exists t,
        TaskRepo.create now title details category priority due_date s
        = Ok (id t, TaskRepo.mkrepo (TaskRepo.rows s ++ [t])%list (id t))
        /\ (TaskRepo.rows s = [] -> order_index t = 1)
        /\ (forall r, In r (TaskRepo.rows s) -> order_index r < order_index t)
        /\ (TaskRepo.rows s <> [] ->
            exists r, In r (TaskRepo.rows s)
                      /\ order_index t = order_index r + 1)
        /\ created_at t = now /\ updated_at t = now
        /\ (forall r, In r (TaskRepo.rows s) -> id r <> id t))
  /\ (forall l s,
         Forall (fun x => In (a_priority x) PRIORITIES) l ->
         TaskRepo.rows s = [] ->
         exists ids s',
           create_all l s = Ok (ids, s')
           /\ map order_index (TaskRepo.rows s')
              = map Z.of_nat (seq 1 (List.length l))).
Proof.
  split.
  - intros now title details category priority due_date s Hp.
    exists (mktask (TaskRepo.next_rowid s) title details category priority
              (TaskRepo.or_empty due_date) 0
              (TaskRepo.coalesce
                 (TaskRepo.sql_max order_index (TaskRepo.rows s)) 0 + 1)
              now now).
    split; [exact (create_Ok _ _ _ _ _ _ s Hp)|].
    simpl. repeat split.
    + intros ->; reflexivity.
    + intros r Hin.
      destruct (TaskRepo.sql_max order_index (TaskRepo.rows s)) as [m|] eqn:E.
      * pose proof (sql_max_upper order_index _ m r E Hin); simpl; lia.
      * destruct (TaskRepo.rows s); [destruct Hin | discriminate].
    + intros Hne.
      destruct (sql_max_attained order_index _ Hne) as [m [r [E [Hin Hr]]]].
      exists r; rewrite E; simpl; split; [exact Hin | lia].
    + intros r Hin. pose proof (next_rowid_fresh s r Hin). lia.
  - intros l s Hall Hs.
    destruct (create_all_iota l s 0 Hall) as [ids [s' [E [_ H]]]].
    + rewrite Hs; reflexivity.
    + exists ids, s'; auto.
Qed.

Lemma create_order_index_witness :
  (exists t,
      TaskRepo.create "2025-09-05T10:00:00" "milk" (Some "") (Some "home")
        "High" (Some "2025-09-06") TaskRepo.empty
      = Ok (id t, TaskRepo.mkrepo [t] (id t))
      /\ order_index t = 1)
  /\ exists ids s',
      create_all
        [mkargs "t1" "a" None None "Low" None;
         mkargs "t2" "b" None None "Medium" (Some "2025-01-01");
         mkargs "t3" "c" None None "High" None] TaskRepo.empty
      = Ok (ids, s')
      /\ map order_index (TaskRepo.rows s') = [1; 2; 3].
Proof.
  split.
  - assert (Hp : In "High" PRIORITIES) by (simpl; auto).
    destruct (proj1 create_order_index "2025-09-05T10:00:00" "milk" (Some "")
                (Some "home") "High" (Some "2025-09-06") TaskRepo.empty Hp)
      as [t [E [H1 _]]].
    exists t; split; [exact E | apply H1; reflexivity].
  - assert (Hall : Forall (fun x => In (a_priority x) PRIORITIES)
                     [mkargs "t1" "a" None None "Low" None;
                      mkargs "t2" "b" None None "Medium" (Some "2025-01-01");
                      mkargs "t3" "c" None None "High" None])
      by (repeat constructor; simpl; auto).
    destruct (proj2 create_order_index _ TaskRepo.empty Hall eq_refl)
      as [ids [s' [E H]]].
    exists ids, s'; split; [exact E | exact H].
Defined.

(** ** What the handlers leave alone *)


Lemma same_core_refl a : same_core a a.
Proof. repeat split. Qed.

Lemma same_core_trans a b c : same_core a b -> same_core b c -> same_core a c.
Proof.
  unfold same_core; intros (?&?&?&?&?&?) (?&?&?&?&?&?).
  repeat split; congruence.
Qed.

Section Frames.

Variable R : ToDoApp.app -> ToDoApp.app -> Prop.
Hypothesis R_refl : forall a, R a a.
Hypothesis R_trans : forall a b c, R a b -> R b c -> R a c.


Lemma keeps_ret {A : Type} (x : A) : keeps R (ToDoApp.ret x).
Proof. intros a; apply R_refl. Qed.

Lemma keeps_lift {A : Type} (r : result A) : keeps R (ToDoApp.lift r).
Proof. intros a; apply R_refl. Qed.

Lemma keeps_read {A : Type} (f : ToDoApp.app -> result A) :
  keeps R (fun a => ToDoApp.lift (f a) a).
Proof. intros a; apply R_refl. Qed.

Lemma keeps_bnd {A B : Type} (m : ToDoApp.act A) (k : A -> ToDoApp.act B) :
  keeps R m -> (forall x, keeps R (k x)) -> keeps R (ToDoApp.bnd m k).
Proof.
  intros Hm Hk a; unfold ToDoApp.bnd.
  specialize (Hm a). destruct (m a) as [a' [x|e]]; simpl in *.
  - eapply R_trans; [exact Hm | apply Hk].
  - exact Hm.
Qed.

Lemma keeps_modify (f : ToDoApp.app -> ToDoApp.app) :
  (forall a, R a (f a)) -> keeps R (ToDoApp.modify f).
Proof. intros H a; apply H. Qed.

End Frames.

Lemma fill_tree_core today rows : keeps same_core (ToDoApp.fill_tree today rows).
Proof.
  induction rows as [|r rows IH]; simpl.
  - apply keeps_ret, same_core_refl.
  - apply keeps_bnd; [exact same_core_trans | apply keeps_lift, same_core_refl |].
    intros tags. apply keeps_bnd; [exact same_core_trans | | intros _; exact IH].
    apply keeps_modify; intros a; repeat split.
Qed.

Lemma refresh_core today : keeps same_core (ToDoApp.refresh today).
Proof.
  unfold ToDoApp.refresh.
  apply keeps_bnd; [exact same_core_trans | |intros _].
  { apply keeps_modify; intros a.
    destruct (negb _); repeat split. }
  apply keeps_bnd; [exact same_core_trans | apply keeps_read, same_core_refl |].
  intros rows.
  apply keeps_bnd; [exact same_core_trans | apply fill_tree_core |]; intros _.
  apply keeps_bnd; [exact same_core_trans | apply keeps_read, same_core_refl |].
  intros st. apply keeps_modify; intros a; repeat split.
Qed.

(** ** Import: rows are only added, through [create] *)


Lemma adds_not_done_refl a : adds_not_done a a.
Proof. exists []; rewrite app_nil_r; auto. Qed.

Lemma adds_not_done_trans a b c :
  adds_not_done a b -> adds_not_done b c -> adds_not_done a c.
Proof.
  intros [n1 [E1 F1]] [n2 [E2 F2]]. exists (n1 ++ n2)%list; split.
  - rewrite E2, E1, app_assoc; reflexivity.
  - apply Forall_app; auto.
Qed.

Lemma create_adds now title details category priority due_date s r s' :
  TaskRepo.create now title details category priority due_date s = Ok (r, s') ->
  exists t, TaskRepo.rows s' = (TaskRepo.rows s ++ [t])%list
            /\ id t = r /\ is_done t = 0 /\ TaskRepo.seq s' = r.
Proof.
  unfold TaskRepo.create.
  destruct (TaskRepo.check_priority priority); [|discriminate].
  intros [= <- <-]. eexists; simpl; repeat split.
Qed.

Lemma import_rows_adds rows :
  forall clock, keeps adds_not_done (ToDoApp.import_rows clock rows).
Proof.
  induction rows as [|row rows IH]; intros clock; simpl.
  - apply keeps_ret, adds_not_done_refl.
  - apply keeps_bnd;
      [exact adds_not_done_trans | apply keeps_lift, adds_not_done_refl |].
    intros [[[[[title details] category] priority] due_date]|]; [|apply IH].
    apply keeps_bnd; [exact adds_not_done_trans | | intros _; apply IH].
    intros a.
    destruct (TaskRepo.create _ _ _ _ _ _ _) as [[r s']|e] eqn:E; simpl.
    + destruct (create_adds _ _ _ _ _ _ _ _ _ E) as [t [Hr [_ [Hd _]]]].
      exists [t]; split; [exact Hr | constructor; auto].
    + apply adds_not_done_refl.
Qed.

(** C10.  A row inserted by [create] has is_done = 0, and so has every row
    added by a CSV import, whatever the file holds (an is_done column is
    never read); the import only adds rows, also when it ends in an
    exception. *)
Theorem create_and_import_not_done :
  (forall now title details category priority due_date s r s',
      TaskRepo.create now title details category priority due_date s
      = Ok (r, s') ->
      exists t, TaskRepo.rows s' = (TaskRepo.rows s ++ [t])%list
                /\ id t = r /\ is_done t = 0)
  /\ (forall clock today f a,
         exists new,
           TaskRepo.rows (ToDoApp.repo (fst (ToDoApp.on_import_csv clock today f a)))
           = (TaskRepo.rows (ToDoApp.repo a) ++ new)%list
           /\ Forall (fun t => is_done t = 0) new).
Proof.
  split.
  - intros now title details category priority due_date s r s' E.
    destruct (create_adds _ _ _ _ _ _ _ _ _ E) as [t [H1 [H2 [H3 _]]]].
    exists t; auto.
  - intros clock today f a.
    assert (H : keeps adds_not_done (ToDoApp.on_import_csv clock today f)).
    { unfold ToDoApp.on_import_csv.
      apply keeps_bnd; [exact adds_not_done_trans | apply import_rows_adds |].
      intros _.
      destruct (Csv.raises (Csv.reopen f));
        [apply keeps_lift, adds_not_done_refl|].
      intros b. destruct (refresh_core today b) as [E _].
      exists []; rewrite E, app_nil_r; auto. }
    exact (H a).
Qed.

Lemma create_and_import_not_done_witness :
  (exists t,
      TaskRepo.rows
        (TaskRepo.mkrepo [mktask 1 "a" None None "Low" "" 0 1 "t0" "t0"] 1)
      = ([] ++ [t])%list /\ id t = 1 /\ is_done t = 0)
  /\ exists new,
      TaskRepo.rows
        (ToDoApp.repo
           (fst (ToDoApp.on_import_csv (fun _ => "t1") (Date.mkdate 2025 9 5)
                   [["title"; "is_done"]; ["x"; "1"]]
                   (ToDoApp.make_vars TaskRepo.empty))))
      = ([] ++ new)%list
      /\ Forall (fun t => is_done t = 0) new.
Proof.
  split.
  - exact (proj1 create_and_import_not_done "t0" "a" None None "Low" None
             TaskRepo.empty 1
             (TaskRepo.mkrepo [mktask 1 "a" None None "Low" "" 0 1 "t0" "t0"] 1)
             eq_refl).
  - exact (proj2 create_and_import_not_done (fun _ => "t1")
             (Date.mkdate 2025 9 5) [["title"; "is_done"]; ["x"; "1"]]
             (ToDoApp.make_vars TaskRepo.empty)).
Defined.

(** ** The add/edit dialog *)

(** C9, at a failing input.  The user picks High in the priority box and
    confirms; the result of the dialog, and the row that [on_add] stores,
    carry Medium. *)
Theorem dialog_priority_forced :
  TaskDialog.on_ok (TaskDialog.mkdialog "report" "" "" "High" "")
  = Some (TaskDialog.mkresult "report" "" "" "Medium" "")
  /\ map priority
       (TaskRepo.rows
          (ToDoApp.repo
             (fst (ToDoApp.on_add "2025-09-05T10:00:00" (Date.mkdate 2025 9 5)
                     (TaskDialog.mkdialog "report" "" "" "High" "")
                     (ToDoApp.make_vars TaskRepo.empty)))))
     = ["Medium"].
Proof. split; reflexivity. Qed.

(** The same for every dialog: whatever the priority box holds, [on_ok]
    answers Medium. *)
Lemma on_ok_priority (d : TaskDialog.dialog) (r : TaskDialog.result_dict) :
  TaskDialog.on_ok d = Some r -> TaskDialog.r_priority r = "Medium".
Proof.
  unfold TaskDialog.on_ok.
  destruct (negb _); [discriminate|]. intros [= <-]; reflexivity.
Qed.

(** ** UPDATE: the columns set and the columns kept *)

Lemma column_eqb_eq (a b : column) : column_eqb a b = true <-> a = b.
Proof. destruct a, b; simpl; split; intros H; try reflexivity; discriminate. Qed.

Lemma column_eqb_refl (a : column) : column_eqb a a = true.
Proof. apply column_eqb_eq; reflexivity. Qed.

Lemma column_eqb_neq (a b : column) : column_eqb a b = false <-> a <> b.
Proof.
  rewrite <- column_eqb_eq. destruct (column_eqb a b); split; congruence.
Qed.

Lemma set_field_id t f : id (TaskRepo.set_field t f) = id t.
Proof. destruct f; reflexivity. Qed.

Lemma set_field_same t f :
  Sql.get (TaskRepo.field_col f) (TaskRepo.set_field t f) = TaskRepo.field_value f.
Proof. destruct f; reflexivity. Qed.

Lemma set_field_other t f c :
  c <> TaskRepo.field_col f -> Sql.get c (TaskRepo.set_field t f) = Sql.get c t.
Proof. destruct f, c; simpl; intros H; try reflexivity; congruence. Qed.

Lemma fold_set_id fs : forall t, id (fold_left TaskRepo.set_field fs t) = id t.
Proof.
  induction fs as [|f fs IH]; intros t; simpl; [reflexivity|].
  rewrite IH; apply set_field_id.
Qed.

Lemma fold_set_other fs c :
  ~ In c (map TaskRepo.field_col fs) ->
  forall t, Sql.get c (fold_left TaskRepo.set_field fs t) = Sql.get c t.
Proof.
  induction fs as [|f fs IH]; intros Hc t; simpl; [reflexivity|].
  simpl in Hc. rewrite IH by tauto. apply set_field_other. intuition.
Qed.

Lemma fold_set_in fs f :
  NoDup (map TaskRepo.field_col fs) -> In f fs ->
  forall t, Sql.get (TaskRepo.field_col f) (fold_left TaskRepo.set_field fs t)
            = TaskRepo.field_value f.
Proof.
  induction fs as [|g fs IH]; intros Hnd Hin t; [destruct Hin|].
  simpl in *. inversion Hnd as [|? ? Hg Hnd']; subst.
  destruct Hin as [->|Hin].
  - rewrite fold_set_other by exact Hg. apply set_field_same.
  - apply IH; assumption.
Qed.

Lemma dict_set_cols f d c :
  In c (map TaskRepo.field_col (TaskRepo.dict_set f d))
  <-> c = TaskRepo.field_col f \/ In c (map TaskRepo.field_col d).
Proof.
  induction d as [|g d IH]; simpl; [intuition|].
  destruct (column_eqb (TaskRepo.field_col g) (TaskRepo.field_col f)) eqn:E; simpl.
  - apply column_eqb_eq in E. rewrite E. intuition.
  - rewrite IH. intuition.
Qed.

Lemma dict_set_NoDup f d :
  NoDup (map TaskRepo.field_col d) ->
  NoDup (map TaskRepo.field_col (TaskRepo.dict_set f d)).
Proof.
  induction d as [|g d IH]; simpl; intros Hnd.
  - constructor; [intros [] | constructor].
  - inversion Hnd as [|? ? Hg Hnd']; subst.
    destruct (column_eqb (TaskRepo.field_col g) (TaskRepo.field_col f)) eqn:E; simpl.
    + apply column_eqb_eq in E. rewrite <- E. constructor; assumption.
    + constructor; [|apply IH; exact Hnd'].
      rewrite dict_set_cols. apply column_eqb_neq in E. intuition.
Qed.

Lemma dict_set_new f d : In f (TaskRepo.dict_set f d).
Proof.
  induction d as [|g d IH]; simpl; [auto|].
  destruct (column_eqb _ _); simpl; auto.
Qed.

Lemma dict_set_old f d g :
  In g d -> TaskRepo.field_col g <> TaskRepo.field_col f ->
  In g (TaskRepo.dict_set f d).
Proof.
  induction d as [|h d IH]; simpl; intros Hin Hne; [destruct Hin|].
  destruct (column_eqb (TaskRepo.field_col h) (TaskRepo.field_col f)) eqn:E; simpl.
  - apply column_eqb_eq in E. destruct Hin as [->|Hin]; [congruence | auto].
  - destruct Hin as [->|Hin]; auto.
Qed.

Lemma dict_set_from f d g :
  In g (TaskRepo.dict_set f d) -> g = f \/ In g d.
Proof.
  induction d as [|h d IH]; simpl; [intuition|].
  destruct (column_eqb _ _); simpl; intuition.
Qed.

Lemma sets_column_In c fs :
  TaskRepo.sets_column c fs = true ->
  exists f, In f fs /\ TaskRepo.field_col f = c.
Proof.
  unfold TaskRepo.sets_column. rewrite existsb_exists.
  intros [f [Hin E]]. apply column_eqb_eq in E. exists f; auto.
Qed.

(** The rows written by the UPDATE statement when no row breaks the CHECK
    constraint. *)
Lemma sql_update_Ok task_id fs l :
  (forall t, In t l -> id t = task_id ->
             TaskRepo.sets_column c_priority fs = true ->
             In (priority (fold_left TaskRepo.set_field fs t)) PRIORITIES) ->
  TaskRepo.sql_update task_id fs l
  = Ok (map (fun t => if id t =? task_id
                      then fold_left TaskRepo.set_field fs t else t) l).
Proof.
  induction l as [|t l IH]; intros H; simpl; [reflexivity|].
  rewrite IH by (intros; apply H; simpl; auto).
  destruct (id t =? task_id) eqn:E; simpl; [|reflexivity].
  destruct (TaskRepo.sets_column c_priority fs) eqn:Ep; simpl; [|reflexivity].
  assert (Hc : TaskRepo.check_priority
                 (priority (fold_left TaskRepo.set_field fs t)) = true).
  { apply check_priority_iff, H; simpl; auto. apply Z.eqb_eq; exact E. }
  rewrite Hc; reflexivity.
Qed.

(** The state written by [update] with at least one field. *)
Lemma update_rows now task_id fields s :
  fields <> [] ->
  NoDup (map TaskRepo.field_col fields) ->
  (forall v, In (TaskRepo.f_priority v) fields -> In v PRIORITIES) ->
  TaskRepo.update now task_id fields s
  = Ok (TaskRepo.mkrepo
          (map (fun t =>
                  if id t =? task_id
                  then fold_left TaskRepo.set_field
                         (TaskRepo.dict_set (TaskRepo.f_updated_at now) fields) t
                  else t) (TaskRepo.rows s))
          (TaskRepo.seq s)).
Proof.
  intros Hne Hnd Hpri.
  set (fs := TaskRepo.dict_set (TaskRepo.f_updated_at now) fields).
  assert (Hnd' : NoDup (map TaskRepo.field_col fs)) by (apply dict_set_NoDup, Hnd).
  unfold TaskRepo.update. destruct fields as [|f0 fields']; [congruence|].
  fold fs. rewrite sql_update_Ok; [reflexivity|].
  intros t _ _ Hset.
  destruct (sets_column_In _ _ Hset) as [f [Hin Hcol]].
  pose proof (fold_set_in fs f Hnd' Hin t) as Hget.
  rewrite Hcol in Hget.
  destruct (dict_set_from _ _ _ Hin) as [->|Hin']; [discriminate|].
  destruct f; try discriminate. simpl in Hget.
  injection Hget as ->. apply Hpri, Hin'.
Qed.

(** C2.  [update] with no field returns at once with the state as it was.
    With fields (distinct keywords, as in any Python call; a priority that
    passes the table's CHECK) it succeeds, and row by row: a row with
    another id is the same row; in a row with that id, updated_at is the
    current time, every supplied column holds the supplied value, and
    every other column holds what it held. *)
Theorem update_frame :
  (forall now task_id s, TaskRepo.update now task_id [] s = Ok s)
  /\ (forall now task_id fields s,
         fields <> [] ->
         NoDup (map TaskRepo.field_col fields) ->
         (forall v, In (TaskRepo.f_priority v) fields -> In v PRIORITIES) ->
         exists s',
           TaskRepo.update now task_id fields s = Ok s'
           /\ TaskRepo.seq s' = TaskRepo.seq s
           /\ List.length (TaskRepo.rows s') = List.length (TaskRepo.rows s)
           /\ forall i t,
               nth_error (TaskRepo.rows s) i = Some t ->
               exists t',
                 nth_error (TaskRepo.rows s') i = Some t'
                 /\ (id t <> task_id -> t' = t)
                 /\ (id t = task_id ->
                     updated_at t' = now
                     /\ (forall f, In f fields ->
                                   TaskRepo.field_col f <> c_updated_at ->
                                   Sql.get (TaskRepo.field_col f) t'
                                   = TaskRepo.field_value f)
                     /\ (forall c, c <> c_updated_at ->
                                   ~ In c (map TaskRepo.field_col fields) ->
                                   Sql.get c t' = Sql.get c t))).
Proof.
  split; [reflexivity|].
  intros now task_id fields s Hne Hnd Hpri.
  set (fs := TaskRepo.dict_set (TaskRepo.f_updated_at now) fields).
  assert (Hnd' : NoDup (map TaskRepo.field_col fs)) by (apply dict_set_NoDup, Hnd).
  eexists; split; [apply update_rows; assumption|]. fold fs.
  split; [reflexivity|split; [apply length_map|]].
  intros i t Hi. simpl. rewrite nth_error_map, Hi. simpl.
  eexists; split; [reflexivity|]. split.
  - intros Hid. apply Z.eqb_neq in Hid. rewrite Hid. reflexivity.
  - intros Hid. apply Z.eqb_eq in Hid. rewrite Hid. repeat split.
    + pose proof (fold_set_in fs _ Hnd' (dict_set_new _ fields) t) as H.
      simpl in H. injection H as H. exact H.
    + intros f Hin Hcol.
      apply fold_set_in; [exact Hnd'|]. apply dict_set_old; assumption.
    + intros c Hc Hnot. apply fold_set_other.
      unfold fs. rewrite dict_set_cols. simpl. intuition.
Qed.

Lemma update_frame_witness :
  exists s',
    TaskRepo.update "2025-09-06T08:00:00" 1 [TaskRepo.f_is_done 1]
      (TaskRepo.mkrepo
         [mktask 1 "a" None None "Low" "" 0 1 "t0" "t0";
          mktask 2 "b" None None "High" "" 0 2 "t0" "t0"] 2) = Ok s'
    /\ map updated_at (TaskRepo.rows s') = ["2025-09-06T08:00:00"; "t0"]
    /\ map is_done (TaskRepo.rows s') = [1; 0].
Proof.
  assert (Hne : [TaskRepo.f_is_done 1] <> []) by discriminate.
  assert (Hnd : NoDup (map TaskRepo.field_col [TaskRepo.f_is_done 1]))
    by (constructor; [intros [] | constructor]).
  assert (Hpri : forall v, In (TaskRepo.f_priority v) [TaskRepo.f_is_done 1] ->
                           In v PRIORITIES)
    by (intros v [H|[]]; discriminate).
  destruct (proj2 update_frame "2025-09-06T08:00:00" 1 [TaskRepo.f_is_done 1]
              (TaskRepo.mkrepo
                 [mktask 1 "a" None None "Low" "" 0 1 "t0" "t0";
                  mktask 2 "b" None None "High" "" 0 2 "t0" "t0"] 2)
              Hne Hnd Hpri) as [s' [E _]].
  exists s'. split; [exact E|].
  vm_compute in E. injection E as <-. split; reflexivity.
Defined.

(** ** Order of strings *)

Lemma ascii_compare_refl (a : ascii) : Ascii.compare a a = Datatypes.Eq.
Proof. unfold Ascii.compare. apply N.compare_refl. Qed.

Lemma string_compare_refl (s : string) : String.compare s s = Datatypes.Eq.
Proof.
  induction s as [|a s IH]; simpl; [reflexivity|].
  rewrite ascii_compare_refl; exact IH.
Qed.

Lemma string_compare_cons a b s t :
  String.compare (String a s) (String b t)
  = match Ascii.compare a b with
    | Datatypes.Eq => String.compare s t
    | Datatypes.Lt => Datatypes.Lt
    | Datatypes.Gt => Datatypes.Gt
    end.
Proof. simpl. destruct (Ascii.compare a b); reflexivity. Qed.

Lemma string_eqb_compare (s t : string) :
  String.eqb s t = match String.compare s t with Datatypes.Eq => true | _ => false end.
Proof.
  destruct (String.eqb_spec s t) as [->|Hne].
  - rewrite string_compare_refl; reflexivity.
  - destruct (String.compare s t) eqn:E; try reflexivity.
    apply String.compare_eq_iff in E; congruence.
Qed.

Lemma Z_eqb_compare (x y : Z) :
  (x =? y) = match x ?= y with Datatypes.Eq => true | _ => false end.
Proof.
  destruct (Z.eqb_spec x y) as [->|Hne].
  - rewrite Z.compare_refl; reflexivity.
  - destruct (Z.compare_spec x y); try reflexivity; congruence.
Qed.

(** ** The ISO format keeps the order of dates *)

Lemma digit_char_compare (k k' : Z) :
  0 <= k <= 9 -> 0 <= k' <= 9 ->
  Ascii.compare (Date.digit_char k) (Date.digit_char k') = (k ?= k').
Proof.
  intros Hk Hk'.
  assert (E : k = 0 \/ k = 1 \/ k = 2 \/ k = 3 \/ k = 4 \/ k = 5 \/ k = 6
              \/ k = 7 \/ k = 8 \/ k = 9) by lia.
  assert (E' : k' = 0 \/ k' = 1 \/ k' = 2 \/ k' = 3 \/ k' = 4 \/ k' = 5
               \/ k' = 6 \/ k' = 7 \/ k' = 8 \/ k' = 9) by lia.
  repeat (destruct E as [->|E]); try subst k;
    repeat (destruct E' as [->|E']); try subst k'; reflexivity.
Qed.

Lemma compare_base10 (x x' r r' : Z) :
  0 <= r <= 9 -> 0 <= r' <= 9 ->
  (10 * x + r ?= 10 * x' + r')
  = match x ?= x' with
    | Datatypes.Eq => r ?= r'
    | Datatypes.Lt => Datatypes.Lt
    | Datatypes.Gt => Datatypes.Gt
    end.
Proof.
  intros Hr Hr'.
  destruct (Z.compare_spec x x'); destruct (Z.compare_spec r r');
    destruct (Z.compare_spec (10 * x + r) (10 * x' + r')); try reflexivity; lia.
Qed.

Lemma pad2_compare (n n' : Z) :
  0 <= n <= 99 -> 0 <= n' <= 99 ->
  String.compare (Date.pad2 n) (Date.pad2 n') = (n ?= n').
Proof.
  intros Hn Hn'. unfold Date.pad2.
  rewrite !string_compare_cons.
  rewrite !digit_char_compare by (Z.div_mod_to_equations; lia).
  rewrite (Z.div_mod n 10), (Z.div_mod n' 10) at 3 by lia.
  rewrite compare_base10 by (Z.div_mod_to_equations; lia).
  destruct (n / 10 ?= n' / 10); try reflexivity.
  destruct (n mod 10 ?= n' mod 10); reflexivity.
Qed.

Lemma pad4_compare (n n' : Z) :
  0 <= n <= 9999 -> 0 <= n' <= 9999 ->
  String.compare (Date.pad4 n) (Date.pad4 n') = (n ?= n').
Proof.
  intros Hn Hn'. unfold Date.pad4.
  rewrite !string_compare_cons.
  rewrite !digit_char_compare by (Z.div_mod_to_equations; lia).
  replace (n ?= n')
    with (10 * (10 * (10 * (n / 1000) + (n / 100) mod 10) + (n / 10) mod 10)
            + n mod 10
          ?= 10 * (10 * (10 * (n' / 1000) + (n' / 100) mod 10) + (n' / 10) mod 10)
             + n' mod 10)
    by (f_equal; Z.div_mod_to_equations; lia).
  rewrite !compare_base10 by (Z.div_mod_to_equations; lia).
  destruct (n / 1000 ?= n' / 1000); try reflexivity.
  destruct ((n / 100) mod 10 ?= (n' / 100) mod 10); try reflexivity.
  destruct ((n / 10) mod 10 ?= (n' / 10) mod 10); try reflexivity.
  destruct (n mod 10 ?= n' mod 10); reflexivity.
Qed.

Lemma string_compare_app (a a' b b' : string) :
  String.length a = String.length a' ->
  String.compare (a ++ b) (a' ++ b')
  = match String.compare a a' with
    | Datatypes.Eq => String.compare b b'
    | Datatypes.Lt => Datatypes.Lt
    | Datatypes.Gt => Datatypes.Gt
    end.
Proof.
  revert a'; induction a as [|c a IH]; intros [|c' a'] Hlen;
    try discriminate; [reflexivity|].
  simpl in Hlen. injection Hlen as Hlen.
  cbn [append]. rewrite !string_compare_cons.
  destruct (Ascii.compare c c'); try reflexivity. apply IH; exact Hlen.
Qed.

Lemma valid_ranges (d : Date.date) :
  Date.valid d = true ->
  1 <= Date.year d <= 9999 /\ 1 <= Date.month d <= 12 /\ 1 <= Date.day d <= 31.
Proof.
  unfold Date.valid, Date.MINYEAR, Date.MAXYEAR.
  rewrite !andb_true_iff, !Z.leb_le. intros [[[[[? ?] ?] ?] ?] Hd].
  assert (Date.days_in_month (Date.year d) (Date.month d) <= 31).
  { unfold Date.days_in_month.
    destruct (Date.month d =? 2); [destruct (Date.is_leap _); lia|].
    destruct (_ || _); lia. }
  lia.
Qed.

(** The order of the texts written by "%Y-%m-%d" is the order of the
    dates. *)
Lemma strftime_compare (d t : Date.date) :
  Date.valid d = true -> Date.valid t = true ->
  String.compare (Date.strftime d) (Date.strftime t) = Date.compare d t.
Proof.
  intros Hd Ht.
  destruct (valid_ranges d Hd) as (Hy & Hm & Hday).
  destruct (valid_ranges t Ht) as (Hy' & Hm' & Hday').
  unfold Date.strftime, Date.compare.
  rewrite string_compare_app by reflexivity.
  rewrite pad4_compare by lia.
  destruct (Date.year d ?= Date.year t); try reflexivity.
  rewrite (string_compare_app "-" "-") by reflexivity.
  change (String.compare "-" "-") with Datatypes.Eq. cbv iota.
  rewrite string_compare_app by reflexivity.
  rewrite pad2_compare by lia.
  destruct (Date.month d ?= Date.month t); try reflexivity.
  rewrite (string_compare_app "-" "-") by reflexivity.
  change (String.compare "-" "-") with Datatypes.Eq. cbv iota.
  apply pad2_compare; lia.
Qed.

Lemma strftime_ltb (d t : Date.date) :
  Date.valid d = true -> Date.valid t = true ->
  String.ltb (Date.strftime d) (Date.strftime t) = Date.ltb d t.
Proof.
  intros Hd Ht. unfold String.ltb, Date.ltb.
  rewrite strftime_compare by assumption. reflexivity.
Qed.

Lemma strftime_not_empty (d : Date.date) :
  String.eqb (Date.strftime d) EmptyString = false.
Proof. reflexivity. Qed.

Lemma next_day_later (y t : Date.date) :
  Date.valid y = true -> Date.next_day y = Some t -> Date.ltb y t = true.
Proof.
  intros Hy. destruct (valid_ranges y Hy) as (? & ? & ?).
  unfold Date.next_day, Date.MAXYEAR.
  destruct (Date.day y <? _) eqn:E1.
  - intros [= <-]. unfold Date.ltb, Date.compare; simpl.
    rewrite !Z.compare_refl.
    destruct (Z.compare_spec (Date.day y) (Date.day y + 1)); auto; lia.
  - destruct (Date.month y <? 12) eqn:E2.
    + intros [= <-]. unfold Date.ltb, Date.compare; simpl.
      rewrite Z.compare_refl.
      destruct (Z.compare_spec (Date.month y) (Date.month y + 1)); auto; lia.
    + destruct (Date.year y <? 9999) eqn:E3; [|discriminate].
      intros [= <-]. unfold Date.ltb, Date.compare; simpl.
      destruct (Z.compare_spec (Date.year y) (Date.year y + 1)); auto; lia.
Qed.

(** ** Statistics *)

Lemma stats_value (today : Date.date) (s : TaskRepo.repo) :
  TaskRepo.stats today s
  = Ok (TaskRepo.mkstats
          (Z.of_nat (List.length (TaskRepo.rows s)))
          (count_rows (fun t => is_done t =? 1) (TaskRepo.rows s))
          (count_rows (fun t => is_done t =? 0) (TaskRepo.rows s))
          (count_rows (overdue_row (Date.strftime today)) (TaskRepo.rows s))).
Proof.
  assert (H1 : forall t,
             Sql.holds (Sql.Eq (Sql.Col c_is_done) (Sql.Lit (Sql.VInt 1))) t
             = (is_done t =? 1)).
  { intros t; unfold Sql.holds; simpl.
    rewrite Z_eqb_compare. destruct (is_done t ?= 1); reflexivity. }
  assert (H0 : forall t,
             Sql.holds (Sql.Eq (Sql.Col c_is_done) (Sql.Lit (Sql.VInt 0))) t
             = (is_done t =? 0)).
  { intros t; unfold Sql.holds; simpl.
    rewrite Z_eqb_compare. destruct (is_done t ?= 0); reflexivity. }
  assert (H2 : forall t,
             Sql.holds
               (Sql.And
                  (Sql.And (Sql.Eq (Sql.Col c_is_done) (Sql.Lit (Sql.VInt 0)))
                     (Sql.Ne (Sql.Col c_due_date) (Sql.Lit (Sql.VText ""))))
                  (Sql.Lt (Sql.Col c_due_date)
                     (Sql.Lit (Sql.VText (Date.strftime today))))) t
             = overdue_row (Date.strftime today) t).
  { intros t; unfold Sql.holds, overdue_row; simpl.
    rewrite Z_eqb_compare, string_eqb_compare. unfold String.ltb.
    destruct (is_done t ?= 0); simpl; try reflexivity;
      destruct (String.compare (due_date t) ""); simpl; try reflexivity;
        destruct (String.compare (due_date t) (Date.strftime today));
        reflexivity. }
  unfold TaskRepo.stats, Sql.count, count_rows; simpl.
  rewrite (filter_ext _ _ H1), (filter_ext _ _ H0), (filter_ext _ _ H2).
  reflexivity.
Qed.

Lemma count_rows_app p l l' :
  count_rows p (l ++ l') = count_rows p l + count_rows p l'.
Proof.
  unfold count_rows. rewrite filter_app, length_app. lia.
Qed.

Lemma count_rows_map_id p (g : task -> task) l :
  (forall t, In t l -> g t = t) -> count_rows p (map g l) = count_rows p l.
Proof.
  intros H. f_equal. f_equal. f_equal.
  rewrite <- (map_id l) at 2. apply map_ext_in. exact H.
Qed.

(** C5.  The overdue figure of [stats] is the number of rows that are not
    done, have a due date, and whose due date is before today's
    "%Y-%m-%d" text in the order of strings; on texts in that format the
    order of strings is the order of the dates.  So a new task due
    yesterday raises the figure by one, and marking it done lowers the
    figure by one and leaves the total. *)
Theorem stats_overdue :
  (forall today s,
      clock_date today ->
      exists st,
        TaskRepo.stats today s = Ok st
        /\ TaskRepo.overdue st
           = count_rows (overdue_row (Date.strftime today)) (TaskRepo.rows s)
        /\ TaskRepo.total st = Z.of_nat (List.length (TaskRepo.rows s)))
  /\ (forall d today,
         Date.valid d = true -> Date.valid today = true ->
         String.ltb (Date.strftime d) (Date.strftime today) = Date.ltb d today)
  /\ (forall today yesterday now now' title details category priority s,
         clock_date today ->
         Date.valid yesterday = true ->
         Date.next_day yesterday = Some today ->
         In priority PRIORITIES ->
         exists new_id s1 s2 st0 st1 st2,
           TaskRepo.create now title details category priority
             (Some (Date.strftime yesterday)) s = Ok (new_id, s1)
           /\ TaskRepo.update now' new_id [TaskRepo.f_is_done 1] s1 = Ok s2
           /\ TaskRepo.stats today s = Ok st0
           /\ TaskRepo.stats today s1 = Ok st1
           /\ TaskRepo.stats today s2 = Ok st2
           /\ TaskRepo.overdue st1 = TaskRepo.overdue st0 + 1
           /\ TaskRepo.overdue st2 = TaskRepo.overdue st1 - 1
           /\ TaskRepo.total st2 = TaskRepo.total st1).
Proof.
  split; [|split].
  - intros today s _. eexists; split; [apply stats_value|]. split; reflexivity.
  - exact strftime_ltb.
  - intros today y now now' title details category priority s
      [Htoday _] Hy Hnext Hp.
    set (new_id := TaskRepo.next_rowid s).
    set (t := mktask new_id title details category priority (Date.strftime y) 0
                (TaskRepo.coalesce
                   (TaskRepo.sql_max order_index (TaskRepo.rows s)) 0 + 1)
                now now).
    set (s1 := TaskRepo.mkrepo (TaskRepo.rows s ++ [t])%list new_id).
    set (g := fun r => if id r =? new_id
                       then fold_left TaskRepo.set_field
                              (TaskRepo.dict_set (TaskRepo.f_updated_at now')
                                 [TaskRepo.f_is_done 1]) r
                       else r).
    set (s2 := TaskRepo.mkrepo (map g (TaskRepo.rows s1)) (TaskRepo.seq s1)).
    exists new_id, s1, s2.
    do 3 eexists.
    split; [exact (create_Ok _ _ _ _ _ _ s Hp)|].
    split.
    { apply update_rows; [discriminate | | intros v [H|[]]; discriminate].
      constructor; [intros [] | constructor]. }
    split; [apply stats_value|]. split; [apply stats_value|].
    split; [apply stats_value|].
    assert (Hold : forall r, In r (TaskRepo.rows s) -> g r = r).
    { intros r Hin. unfold g.
      pose proof (next_rowid_fresh s r Hin) as Hlt. fold new_id in Hlt.
      destruct (Z.eqb_spec (id r) new_id); [lia | reflexivity]. }
    assert (Ht : overdue_row (Date.strftime today) t = true).
    { unfold overdue_row.
      change (due_date t) with (Date.strftime y). change (is_done t) with 0.
      rewrite strftime_not_empty, strftime_ltb by assumption.
      rewrite (next_day_later y today Hy Hnext). reflexivity. }
    assert (Hgt : overdue_row (Date.strftime today) (g t) = false).
    { unfold g; simpl. rewrite Z.eqb_refl. reflexivity. }
    cbn [TaskRepo.overdue TaskRepo.total]. unfold s2, s1.
    cbn [TaskRepo.rows].
    rewrite map_app, !count_rows_app, !length_app, length_map.
    rewrite (count_rows_map_id _ g _ Hold).
    assert (E1 : count_rows (overdue_row (Date.strftime today)) [t] = 1)
      by (unfold count_rows; cbn [filter]; rewrite Ht; reflexivity).
    assert (E2 : count_rows (overdue_row (Date.strftime today)) (map g [t]) = 0)
      by (unfold count_rows; cbn [map filter]; rewrite Hgt; reflexivity).
    rewrite E1, E2. cbn [map List.length]. repeat split; lia.
Qed.

Lemma stats_overdue_witness :
  (exists st,
      TaskRepo.stats (Date.mkdate 2025 9 5)
        (TaskRepo.mkrepo
           [mktask 1 "a" None None "Low" "2025-09-04" 0 1 "t0" "t0";
            mktask 2 "b" None None "Low" "2025-09-04" 1 2 "t0" "t0";
            mktask 3 "c" None None "Low" "" 0 3 "t0" "t0"] 3) = Ok st
      /\ TaskRepo.overdue st = 1 /\ TaskRepo.total st = 3)
  /\ String.ltb (Date.strftime (Date.mkdate 2024 12 31))
       (Date.strftime (Date.mkdate 2025 1 1)) = true
  /\ exists new_id s1 s2 st0 st1 st2,
      TaskRepo.create "t1" "pay rent" None None "High"
        (Some (Date.strftime (Date.mkdate 2025 8 31))) TaskRepo.empty
      = Ok (new_id, s1)
      /\ TaskRepo.update "t2" new_id [TaskRepo.f_is_done 1] s1 = Ok s2
      /\ TaskRepo.stats (Date.mkdate 2025 9 1) TaskRepo.empty = Ok st0
      /\ TaskRepo.stats (Date.mkdate 2025 9 1) s1 = Ok st1
      /\ TaskRepo.stats (Date.mkdate 2025 9 1) s2 = Ok st2
      /\ TaskRepo.overdue st1 = TaskRepo.overdue st0 + 1
      /\ TaskRepo.overdue st2 = TaskRepo.overdue st1 - 1
      /\ TaskRepo.total st2 = TaskRepo.total st1.
Proof.
  assert (Hc : clock_date (Date.mkdate 2025 9 5))
    by (split; [reflexivity | simpl; lia]).
  assert (Hc' : clock_date (Date.mkdate 2025 9 1))
    by (split; [reflexivity | simpl; lia]).
  assert (Hp : In "High" PRIORITIES) by (simpl; auto).
  split; [|split].
  - exact (proj1 stats_overdue (Date.mkdate 2025 9 5) _ Hc).
  - rewrite (proj1 (proj2 stats_overdue) (Date.mkdate 2024 12 31)
               (Date.mkdate 2025 1 1) eq_refl eq_refl).
    reflexivity.
  - exact (proj2 (proj2 stats_overdue) (Date.mkdate 2025 9 1)
             (Date.mkdate 2025 8 31) "t1" "t2" "pay rent" None None "High"
             TaskRepo.empty Hc' eq_refl eq_refl Hp).
Defined.

(** ** LIKE and substrings *)






Lemma list_ascii_of_string_app (s t : string) :
  list_ascii_of_string (s ++ t)
  = (list_ascii_of_string s ++ list_ascii_of_string t)%list.
Proof. induction s as [|c s IH]; simpl; [reflexivity | rewrite IH; reflexivity]. Qed.






(** ** The query *)

Lemma In_insert o x l t : In t (Sql.insert o x l) <-> t = x \/ In t l.
Proof.
  induction l as [|y l IH]; simpl; [intuition|].
  destruct (Sql.order_leb o x y); simpl; [intuition|].
  rewrite IH. intuition.
Qed.

Lemma In_order_by o l t : In t (Sql.order_by o l) <-> In t l.
Proof.
  induction l as [|x l IH]; simpl; [tauto|].
  rewrite In_insert, IH. intuition.
Qed.

(** The conditions of the query, one by one, on a row. *)

Lemma holds_and (p q : Sql.cond) (t : task) :
  Sql.holds (Sql.And p q) t = Sql.holds p t && Sql.holds q t.
Proof.
  unfold Sql.holds; simpl.
  destruct (Sql.eval p t) as [[|]|]; destruct (Sql.eval q t) as [[|]|];
    reflexivity.
Qed.

Lemma holds_or (p q : Sql.cond) (t : task) :
  Sql.holds (Sql.Or p q) t = Sql.holds p t || Sql.holds q t.
Proof.
  unfold Sql.holds; simpl.
  destruct (Sql.eval p t) as [[|]|]; destruct (Sql.eval q t) as [[|]|];
    reflexivity.
Qed.

Lemma holds_like_title (p : string) (t : task) :
  Sql.holds (Sql.Like (Sql.Col c_title) (Sql.Lit (Sql.VText p))) t
  = like_text (Some (title t)) p.
Proof.
  unfold Sql.holds; simpl. destruct (Sql.like (title t) p); reflexivity.
Qed.

Lemma holds_like_details (p : string) (t : task) :
  Sql.holds (Sql.Like (Sql.Col c_details) (Sql.Lit (Sql.VText p))) t
  = like_text (details t) p.
Proof.
  unfold Sql.holds; simpl. destruct (details t) as [s|]; simpl; [|reflexivity].
  destruct (Sql.like s p); reflexivity.
Qed.

Lemma holds_like_category (p : string) (t : task) :
  Sql.holds (Sql.Like (Sql.Col c_category) (Sql.Lit (Sql.VText p))) t
  = like_text (category t) p.
Proof.
  unfold Sql.holds; simpl. destruct (category t) as [s|]; simpl; [|reflexivity].
  destruct (Sql.like s p); reflexivity.
Qed.

Lemma holds_is_done (k : Z) (t : task) :
  Sql.holds (Sql.Eq (Sql.Col c_is_done) (Sql.Lit (Sql.VInt k))) t
  = (is_done t =? k).
Proof.
  unfold Sql.holds; simpl. rewrite Z_eqb_compare.
  destruct (is_done t ?= k); reflexivity.
Qed.

Lemma holds_priority (p : string) (t : task) :
  Sql.holds (Sql.Eq (Sql.Col c_priority) (Sql.Lit (Sql.VText p))) t
  = String.eqb (priority t) p.
Proof.
  unfold Sql.holds; simpl. rewrite string_eqb_compare.
  destruct (String.compare (priority t) p); reflexivity.
Qed.

Lemma holds_category (c : string) (t : task) :
  Sql.holds (Sql.Eq (Sql.Col c_category) (Sql.Lit (Sql.VText c))) t
  = match category t with
    | Some x => String.eqb x c
    | None => false
    end.
Proof.
  unfold Sql.holds; simpl. destruct (category t) as [x|]; simpl; [|reflexivity].
  rewrite string_eqb_compare. destruct (String.compare x c); reflexivity.
Qed.

Lemma filter_true (l : list task) : filter (fun _ => true) l = l.
Proof. induction l as [|x l IH]; simpl; [reflexivity | rewrite IH; reflexivity]. Qed.

(** The rows returned by [_query_tasks]: the rows of the table that pass
    the four filters, in the order asked for. *)
Lemma query_tasks_value (a : ToDoApp.app) :
  ToDoApp._query_tasks a
  = Ok (Sql.order_by (ToDoApp.query_order a)
          (filter (all_filters a) (TaskRepo.rows (ToDoApp.repo a)))).
Proof.
  unfold ToDoApp._query_tasks, ToDoApp.query_where, TaskRepo.fetch, Sql.select,
    all_filters, search_filter, status_filter, priority_filter, category_filter.
  destruct (Py.truthy (Py.strip (ToDoApp.var_search a)));
    destruct (String.eqb (ToDoApp.var_filter_status a) "Активные");
    destruct (String.eqb (ToDoApp.var_filter_status a) "Выполненные");
    destruct (String.eqb (ToDoApp.var_filter_priority a) ToDoApp.ALL);
    destruct (String.eqb (ToDoApp.var_filter_category a) ToDoApp.ALL);
    cbn -[Sql.holds Sql.order_by Sql.like String.eqb Z.eqb append];
    do 2 f_equal;
    first [ symmetry; apply filter_true
          | apply filter_ext; intros t;
            rewrite ?holds_and, ?holds_or, ?holds_like_title,
              ?holds_like_details, ?holds_like_category, ?holds_is_done,
              ?holds_priority, ?holds_category, ?andb_true_r;
            reflexivity ].
Qed.




(** ** ORDER BY: a total preorder, and the rows come out sorted *)

Lemma ascii_compare_lt_trans (a b c : ascii) :
  Ascii.compare a b = Datatypes.Lt -> Ascii.compare b c = Datatypes.Lt ->
  Ascii.compare a c = Datatypes.Lt.
Proof.
  unfold Ascii.compare. rewrite !N.compare_lt_iff. apply N.lt_trans.
Qed.

Lemma string_compare_lt_trans (a : string) :
  forall b c,
    String.compare a b = Datatypes.Lt -> String.compare b c = Datatypes.Lt ->
    String.compare a c = Datatypes.Lt.
Proof.
  induction a as [|x a IH]; intros [|y b] [|z c]; simpl;
    try discriminate; auto.
  destruct (Ascii.compare x y) eqn:Exy; try discriminate;
    destruct (Ascii.compare y z) eqn:Eyz; try discriminate; intros H1 H2.
  - apply Ascii.compare_eq_iff in Exy, Eyz. subst.
    rewrite ascii_compare_refl. eapply IH; eassumption.
  - apply Ascii.compare_eq_iff in Exy. subst. rewrite Eyz. reflexivity.
  - apply Ascii.compare_eq_iff in Eyz. subst. rewrite Exy. reflexivity.
  - rewrite (ascii_compare_lt_trans _ _ _ Exy Eyz). reflexivity.
Qed.

Lemma value_compare_eq (a b : Sql.value) :
  Sql.value_compare a b = Datatypes.Eq -> a = b.
Proof.
  destruct a, b; simpl; try discriminate; intros H; try reflexivity.
  - apply Z.compare_eq in H. congruence.
  - apply String.compare_eq_iff in H. congruence.
Qed.

Lemma value_compare_refl (a : Sql.value) :
  Sql.value_compare a a = Datatypes.Eq.
Proof.
  destruct a; simpl;
    [reflexivity | apply Z.compare_refl | apply string_compare_refl].
Qed.

Lemma value_compare_antisym (a b : Sql.value) :
  Sql.value_compare b a = CompOpp (Sql.value_compare a b).
Proof.
  destruct a, b; simpl; try reflexivity.
  - apply Z.compare_antisym.
  - apply String.compare_antisym.
Qed.

Lemma value_compare_lt_trans (a b c : Sql.value) :
  Sql.value_compare a b = Datatypes.Lt ->
  Sql.value_compare b c = Datatypes.Lt ->
  Sql.value_compare a c = Datatypes.Lt.
Proof.
  destruct a, b, c; simpl; try discriminate; auto.
  - rewrite !Z.compare_lt_iff. apply Z.lt_trans.
  - apply string_compare_lt_trans.
Qed.

Section OrderTerm.

Variable k : Sql.order_term.

Lemma term_compare_eq (x y : task) :
  Sql.term_compare k x y = Datatypes.Eq ->
  Sql.get (fst k) x = Sql.get (fst k) y.
Proof.
  unfold Sql.term_compare. destruct (snd k); intros H;
    apply value_compare_eq in H; congruence.
Qed.

Lemma term_compare_antisym (x y : task) :
  Sql.term_compare k y x = CompOpp (Sql.term_compare k x y).
Proof.
  unfold Sql.term_compare. destruct (snd k); apply value_compare_antisym.
Qed.

Lemma term_compare_lt_trans (x y z : task) :
  Sql.term_compare k x y = Datatypes.Lt ->
  Sql.term_compare k y z = Datatypes.Lt ->
  Sql.term_compare k x z = Datatypes.Lt.
Proof.
  unfold Sql.term_compare. destruct (snd k); intros H1 H2.
  - eapply value_compare_lt_trans; eassumption.
  - eapply value_compare_lt_trans; eassumption.
Qed.

Lemma term_compare_right (x y z : task) :
  Sql.get (fst k) y = Sql.get (fst k) z ->
  Sql.term_compare k x y = Sql.term_compare k x z.
Proof. unfold Sql.term_compare. intros ->. reflexivity. Qed.

Lemma term_compare_left (x y z : task) :
  Sql.get (fst k) x = Sql.get (fst k) y ->
  Sql.term_compare k x z = Sql.term_compare k y z.
Proof. unfold Sql.term_compare. intros ->. reflexivity. Qed.

End OrderTerm.

Lemma order_compare_antisym (o : list Sql.order_term) (x y : task) :
  Sql.order_compare o y x = CompOpp (Sql.order_compare o x y).
Proof.
  induction o as [|k o IH]; simpl; [reflexivity|].
  rewrite (term_compare_antisym k x y).
  destruct (Sql.term_compare k x y); simpl; auto.
Qed.

Lemma order_leb_total (o : list Sql.order_term) (x y : task) :
  Sql.order_leb o x y = false -> Sql.order_leb o y x = true.
Proof.
  unfold Sql.order_leb. rewrite (order_compare_antisym o x y).
  destruct (Sql.order_compare o x y); simpl; congruence.
Qed.

Lemma order_leb_trans (o : list Sql.order_term) (x y z : task) :
  Sql.order_leb o x y = true -> Sql.order_leb o y z = true ->
  Sql.order_leb o x z = true.
Proof.
  unfold Sql.order_leb. induction o as [|k o IH]; simpl; [reflexivity|].
  destruct (Sql.term_compare k x y) eqn:Exy; try discriminate;
    destruct (Sql.term_compare k y z) eqn:Eyz; try discriminate;
    intros H1 H2.
  - rewrite (term_compare_right k x z y), Exy
      by (symmetry; apply term_compare_eq; exact Eyz).
    apply IH; assumption.
  - rewrite (term_compare_left k x y z), Eyz
      by (apply term_compare_eq; exact Exy). reflexivity.
  - rewrite (term_compare_right k x z y), Exy
      by (symmetry; apply term_compare_eq; exact Eyz). reflexivity.
  - rewrite (term_compare_lt_trans k x y z Exy Eyz). reflexivity.
Qed.

Lemma insert_sorted (o : list Sql.order_term) (x : task) (l : list task) :
  StronglySorted (in_order o) l -> StronglySorted (in_order o) (Sql.insert o x l).
Proof.
  induction 1 as [|y l Hs IH Hy]; simpl.
  - constructor; constructor.
  - destruct (Sql.order_leb o x y) eqn:E.
    + constructor; [constructor; assumption|].
      constructor; [exact E|].
      rewrite Forall_forall in *. intros z Hz.
      eapply order_leb_trans; [exact E | apply Hy; exact Hz].
    + constructor; [exact IH|].
      rewrite Forall_forall in *. intros z Hz.
      apply In_insert in Hz. destruct Hz as [->|Hz].
      * apply order_leb_total; exact E.
      * apply Hy; exact Hz.
Qed.

Lemma order_by_sorted (o : list Sql.order_term) (l : list task) :
  StronglySorted (in_order o) (Sql.order_by o l).
Proof.
  induction l as [|x l IH]; simpl; [constructor | apply insert_sorted, IH].
Qed.

Lemma sorted_pair (R : task -> task -> Prop) (l1 l2 l3 : list task) (x y : task) :
  StronglySorted R (l1 ++ x :: l2 ++ y :: l3) -> R x y.
Proof.
  induction l1 as [|z l1 IH]; simpl; intros H.
  - inversion H as [|? ? _ Hall]; subst.
    rewrite Forall_forall in Hall. apply Hall.
    apply in_or_app. right. left. reflexivity.
  - inversion H; subst. apply IH; assumption.
Qed.

(** With the ORDER BY clause of the query, two rows in order that agree on
    the sort column are in order_index-then-id order. *)
Lemma tie_break (c : column) (d : Sql.direction) (x y : task) :
  in_order [(c, d); (c_order_index, Sql.ASC); (c_id, Sql.ASC)] x y ->
  Sql.get c x = Sql.get c y ->
  index_then_id x y.
Proof.
  unfold in_order, Sql.order_leb, index_then_id. simpl.
  intros H E.
  assert (Ek : Sql.term_compare (c, d) x y = Datatypes.Eq).
  { unfold Sql.term_compare; simpl. rewrite E.
    destruct d; apply value_compare_refl. }
  rewrite Ek in H. unfold Sql.term_compare in H; simpl in H.
  destruct (Z.compare_spec (order_index x) (order_index y)) as [E1|L1|G1];
    [|left; exact L1|discriminate].
  right; split; [exact E1|].
  destruct (Z.compare_spec (id x) (id y)); try discriminate; lia.
Qed.

(** ** Tags *)

Lemma strptime_empty : Date.strptime "" = None.
Proof. reflexivity. Qed.

Lemma truthy_false (s : string) : Py.truthy s = false -> s = EmptyString.
Proof. destruct s; [reflexivity | discriminate]. Qed.

(** The tags of a row, when the day three days ahead exists. *)
Lemma apply_row_tags_value (today lim : Date.date) (row : task) :
  Date.add_days 3 today = Ok lim ->
  ToDoApp._apply_row_tags today row
  = Ok (done_tags row ++ deadline_tags today lim row ++ high_tags row)%list.
Proof.
  intros Hlim.
  unfold ToDoApp._apply_row_tags, done_tags, deadline_tags, high_tags.
  rewrite Hlim.
  destruct (String.eqb (priority row) "High");
  destruct (is_done row =? 0); simpl.
  all: try reflexivity.
  all: destruct (Py.truthy (due_date row)) eqn:Et;
    [ destruct (Date.strptime (due_date row)) as [d|]; simpl; [|reflexivity];
      unfold Date.ltb, Date.eqb, Date.leb;
      destruct (Date.compare d today); simpl; try reflexivity;
      destruct (Date.compare d lim); reflexivity
    | apply truthy_false in Et; rewrite Et, strptime_empty; reflexivity ].
Qed.

Ltac tag_cases :=
  intros; simpl in *;
  repeat match goal with
    | H : _ \/ _ |- _ => destruct H
    | H : _ /\ _ |- _ => destruct H
    | H : exists _, _ |- _ => destruct H
    | H : False |- _ => destruct H
    | H : Some _ = Some _ |- _ => injection H as H; subst
    end;
  try discriminate; try congruence; try tauto;
  repeat split; try congruence; eauto 6;
  try (eexists; repeat split; try reflexivity; try eassumption; congruence).

Lemma row_tags_meaning (today lim : Date.date) (row : task) :
  let tags := (done_tags row ++ deadline_tags today lim row ++ high_tags row)%list in
  (In "done" tags <-> is_done row <> 0)
  /\ (In "high" tags <-> priority row = "High")
  /\ (In "overdue" tags
      <-> is_done row = 0
          /\ exists d, Date.strptime (due_date row) = Some d
                       /\ Date.compare d today = Datatypes.Lt)
  /\ (In "today" tags
      <-> is_done row = 0
          /\ exists d, Date.strptime (due_date row) = Some d
                       /\ Date.compare d today = Datatypes.Eq)
  /\ (In "soon" tags
      <-> is_done row = 0
          /\ exists d, Date.strptime (due_date row) = Some d
                       /\ Date.compare d today = Datatypes.Gt
                       /\ Date.compare d lim <> Datatypes.Gt).
Proof.
  unfold done_tags, deadline_tags, high_tags.
  destruct (Z.eqb_spec (is_done row) 0) as [Hd|Hd];
    destruct (String.eqb_spec (priority row) "High") as [Hp|Hp];
    destruct (Date.strptime (due_date row)) as [d|];
    try destruct (Date.compare d today) eqn:E1;
    try destruct (Date.compare d lim) eqn:E2;
    cbv zeta; repeat split; tag_cases.
Qed.

(** ** [refresh] shows the rows of the query, each with its tags *)

Lemma query_same (a a' : ToDoApp.app) :
  same_query a a' -> ToDoApp._query_tasks a' = ToDoApp._query_tasks a.
Proof.
  intros (H1 & H2 & H3 & H4 & H5 & H6 & H7).
  unfold ToDoApp._query_tasks, ToDoApp.query_where, ToDoApp.query_order.
  rewrite H1, H2, H3, H4, H5, H6, H7. reflexivity.
Qed.

Lemma fill_tree_value (today lim : Date.date) :
  Date.add_days 3 today = Ok lim ->
  forall rows a,
    ToDoApp.fill_tree today rows a
    = (ToDoApp.set_tree
         (ToDoApp.tree a
          ++ map (fun r =>
                    ToDoApp.mkitem (item_values r)
                      (done_tags r ++ deadline_tags today lim r ++ high_tags r))
               rows)%list a,
       Ok tt).
Proof.
  intros Hlim rows. induction rows as [|r rows IH]; intros a.
  - simpl. rewrite app_nil_r. destruct a; reflexivity.
  - cbn [ToDoApp.fill_tree]. unfold ToDoApp.bnd at 1, ToDoApp.lift.
    rewrite (apply_row_tags_value today lim r Hlim).
    unfold ToDoApp.bnd at 1, ToDoApp.modify. rewrite IH.
    cbn [map]. unfold ToDoApp.set_tree; simpl.
    rewrite <- app_assoc. reflexivity.
Qed.

Lemma shows_items (today lim : Date.date) (rows : list task) :
  Date.add_days 3 today = Ok lim ->
  Forall2 (shows today)
    (map (fun r =>
            ToDoApp.mkitem (item_values r)
              (done_tags r ++ deadline_tags today lim r ++ high_tags r)%list)
       rows)
    rows.
Proof.
  intros Hlim. induction rows as [|r rows IH]; simpl; constructor; [|exact IH].
  split; [reflexivity|]. simpl. apply apply_row_tags_value; exact Hlim.
Qed.

Lemma refresh_shows (today lim : Date.date) (a : ToDoApp.app) :
  Date.add_days 3 today = Ok lim ->
  exists a' rows,
    ToDoApp.refresh today a = (a', Ok tt)
    /\ ToDoApp.repo a' = ToDoApp.repo a
    /\ ToDoApp._query_tasks a' = Ok rows
    /\ Forall2 (shows today) (ToDoApp.tree a') rows.
Proof.
  intros Hlim. unfold ToDoApp.refresh.
  unfold ToDoApp.bnd at 1. unfold ToDoApp.modify at 1.
  match goal with
  | |- context [ToDoApp.set_tree [] ?b] => set (mid := ToDoApp.set_tree [] b)
  end.
  assert (Hrepo : ToDoApp.repo mid = ToDoApp.repo a).
  { unfold mid. destruct (negb _); reflexivity. }
  unfold ToDoApp.bnd at 1, ToDoApp.lift at 1.
  rewrite (query_tasks_value mid).
  set (rows := Sql.order_by (ToDoApp.query_order mid)
                 (filter (all_filters mid) (TaskRepo.rows (ToDoApp.repo mid)))).
  unfold ToDoApp.bnd at 1. rewrite (fill_tree_value today lim Hlim).
  unfold ToDoApp.bnd at 1, ToDoApp.lift at 1.
  cbn [ToDoApp.repo ToDoApp.set_tree]. rewrite stats_value.
  unfold ToDoApp.modify.
  eexists; exists rows. split; [reflexivity|].
  split; [exact Hrepo|]. split.
  - transitivity (ToDoApp._query_tasks mid);
      [apply query_same; repeat split | apply query_tasks_value].
  - cbn [ToDoApp.tree ToDoApp.set_lbl_stats ToDoApp.set_tree].
    replace (ToDoApp.tree mid) with (@nil ToDoApp.item)
      by (unfold mid; reflexivity).
    apply shows_items; exact Hlim.
Qed.

(** C8.  On a day [today] whose third day ahead [lim] exists, the tags of
    a row are: done exactly when is_done is set; high exactly when the
    priority is High; and, only for a row that is not done and whose
    due date parses to d, overdue when d < today, today when d = today,
    soon when today < d <= lim.  A done row has none of the three deadline
    tags.  [refresh] shows exactly the rows the query returns, in the
    query's order, each with these tags, and the query does not read the
    table widget where the tags are kept. *)
Theorem row_tags :
  forall today lim,
    Date.add_days 3 today = Ok lim ->
    (forall row,
        exists tags,
          ToDoApp._apply_row_tags today row = Ok tags
          /\ (In "done" tags <-> is_done row <> 0)
          /\ (In "high" tags <-> priority row = "High")
          /\ (In "overdue" tags
              <-> is_done row = 0
                  /\ exists d, Date.strptime (due_date row) = Some d
                               /\ Date.compare d today = Datatypes.Lt)
          /\ (In "today" tags
              <-> is_done row = 0
                  /\ exists d, Date.strptime (due_date row) = Some d
                               /\ Date.compare d today = Datatypes.Eq)
          /\ (In "soon" tags
              <-> is_done row = 0
                  /\ exists d, Date.strptime (due_date row) = Some d
                               /\ Date.compare d today = Datatypes.Gt
                               /\ Date.compare d lim <> Datatypes.Gt)
          /\ (is_done row <> 0 ->
              ~ In "overdue" tags /\ ~ In "today" tags /\ ~ In "soon" tags))
    /\ (forall a,
           exists a' rows,
             ToDoApp.refresh today a = (a', Ok tt)
             /\ ToDoApp._query_tasks a' = Ok rows
             /\ Forall2 (shows today) (ToDoApp.tree a') rows)
    /\ (forall a items,
           ToDoApp._query_tasks (ToDoApp.set_tree items a)
           = ToDoApp._query_tasks a).
Proof.
  intros today lim Hlim. split; [|split].
  - intros row. eexists; split; [apply apply_row_tags_value; exact Hlim|].
    destruct (row_tags_meaning today lim row) as (H1 & H2 & H3 & H4 & H5).
    repeat (split; [assumption|]).
    intros Hd. rewrite H3, H4, H5. tauto.
  - intros a. destruct (refresh_shows today lim a Hlim)
      as [a' [rows (E & _ & Q & F)]].
    exists a', rows. auto.
  - intros a items. reflexivity.
Qed.

(** The example of the specification: A due yesterday, B due today, C due
    in two days, D done without a date; the status filter on active. *)
Lemma row_tags_witness :
  exists a',
    ToDoApp.refresh (Date.mkdate 2025 9 5)
      (ToDoApp.make_vars
         (TaskRepo.mkrepo
            [mktask 1 "A" None None "Low" "2025-09-04" 0 1 "t0" "t0";
             mktask 2 "B" None None "Low" "2025-09-05" 0 2 "t0" "t0";
             mktask 3 "C" None None "High" "2025-09-07" 0 3 "t0" "t0";
             mktask 4 "D" None None "Low" "" 1 4 "t0" "t0"] 4))
    = (a', Ok tt)
    /\ map ToDoApp.tags (ToDoApp.tree a')
       = [["overdue"]; ["today"]; ["soon"; "high"]].
Proof.
  destruct (proj1 (proj2 (row_tags (Date.mkdate 2025 9 5) (Date.mkdate 2025 9 8)
                            eq_refl))
              (ToDoApp.make_vars
                 (TaskRepo.mkrepo
                    [mktask 1 "A" None None "Low" "2025-09-04" 0 1 "t0" "t0";
                     mktask 2 "B" None None "Low" "2025-09-05" 0 2 "t0" "t0";
                     mktask 3 "C" None None "High" "2025-09-07" 0 3 "t0" "t0";
                     mktask 4 "D" None None "Low" "" 1 4 "t0" "t0"] 4)))
    as [a' [rows [E _]]].
  exists a'. split; [exact E|].
  vm_compute in E. injection E as <-. reflexivity.
Defined.

(** ** CSV import, row by row *)

(** Lookup is by header name: with distinct header names, the value under
    a name is the cell at the position of the name, wherever that is. *)
Lemma lookup_app_None k (d d' : Csv.dict) :
  Csv.lookup k d' = None -> Csv.lookup k (d ++ d')%list = Csv.lookup k d.
Proof.
  intros H. induction d as [|[k' v] d IH]; simpl; [exact H|].
  rewrite IH. reflexivity.
Qed.

Lemma lookup_not_in k (d : Csv.dict) :
  ~ In k (map fst d) -> Csv.lookup k d = None.
Proof.
  induction d as [|[k' v] d IH]; simpl; intros H; [reflexivity|].
  rewrite IH by tauto.
  destruct (String.eqb_spec k k'); [subst; tauto | reflexivity].
Qed.

Lemma lookup_combine (fieldnames : list string) :
  NoDup fieldnames ->
  forall (cells : list (option string)) i k v,
    nth_error fieldnames i = Some k -> nth_error cells i = Some v ->
    Csv.lookup k (combine fieldnames cells) = Some v.
Proof.
  induction 1 as [|h fieldnames Hh Hnd IH]; intros cells i k v Hk Hv.
  - destruct i; discriminate.
  - destruct cells as [|c cells]; [destruct i; discriminate|].
    destruct i as [|i]; simpl in *.
    + injection Hk as <-. injection Hv as <-.
      rewrite lookup_not_in, String.eqb_refl; [reflexivity|].
      intros Hin. apply Hh. apply in_map_iff in Hin.
      destruct Hin as [[k' v'] [E Hin]]. simpl in E; subst k'.
      apply in_combine_l in Hin. exact Hin.
    + rewrite (IH cells i k v Hk Hv). reflexivity.
Qed.

Lemma row_get_by_name (fieldnames r : list string) i k v default :
  NoDup fieldnames ->
  nth_error fieldnames i = Some k -> nth_error r i = Some v ->
  Csv.get (Csv.row_dict fieldnames r) k default = Some v.
Proof.
  intros Hnd Hk Hv. unfold Csv.get, Csv.row_dict.
  rewrite lookup_app_None.
  - rewrite (lookup_combine fieldnames Hnd (map Some r) i k (Some v) Hk);
      [reflexivity|].
    rewrite nth_error_map, Hv. reflexivity.
  - apply lookup_not_in. rewrite map_map. simpl. rewrite map_id.
    intros Hin.
    assert (Hi : (i < List.length r)%nat)
      by (apply nth_error_Some; congruence).
    destruct (In_nth_error _ _ Hin) as [j Hj].
    rewrite nth_error_skipn in Hj.
    assert (Hne : (List.length r + j)%nat <> i) by lia.
    apply Hne. eapply NoDup_nth_error; try eassumption.
    + apply nth_error_Some. congruence.
    + congruence.
Qed.


(** C7, at a failing input.  The header names two columns, the second
    record has one cell: [csv.DictReader] binds due_date to None for it,
    [.strip()] on None raises AttributeError, and the import stops there:
    the first record is in the table, the third never gets there. *)
Theorem import_short_row_aborts :
  let file := [["title"; "due_date"];
               ["first"; "2025-01-01"];
               ["second"];
               ["third"; "2025-01-03"]] in
  let r := ToDoApp.on_import_csv (fun _ => "2025-09-05T10:00:00")
             (Date.mkdate 2025 9 5) file
             (ToDoApp.make_vars TaskRepo.empty) in
  snd r = Raise AttributeError
  /\ map title (TaskRepo.rows (ToDoApp.repo (fst r))) = ["first"].
Proof. split; reflexivity. Qed.



Lemma import_rows_keep clock row rows a t d c p due :
  ToDoApp.import_row row = Ok (Some (t, d, c, p, due)) ->
  In p PRIORITIES ->
  ToDoApp.import_rows clock (row :: rows) a
  = ToDoApp.import_rows (fun k => clock (S k)) rows
      (ToDoApp.set_repo
         (TaskRepo.mkrepo
            (TaskRepo.rows (ToDoApp.repo a)
             ++ [mktask (TaskRepo.next_rowid (ToDoApp.repo a)) t d c p
                   (TaskRepo.or_empty due) 0
                   (TaskRepo.coalesce
                      (TaskRepo.sql_max order_index
                         (TaskRepo.rows (ToDoApp.repo a))) 0 + 1)
                   (clock O) (clock O)])%list
            (TaskRepo.next_rowid (ToDoApp.repo a))) a).
Proof.
  intros E Hp. cbn [ToDoApp.import_rows]. unfold ToDoApp.bnd, ToDoApp.lift.
  rewrite E, (create_Ok _ _ _ _ _ _ _ Hp). reflexivity.
Qed.


(** ** The handlers write well-formed rows *)

Lemma drop_prefix_Some (w l r : list ascii) :
  Py.drop_prefix w l = Some r <-> l = (w ++ r)%list.
Proof.
  revert l. induction w as [|a w IH]; intros l; cbn [Py.drop_prefix app].
  - split; [intros [= ->]; reflexivity | intros ->; reflexivity].
  - destruct l as [|b l]; [split; discriminate|].
    destruct (Ascii.eqb_spec a b) as [->|Hne].
    + rewrite IH. split; [intros ->; reflexivity | intros [= ->]; reflexivity].
    + split; [discriminate | intros [= E _]; congruence].
Qed.

Lemma drop_one_Some (ws : list (list ascii)) (l r : list ascii) :
  Py.drop_one ws l = Some r -> exists w, In w ws /\ l = (w ++ r)%list.
Proof.
  induction ws as [|w ws IH]; cbn [Py.drop_one]; [discriminate|].
  destruct (Py.drop_prefix w l) as [r'|] eqn:E.
  - intros [= ->]. exists w. split; [left; reflexivity|].
    apply drop_prefix_Some, E.
  - intros H. destruct (IH H) as [w' [Hin Hl]]. exists w'. split; auto.
    right. exact Hin.
Qed.

Lemma drop_one_None (ws : list (list ascii)) (l : list ascii) :
  Py.drop_one ws l = None ->
  forall w r, In w ws -> l <> (w ++ r)%list.
Proof.
  induction ws as [|w ws IH]; cbn [Py.drop_one]; intros H w' r Hin;
    [destruct Hin|].
  destruct (Py.drop_prefix w l) as [r'|] eqn:E; [discriminate|].
  destruct Hin as [<-|Hin].
  - intros Hl. apply drop_prefix_Some in Hl. congruence.
  - apply IH; assumption.
Qed.

Lemma drop_leading_fixed (ws : list (list ascii)) (n : nat) (l : list ascii) :
  Py.drop_one ws l = None -> Py.drop_leading ws n l = l.
Proof. intros H. destruct n; cbn [Py.drop_leading]; [|rewrite H]; reflexivity. Qed.

Lemma drop_leading_done (ws : list (list ascii)) :
  forallb (fun w => negb (Nat.eqb (List.length w) 0)) ws = true ->
  forall n l, (List.length l <= n)%nat ->
              Py.drop_one ws (Py.drop_leading ws n l) = None.
Proof.
  intros Hws. induction n as [|n IH]; intros l Hl.
  - destruct l; [|simpl in Hl; lia]. cbn [Py.drop_leading].
    destruct (Py.drop_one ws []) as [r|] eqn:E; [|reflexivity].
    destruct (drop_one_Some _ _ _ E) as [w [Hin Hw]].
    rewrite forallb_forall in Hws. specialize (Hws w Hin).
    destruct w; [discriminate Hws | discriminate Hw].
  - cbn [Py.drop_leading].
    destruct (Py.drop_one ws l) as [r|] eqn:E; [|exact E].
    apply IH. destruct (drop_one_Some _ _ _ E) as [w [Hin Hw]].
    rewrite forallb_forall in Hws. specialize (Hws w Hin).
    subst l. rewrite length_app in Hl.
    destruct w; [discriminate Hws | simpl in Hl; lia].
Qed.

Lemma drop_leading_suffix (ws : list (list ascii)) (n : nat) :
  forall l, exists p, l = (p ++ Py.drop_leading ws n l)%list.
Proof.
  induction n as [|n IH]; intros l; cbn [Py.drop_leading]; [exists []; reflexivity|].
  destruct (Py.drop_one ws l) as [r|] eqn:E; [|exists []; reflexivity].
  destruct (drop_one_Some _ _ _ E) as [w [_ ->]].
  destruct (IH r) as [p Hp]. exists (w ++ p)%list.
  rewrite <- app_assoc, <- Hp. reflexivity.
Qed.

(** What [strip] leaves has no white space at either end, and [strip]
    leaves it as it is. *)
Lemma strip_bytes_idem (l : list ascii) :
  let k := Py.rstrip_bytes (Py.lstrip_bytes l) in
  Py.rstrip_bytes (Py.lstrip_bytes k) = k.
Proof.
  cbv zeta. set (m := Py.lstrip_bytes l).
  assert (Hm : Py.drop_one Py.whitespace m = None)
    by (apply drop_leading_done; [reflexivity | apply Nat.le_refl]).
  unfold Py.rstrip_bytes at 2.
  set (X := Py.drop_leading (map (@rev ascii) Py.whitespace)
              (List.length m) (rev m)).
  assert (HX : Py.drop_one (map (@rev ascii) Py.whitespace) X = None)
    by (apply drop_leading_done; [reflexivity | rewrite length_rev; apply Nat.le_refl]).
  destruct (drop_leading_suffix (map (@rev ascii) Py.whitespace)
              (List.length m) (rev m)) as [p Hp].
  fold X in Hp.
  assert (Em : m = (rev X ++ rev p)%list).
  { rewrite <- rev_app_distr, <- Hp, rev_involutive. reflexivity. }
  assert (Hk : Py.drop_one Py.whitespace (rev X) = None).
  { destruct (Py.drop_one Py.whitespace (rev X)) as [r|] eqn:E; [|reflexivity].
    destruct (drop_one_Some _ _ _ E) as [w [Hin Hw]].
    exfalso. apply (drop_one_None _ _ Hm w (r ++ rev p)%list Hin).
    rewrite Em, Hw, app_assoc. reflexivity. }
  unfold Py.lstrip_bytes at 1. rewrite (drop_leading_fixed _ _ _ Hk).
  unfold Py.rstrip_bytes. rewrite rev_involutive.
  rewrite (drop_leading_fixed _ _ _ HX). reflexivity.
Qed.

Lemma strip_stripped (s : string) : stripped (Py.strip s).
Proof.
  unfold stripped, Py.strip.
  rewrite list_ascii_of_string_of_list_ascii.
  rewrite (strip_bytes_idem (list_ascii_of_string s)). reflexivity.
Qed.

Lemma keeps_well_formed_refl a : keeps_well_formed a a.
Proof. intros H; exact H. Qed.

Lemma keeps_well_formed_trans a b c :
  keeps_well_formed a b -> keeps_well_formed b c -> keeps_well_formed a c.
Proof. unfold keeps_well_formed; auto. Qed.

Lemma refresh_well_formed today :
  keeps keeps_well_formed (ToDoApp.refresh today).
Proof.
  intros a. destruct (refresh_core today a) as [E _].
  unfold keeps_well_formed. rewrite E. auto.
Qed.

Lemma on_ok_fields (d : TaskDialog.dialog) (r : TaskDialog.result_dict) :
  TaskDialog.on_ok d = Some r ->
  TaskDialog.r_title r <> EmptyString
  /\ stripped (TaskDialog.r_title r)
  /\ TaskDialog.r_priority r = "Medium"
  /\ stripped (TaskDialog.r_due_date r).
Proof.
  unfold TaskDialog.on_ok.
  destruct (Py.strip (TaskDialog.var_title d)) as [|c s] eqn:E;
    [discriminate|].
  cbn [Py.truthy negb]. intros [= <-]. cbn.
  repeat split; [discriminate | rewrite <- E | ]; apply strip_stripped.
Qed.

Lemma on_add_well_formed now today d :
  keeps keeps_well_formed (ToDoApp.on_add now today d).
Proof.
  unfold ToDoApp.on_add.
  destruct (TaskDialog.on_ok d) as [r|] eqn:E;
    [|apply keeps_ret, keeps_well_formed_refl].
  destruct (on_ok_fields d r E) as (Ht & Hs & Hp & Hd).
  apply keeps_bnd;
    [exact keeps_well_formed_trans | | intros _; apply refresh_well_formed].
  intros a. rewrite Hp.
  rewrite create_Ok by (simpl; auto). simpl.
  intros Hwf. apply Forall_app; split; [exact Hwf|].
  constructor; [|constructor].
  repeat split; simpl; auto.
Qed.

Lemma on_edit_well_formed now today task_id d :
  keeps keeps_well_formed (ToDoApp.on_edit now today task_id d).
Proof.
  unfold ToDoApp.on_edit.
  destruct (TaskDialog.on_ok d) as [r|] eqn:E;
    [|apply keeps_ret, keeps_well_formed_refl].
  destruct (on_ok_fields d r E) as (Ht & Hs & Hp & Hd).
  apply keeps_bnd;
    [exact keeps_well_formed_trans | | intros _; apply refresh_well_formed].
  intros a. rewrite Hp.
  rewrite update_rows;
    [ | discriminate
      | repeat constructor; simpl; intuition discriminate
      | intros v Hv; simpl in Hv;
        repeat (destruct Hv as [Hv|Hv]; try discriminate);
        [injection Hv as <-; simpl; auto | destruct Hv] ].
  simpl. intros Hwf. apply Forall_map.
  rewrite Forall_forall in *. intros t Hin.
  destruct (id t =? task_id); [|apply Hwf; exact Hin].
  repeat split; simpl; auto.
Qed.

Lemma import_rows_well_formed (rows : list Csv.dict) :
  forall clock, keeps keeps_well_formed (ToDoApp.import_rows clock rows).
Proof.
  induction rows as [|row rows IH]; intros clock a;
    [apply keeps_well_formed_refl|].
  cbn [ToDoApp.import_rows]. unfold ToDoApp.bnd at 1, ToDoApp.lift.
  unfold ToDoApp.import_row.
  destruct (Csv.get row "title" (Some "")) as [t|];
    [|apply keeps_well_formed_refl].
  destruct (Py.strip t) as [|c s] eqn:Et; cbn [Py.truthy negb]; [apply IH|].
  destruct (Csv.get row "due_date" (Some "")) as [dd|];
    [|apply keeps_well_formed_refl].
  set (p := match Csv.get row "priority" None with
            | Some p => if Py.mem p PRIORITIES then p else "Medium"
            | None => "Medium"
            end).
  set (due := if Py.truthy (Py.strip dd)
              then match Date.strptime (Py.strip dd) with
                   | Some _ => Py.strip dd
                   | None => EmptyString
                   end
              else Py.strip dd).
  assert (Hp : In p PRIORITIES).
  { unfold p. destruct (Csv.get row "priority" None) as [x|]; [|simpl; auto].
    destruct (Py.mem x PRIORITIES) eqn:Ex; [|simpl; auto].
    apply check_priority_iff; exact Ex. }
  assert (Hdue : stripped due).
  { unfold due. destruct (Py.truthy _); [|apply strip_stripped].
    destruct (Date.strptime _); [apply strip_stripped | reflexivity]. }
  unfold ToDoApp.bnd. rewrite (create_Ok _ _ _ _ _ _ _ Hp).
  eapply keeps_well_formed_trans; [|apply IH].
  simpl. intros Hwf. apply Forall_app; split; [exact Hwf|].
  constructor; [|constructor].
  repeat split; simpl; auto; [discriminate|].
  rewrite <- Et. apply strip_stripped.
Qed.

Lemma delete_each_well_formed ids (s : TaskRepo.repo) :
  Forall well_formed (TaskRepo.rows s) ->
  Forall well_formed
    (TaskRepo.rows (fold_left (fun s tid => TaskRepo.delete tid s) ids s)).
Proof.
  revert s; induction ids as [|tid ids IH]; intros s H; simpl; [exact H|].
  apply IH. simpl. apply Forall_forall. intros t Ht.
  apply filter_In in Ht. rewrite Forall_forall in H. apply H, Ht.
Qed.

Lemma update_each_well_formed ids new_done :
  forall clock, keeps keeps_well_formed (ToDoApp.update_each clock ids new_done).
Proof.
  induction ids as [|tid ids IH]; intros clock; cbn [ToDoApp.update_each];
    [apply keeps_ret, keeps_well_formed_refl|].
  apply keeps_bnd; [exact keeps_well_formed_trans | | intros _; apply IH].
  intros a. cbv beta.
  rewrite update_rows;
    [ | discriminate | constructor; [intros [] | constructor]
      | intros v [Hv|[]]; discriminate ].
  simpl. intros Hwf. apply Forall_map.
  rewrite Forall_forall in *. intros t Hin.
  destruct (id t =? tid); [|apply Hwf; exact Hin].
  exact (Hwf t Hin).
Qed.

(** Every handler that writes to the table keeps its rows well formed. *)
Lemma handlers_well_formed :
  (forall now today d, keeps keeps_well_formed (ToDoApp.on_add now today d))
  /\ (forall now today task_id d,
         keeps keeps_well_formed (ToDoApp.on_edit now today task_id d))
  /\ (forall clock today f,
         keeps keeps_well_formed (ToDoApp.on_import_csv clock today f))
  /\ (forall clock today ids status,
         keeps keeps_well_formed
           (ToDoApp.on_toggle_done clock today ids status))
  /\ (forall today ids, keeps keeps_well_formed (ToDoApp.on_delete today ids))
  /\ (forall today, keeps keeps_well_formed (ToDoApp.on_clear_done today)).
Proof.
  split; [exact on_add_well_formed|]. split; [exact on_edit_well_formed|].
  split; [|split; [|split]].
  - intros clock today f. unfold ToDoApp.on_import_csv.
    apply keeps_bnd;
      [exact keeps_well_formed_trans | apply import_rows_well_formed
      | intros _; destruct (Csv.raises (Csv.reopen f));
        [apply keeps_lift, keeps_well_formed_refl
        | apply refresh_well_formed]].
  - intros clock today [|i ids] status;
      [apply keeps_ret, keeps_well_formed_refl|].
    unfold ToDoApp.on_toggle_done.
    apply keeps_bnd;
      [exact keeps_well_formed_trans | apply update_each_well_formed
      | intros _; apply refresh_well_formed].
  - intros today [|i ids]; [apply keeps_ret, keeps_well_formed_refl|].
    unfold ToDoApp.on_delete.
    apply keeps_bnd;
      [exact keeps_well_formed_trans | | intros _; apply refresh_well_formed].
    intros a Hwf. apply (delete_each_well_formed _ _ Hwf).
  - intros today. unfold ToDoApp.on_clear_done.
    apply keeps_bnd;
      [exact keeps_well_formed_trans | | intros _; apply refresh_well_formed].
    intros a Hwf. simpl. apply Forall_forall. intros t Ht.
    apply filter_In in Ht. rewrite Forall_forall in Hwf. apply Hwf, Ht.
Qed.

(** ** CSV export followed by import *)

Lemma fold_writerow (g : task -> list Sql.value) (rows : list task) :
  forall f,
    fold_left (fun f r => Csv.writerow (g r) f) rows f
    = (f ++ map (fun r => map Csv.cell (g r)) rows)%list.
Proof.
  induction rows as [|r rows IH]; intros f; simpl.
  - rewrite app_nil_r. reflexivity.
  - rewrite IH. unfold Csv.writerow. rewrite <- app_assoc. reflexivity.
Qed.

Lemma export_value (a : ToDoApp.app) (rows : list task) :
  ToDoApp._query_tasks a = Ok rows ->
  ToDoApp.on_export_csv a
  = Ok (ToDoApp.csv_header :: map export_record rows).
Proof.
  intros E. unfold ToDoApp.on_export_csv. rewrite E. simpl bind.
  rewrite fold_writerow. reflexivity.
Qed.

(** The five cells that the import loop reads, in a record with the cells
    of the export's header. *)
Section ExportedRecord.

Variables c0 c1 c2 c3 c4 c5 c6 c7 c8 c9 : string.

Lemma exported_cells (d : option string) :
  let row := Csv.row_dict ToDoApp.csv_header
               [c0; c1; c2; c3; c4; c5; c6; c7; c8; c9] in
  Csv.get row "title" d = Some c1
  /\ Csv.get row "details" d = Some c2
  /\ Csv.get row "category" d = Some c3
  /\ Csv.get row "priority" d = Some c4
  /\ Csv.get row "due_date" d = Some c5.
Proof. repeat split. Qed.

End ExportedRecord.

Lemma priority_no_cr (p : string) : In p PRIORITIES -> no_cr p.
Proof.
  unfold PRIORITIES, no_cr. simpl.
  intros [<-|[<-|[<-|[]]]]; reflexivity.
Qed.

Lemma cell_of_text (o : option string) :
  Csv.cell (Sql.of_text o) = TaskRepo.or_empty o.
Proof. destruct o; reflexivity. Qed.

(** The loop body on a record written by the export and read back. *)
Lemma import_exported_row (r : task) :
  round_trips r ->
  ToDoApp.import_row
    (Csv.row_dict ToDoApp.csv_header
       (map Csv.universal_newlines (export_record r)))
  = Ok (Some (title r, Some (TaskRepo.or_empty (details r)),
              Some (TaskRepo.or_empty (category r)), priority r,
              Some (due_date r))).
Proof.
  intros ((Hne & Hst & Hp & Hds) & Hdate & Hcr & Hd & Hc & Hdcr).
  unfold export_record, ToDoApp.csv_columns.
  cbn [map Sql.get Csv.cell]. rewrite !cell_of_text.
  unfold no_cr, stripped in *.
  rewrite Hcr, Hd, Hc, (priority_no_cr _ Hp), Hdcr.
  unfold ToDoApp.import_row.
  match goal with
  | |- context [Csv.row_dict _ [?c0; ?c1; ?c2; ?c3; ?c4; ?c5; ?c6; ?c7; ?c8; ?c9]] =>
      pose proof (fun d => exported_cells c0 c1 c2 c3 c4 c5 c6 c7 c8 c9 d) as Hcells
  end.
  cbv zeta in Hcells.
  destruct (Hcells (Some "")) as (E1 & E2 & E3 & _ & E5).
  destruct (Hcells None) as (_ & _ & _ & E4 & _).
  rewrite E1, E2, E3, E4, E5. clear Hcells E1 E2 E3 E4 E5.
  rewrite Hst, Hds.
  destruct (title r) as [|c s] eqn:Et; [congruence|]. cbn [Py.truthy negb].
  apply check_priority_iff in Hp. unfold TaskRepo.check_priority in Hp.
  unfold PRIORITIES. rewrite Hp.
  destruct (Py.truthy (due_date r)) eqn:Etr.
  - destruct Hdate as [E|E]; [rewrite E in Etr; discriminate|].
    destruct (Date.strptime (due_date r)); [reflexivity | congruence].
  - reflexivity.
Qed.

Lemma import_exported_rows (rows : list task) :
  Forall round_trips rows ->
  forall clock b,
    let res :=
      ToDoApp.import_rows clock
        (map (fun r =>
                Csv.row_dict ToDoApp.csv_header
                  (map Csv.universal_newlines (export_record r))) rows) b in
    snd res = Ok tt
    /\ exists new,
        TaskRepo.rows (ToDoApp.repo (fst res))
        = (TaskRepo.rows (ToDoApp.repo b) ++ new)%list
        /\ map core new = map core rows.
Proof.
  induction 1 as [|r rows Hr _ IH]; intros clock b; cbv zeta.
  - split; [reflexivity|]. exists []. rewrite app_nil_r. auto.
  - cbn [map].
    rewrite (import_rows_keep _ _ _ _ _ _ _ _ _ (import_exported_row r Hr))
      by (destruct Hr as ((_ & _ & Hp & _) & _); exact Hp).
    match goal with
    | |- context [ToDoApp.import_rows ?ck _ ?b1] =>
        destruct (IH ck b1) as [Hok [new [Hrows Hcore]]]
    end.
    split; [exact Hok|].
    eexists (_ :: new). rewrite Hrows.
    cbn [ToDoApp.repo ToDoApp.set_repo TaskRepo.rows].
    rewrite <- app_assoc. split; [reflexivity|].
    cbn [map]. rewrite Hcore. reflexivity.
Qed.

Lemma accepted_all (f : Csv.file) :
  Csv.raises f = false -> Csv.accepted f = f.
Proof.
  unfold Csv.raises. induction f as [|r f IH]; [reflexivity|].
  cbn [existsb Csv.accepted]. intros H. apply orb_false_iff in H.
  destruct H as [Hr Hf]. rewrite Hr, IH by exact Hf. reflexivity.
Qed.

Lemma exported_accepted (rows : list task) :
  Forall within_limit rows ->
  Csv.raises (Csv.reopen (ToDoApp.csv_header :: map export_record rows))
  = false.
Proof.
  intros H. unfold Csv.raises, Csv.reopen. cbn [map existsb].
  change (Csv.too_long (map Csv.universal_newlines ToDoApp.csv_header))
    with false.
  cbn [orb]. induction H as [|r rows Hr _ IH]; [reflexivity|].
  cbn [map existsb]. rewrite Hr. exact IH.
Qed.

Lemma reopen_exported (rows : list task) :
  Forall within_limit rows ->
  Csv.DictReader
    (Csv.accepted
       (Csv.reopen (ToDoApp.csv_header :: map export_record rows)))
  = map (fun r =>
           Csv.row_dict ToDoApp.csv_header
             (map Csv.universal_newlines (export_record r))) rows.
Proof.
  intros H. rewrite (accepted_all _ (exported_accepted rows H)).
  unfold Csv.reopen. cbn [map Csv.DictReader].
  change (map Csv.universal_newlines ToDoApp.csv_header)
    with ToDoApp.csv_header.
  clear H. induction rows as [|r rows IH]; [reflexivity|].
  cbn [map filter].
  change (negb (Csv.is_blank (map Csv.universal_newlines (export_record r))))
    with true.
  cbn iota. cbn [map]. rewrite IH. reflexivity.
Qed.

Lemma insert_perm o x l : Permutation (Sql.insert o x l) (x :: l).
Proof.
  induction l as [|y l IH]; simpl; [reflexivity|].
  destruct (Sql.order_leb o x y); [reflexivity|].
  rewrite IH. apply perm_swap.
Qed.

Lemma order_by_perm o l : Permutation (Sql.order_by o l) l.
Proof.
  induction l as [|x l IH]; simpl; [reflexivity|].
  rewrite insert_perm, IH. reflexivity.
Qed.

Lemma no_filter_all (a : ToDoApp.app) :
  no_filter a -> forall t, all_filters a t = true.
Proof.
  intros (Hq & Hs & Hp & Hc) t.
  unfold all_filters, search_filter, status_filter, priority_filter,
    category_filter.
  rewrite Hq, Hs, Hp, Hc. reflexivity.
Qed.

(** X25. The round trip of the rows the handlers write.  With no filter
    active the export holds every row of the table.  Exporting a view
    and importing the file adds, for the exported rows in their order,
    rows with the same title, priority and due date and the same details
    and category (NULL read back as empty text), provided each exported
    row has a title that is not empty, title and due date without
    surrounding white space, a priority of the table's three, a due date
    that is empty or accepted by [strptime], no carriage return in these
    texts, and no cell of more than 131072 characters. *)
Theorem export_import_round_trip :
  (forall a,
      no_filter a ->
      exists rows,
        ToDoApp._query_tasks a = Ok rows
        /\ Permutation rows (TaskRepo.rows (ToDoApp.repo a)))
  /\ (forall a rows clock today b,
         ToDoApp._query_tasks a = Ok rows ->
         Forall round_trips rows ->
         Forall within_limit rows ->
         exists f new,
           ToDoApp.on_export_csv a = Ok f
           /\ TaskRepo.rows
                (ToDoApp.repo
                   (fst (ToDoApp.on_import_csv clock today f b)))
              = (TaskRepo.rows (ToDoApp.repo b) ++ new)%list
           /\ map core new = map core rows).
Proof.
  split.
  - intros a Ha. eexists; split; [apply query_tasks_value|].
    rewrite order_by_perm.
    rewrite (filter_ext _ (fun _ => true) (no_filter_all a Ha)), filter_true.
    reflexivity.
  - intros a rows clock today b Hq Hrows Hlim.
    exists (ToDoApp.csv_header :: map export_record rows).
    destruct (import_exported_rows rows Hrows clock b) as [Hok [new [Hnew Hcore]]].
    exists new. split; [apply export_value; exact Hq|]. split; [|exact Hcore].
    unfold ToDoApp.on_import_csv.
    rewrite (reopen_exported rows Hlim), (exported_accepted rows Hlim).
    unfold ToDoApp.bnd.
    destruct (ToDoApp.import_rows clock _ b) as [b1 [[]|e]] eqn:E;
      simpl in Hok, Hnew; [|discriminate].
    destruct (refresh_core today b1) as [Hrepo _].
    rewrite Hrepo. exact Hnew.
Qed.

Lemma export_import_round_trip_witness :
  exists f new,
    ToDoApp.on_export_csv
      (ToDoApp.set_filters "" "Все" "Все" "Все"
         (ToDoApp.make_vars
            (TaskRepo.mkrepo
               [mktask 7 "pay, rent" (Some "2 months") None "High"
                  "2025-09-04" 1 3 "t0" "t1";
                mktask 9 "call" None (Some "home") "Low" "" 0 5 "t2" "t2"] 9)))
    = Ok f
    /\ TaskRepo.rows
         (ToDoApp.repo
            (fst (ToDoApp.on_import_csv (fun _ => "t3") (Date.mkdate 2025 9 5)
                    f (ToDoApp.make_vars TaskRepo.empty))))
       = ([] ++ new)%list
    /\ map core new
       = [("pay, rent", "2 months", "", "High", "2025-09-04");
          ("call", "", "home", "Low", "")].
Proof.
  apply (proj2 export_import_round_trip
           (ToDoApp.set_filters "" "Все" "Все" "Все"
              (ToDoApp.make_vars
                 (TaskRepo.mkrepo
                    [mktask 7 "pay, rent" (Some "2 months") None "High"
                       "2025-09-04" 1 3 "t0" "t1";
                     mktask 9 "call" None (Some "home") "Low" "" 0 5 "t2" "t2"]
                    9)))
           [mktask 7 "pay, rent" (Some "2 months") None "High"
              "2025-09-04" 1 3 "t0" "t1";
            mktask 9 "call" None (Some "home") "Low" "" 0 5 "t2" "t2"]
           (fun _ => "t3") (Date.mkdate 2025 9 5)
           (ToDoApp.make_vars TaskRepo.empty)).
  - reflexivity.
  - repeat (apply Forall_cons || apply Forall_nil);
      unfold round_trips, well_formed, stripped, no_cr; repeat split;
      first [ reflexivity | discriminate | simpl; tauto
            | left; reflexivity | right; vm_compute; discriminate ].
  - repeat (apply Forall_cons || apply Forall_nil); reflexivity.
Defined.

(** C6.  The round trip loses a due date that the program itself has
    stored.  The add dialog is left with the title "call" and the due
    date "tomorrow"; [on_ok], whose check of the date is commented out,
    accepts it and [on_add] stores it.  The export writes the task with
    that due date, and the import of the exported file into an empty
    store, which checks the date with [strptime], stores the task with an
    empty due date. *)
Theorem round_trip_loses_due_date :
  let today := Date.mkdate 2025 9 5 in
  let a := fst (ToDoApp.on_add "2025-09-05T10:00:00" today
                  (TaskDialog.mkdialog "call" "" "" "Medium" "tomorrow")
                  (ToDoApp.make_vars TaskRepo.empty)) in
  let f := [ToDoApp.csv_header;
            ["1"; "call"; ""; ""; "Medium"; "tomorrow"; "0";
             "2025-09-05T10:00:00"; "2025-09-05T10:00:00"; "1"]] in
  let b := fst (ToDoApp.on_import_csv (fun _ => "2025-09-05T10:05:00") today f
                  (ToDoApp.make_vars TaskRepo.empty)) in
  map core (TaskRepo.rows (ToDoApp.repo a))
  = [("call", "", "", "Medium", "tomorrow")]
  /\ ToDoApp.on_export_csv a = Ok f
  /\ map core (TaskRepo.rows (ToDoApp.repo b))
     = [("call", "", "", "Medium", "")].
Proof. cbv zeta. repeat split; vm_compute; reflexivity. Qed.

(** * Further properties of the code *)

(** ** The store: delete, bulk delete, statistics, constraint *)

Lemma filter_all_true {A : Type} (p : A -> bool) (l : list A) :
  (forall x, In x l -> p x = true) -> filter p l = l.
Proof.
  induction l as [|x l IH]; intros H; simpl; [reflexivity|].
  rewrite (H x) by (left; reflexivity).
  rewrite IH by (intros y Hy; apply H; right; exact Hy). reflexivity.
Qed.

Lemma delete_absent task_id (s : TaskRepo.repo) :
  (forall t, In t (TaskRepo.rows s) -> id t <> task_id) ->
  TaskRepo.delete task_id s = s.
Proof.
  intros H. unfold TaskRepo.delete. rewrite filter_all_true.
  - destruct s; reflexivity.
  - intros t Ht. apply negb_true_iff, Z.eqb_neq, H, Ht.
Qed.

Lemma next_rowid_after_seq (l : list task) (n : Z) :
  Forall (fun t => id t <= n) l ->
  (l = [] -> 0 <= n) ->
  TaskRepo.next_rowid (TaskRepo.mkrepo l n) = n + 1.
Proof.
  intros H H0. unfold TaskRepo.next_rowid; simpl.
  destruct l as [|x l'].
  - simpl. specialize (H0 eq_refl). lia.
  - destruct (sql_max_attained id (x :: l')) as [m [r [E [Hin Hr]]]];
      [discriminate|].
    rewrite E. simpl.
    rewrite Forall_forall in H. specialize (H r Hin). lia.
Qed.

(** X1.  [delete] of an id that no row has leaves the store as it is.
    Deleting the task that [create] has just made gives back the rows
    there were, but not the id: the next [create] returns the id after
    it. *)
Theorem delete_and_create :
  (forall task_id s,
      (forall t, In t (TaskRepo.rows s) -> id t <> task_id) ->
      TaskRepo.delete task_id s = s)
  /\ (forall now title details category priority due_date s,
         In priority PRIORITIES ->
         exists i s1,
           TaskRepo.create now title details category priority due_date s
           = Ok (i, s1)
           /\ TaskRepo.rows (TaskRepo.delete i s1) = TaskRepo.rows s
           /\ forall now' title' details' category' due_date',
               exists s2,
                 TaskRepo.create now' title' details' category' priority
                   due_date' (TaskRepo.delete i s1)
                 = Ok (i + 1, s2)).
Proof.
  split; [exact delete_absent|].
  intros now title details category priority due_date s Hp.
  eexists; eexists; split; [exact (create_Ok _ _ _ _ _ _ s Hp)|].
  set (i := TaskRepo.next_rowid s).
  assert (Hrows : forall t,
             id t = i ->
             filter (fun r => negb (id r =? i)) (TaskRepo.rows s ++ [t])%list
             = TaskRepo.rows s).
  { intros t Ht. rewrite filter_app. simpl.
    rewrite Ht, Z.eqb_refl. simpl. rewrite app_nil_r.
    apply filter_all_true. intros r Hr.
    apply negb_true_iff, Z.eqb_neq.
    pose proof (next_rowid_fresh s r Hr). fold i in H. lia. }
  split; [apply Hrows; reflexivity|].
  intros now' title' details' category' due_date'.
  eexists. rewrite (create_Ok _ _ _ _ _ _ _ Hp).
  unfold TaskRepo.delete. cbn [TaskRepo.rows TaskRepo.seq].
  rewrite Hrows by reflexivity.
  rewrite next_rowid_after_seq; [reflexivity | |].
  - apply Forall_forall. intros r Hr.
    pose proof (next_rowid_fresh s r Hr). fold i in H. lia.
  - intros E. unfold i, TaskRepo.next_rowid. rewrite E. simpl. lia.
Qed.

Lemma delete_and_create_witness :
  TaskRepo.delete 7
    (TaskRepo.mkrepo [mktask 1 "a" None None "Low" "" 0 1 "t0" "t0"] 1)
  = TaskRepo.mkrepo [mktask 1 "a" None None "Low" "" 0 1 "t0" "t0"] 1
  /\ exists i s1,
      TaskRepo.create "t1" "b" None None "High" None
        (TaskRepo.mkrepo [mktask 1 "a" None None "Low" "" 0 1 "t0" "t0"] 1)
      = Ok (i, s1)
      /\ TaskRepo.rows (TaskRepo.delete i s1)
         = [mktask 1 "a" None None "Low" "" 0 1 "t0" "t0"].
Proof.
  assert (Hp : In "High" PRIORITIES) by (simpl; auto).
  split.
  - apply (proj1 delete_and_create). intros t [<-|[]]. discriminate.
  - destruct (proj2 delete_and_create "t1" "b" None None "High" None
                (TaskRepo.mkrepo [mktask 1 "a" None None "Low" "" 0 1 "t0" "t0"] 1)
                Hp) as [i [s1 [E [Hr _]]]].
    exists i, s1. split; [exact E | exact Hr].
Defined.

Lemma count_rows_filter p q (l : list task) :
  count_rows p (filter q l) = count_rows (fun t => q t && p t) l.
Proof.
  unfold count_rows. do 2 f_equal.
  induction l as [|x l IH]; simpl; [reflexivity|].
  destruct (q x); simpl; [destruct (p x); simpl; rewrite IH|]; auto.
Qed.

Lemma count_rows_split p (l : list task) :
  Z.of_nat (List.length l) = count_rows p l + count_rows (fun t => negb (p t)) l.
Proof.
  unfold count_rows. induction l as [|x l IH]; [reflexivity|].
  cbn [filter List.length]. destruct (p x); cbn [negb List.length]; lia.
Qed.

Lemma count_rows_ext p q (l : list task) :
  (forall t, In t l -> p t = q t) -> count_rows p l = count_rows q l.
Proof.
  intros H. unfold count_rows. do 2 f_equal.
  induction l as [|x l IH]; simpl; [reflexivity|].
  rewrite (H x) by (left; reflexivity).
  rewrite IH by (intros t Ht; apply H; right; exact Ht). reflexivity.
Qed.

Lemma count_rows_le p q (l : list task) :
  (forall t, p t = true -> q t = true) -> count_rows p l <= count_rows q l.
Proof.
  intros H. unfold count_rows. induction l as [|x l IH]; [simpl; lia|].
  cbn [filter].
  destruct (p x) eqn:E; [rewrite (H x E); cbn [List.length]; lia|].
  destruct (q x); cbn [List.length]; lia.
Qed.

Lemma count_rows_nonneg p (l : list task) : 0 <= count_rows p l.
Proof. unfold count_rows. lia. Qed.

(** X2.  After [bulk_delete_done] the statistics show no done task, the
    same number of active and of overdue tasks, and a total smaller by the
    number of done tasks there were. *)
Theorem bulk_delete_done_stats :
  forall today s,
    exists st st',
      TaskRepo.stats today s = Ok st
      /\ TaskRepo.stats today (TaskRepo.bulk_delete_done s) = Ok st'
      /\ TaskRepo.done st' = 0
      /\ TaskRepo.active st' = TaskRepo.active st
      /\ TaskRepo.overdue st' = TaskRepo.overdue st
      /\ TaskRepo.total st' = TaskRepo.total st - TaskRepo.done st.
Proof.
  intros today s. do 2 eexists.
  split; [apply stats_value|]. split; [apply stats_value|].
  cbn [TaskRepo.done TaskRepo.active TaskRepo.overdue TaskRepo.total
       TaskRepo.bulk_delete_done TaskRepo.rows].
  rewrite !count_rows_filter.
  pose proof (count_rows_split (fun t => is_done t =? 1) (TaskRepo.rows s)) as Hs.
  repeat split.
  - rewrite (count_rows_ext _ (fun _ => false));
      [ unfold count_rows; rewrite List.filter_false; reflexivity
      | intros t _; destruct (is_done t =? 1); reflexivity ].
  - apply count_rows_ext. intros t _.
    destruct (Z.eqb_spec (is_done t) 0) as [E|E];
      [rewrite E; reflexivity | apply andb_false_r].
  - apply count_rows_ext. intros t _. unfold overdue_row.
    destruct (Z.eqb_spec (is_done t) 0) as [E|E];
      [rewrite E; reflexivity | apply andb_false_r].
  - unfold count_rows in *. lia.
Qed.

(** X3.  In the statistics the overdue tasks are among the active ones and
    done plus active never exceeds the total; when every completion flag
    is 0 or 1, as the handlers write it, done plus active is the total. *)
Theorem stats_figures :
  forall today s,
    exists st,
      TaskRepo.stats today s = Ok st
      /\ 0 <= TaskRepo.overdue st <= TaskRepo.active st
      /\ TaskRepo.done st + TaskRepo.active st <= TaskRepo.total st
      /\ (Forall flag_ok (TaskRepo.rows s) ->
          TaskRepo.total st = TaskRepo.done st + TaskRepo.active st).
Proof.
  intros today s. eexists. split; [apply stats_value|].
  cbn [TaskRepo.done TaskRepo.active TaskRepo.overdue TaskRepo.total].
  pose proof (count_rows_split (fun t => is_done t =? 1) (TaskRepo.rows s)) as Hs.
  split; [|split].
  - split; [apply count_rows_nonneg|].
    apply count_rows_le. intros t. unfold overdue_row.
    rewrite !andb_true_iff. tauto.
  - rewrite Hs.
    pose proof (count_rows_le (fun t => is_done t =? 0)
                  (fun t => negb (is_done t =? 1)) (TaskRepo.rows s)) as Hle.
    assert (forall t, (is_done t =? 0) = true -> negb (is_done t =? 1) = true).
    { intros t Ht. apply Z.eqb_eq in Ht. rewrite Ht. reflexivity. }
    specialize (Hle H). lia.
  - intros Hflag. rewrite Hs. f_equal.
    apply count_rows_ext. intros t Ht.
    rewrite Forall_forall in Hflag. destruct (Hflag t Ht) as [E|E];
      rewrite E; reflexivity.
Qed.

Lemma stats_figures_witness :
  exists st,
    TaskRepo.stats (Date.mkdate 2025 9 5)
      (TaskRepo.mkrepo
         [mktask 1 "a" None None "Low" "2025-09-04" 0 1 "t0" "t0";
          mktask 2 "b" None None "Low" "" 1 2 "t0" "t0";
          mktask 3 "c" None None "Low" "" 0 3 "t0" "t0"] 3) = Ok st
    /\ TaskRepo.total st = TaskRepo.done st + TaskRepo.active st.
Proof.
  destruct (stats_figures (Date.mkdate 2025 9 5)
              (TaskRepo.mkrepo
                 [mktask 1 "a" None None "Low" "2025-09-04" 0 1 "t0" "t0";
                  mktask 2 "b" None None "Low" "" 1 2 "t0" "t0";
                  mktask 3 "c" None None "Low" "" 0 3 "t0" "t0"] 3))
    as [st (E & _ & _ & H)].
  exists st. split; [exact E|]. apply H.
  repeat (apply Forall_cons || apply Forall_nil); unfold flag_ok; simpl; auto.
Defined.

Lemma sql_update_absent task_id fields (l : list task) :
  (forall t, In t l -> id t <> task_id) ->
  TaskRepo.sql_update task_id fields l = Ok l.
Proof.
  induction l as [|t l IH]; intros H; simpl; [reflexivity|].
  rewrite (proj2 (Z.eqb_neq (id t) task_id)) by (apply H; left; reflexivity).
  rewrite IH by (intros r Hr; apply H; right; exact Hr). reflexivity.
Qed.

(** X4.  [update] with an id that no row has succeeds and leaves the store
    as it is, whatever the fields: no row is touched, not even its
    updated_at, and no constraint is looked at. *)
Theorem update_absent :
  forall now task_id fields s,
    (forall t, In t (TaskRepo.rows s) -> id t <> task_id) ->
    TaskRepo.update now task_id fields s = Ok s.
Proof.
  intros now task_id fields s H. unfold TaskRepo.update.
  destruct fields as [|f fields]; [reflexivity|].
  rewrite sql_update_absent by exact H. destruct s; reflexivity.
Qed.

Lemma update_absent_witness :
  TaskRepo.update "t1" 5
    [TaskRepo.f_priority "Urgent"; TaskRepo.f_is_done 1]
    (TaskRepo.mkrepo [mktask 1 "a" None None "Low" "" 0 1 "t0" "t0"] 1)
  = Ok (TaskRepo.mkrepo [mktask 1 "a" None None "Low" "" 0 1 "t0" "t0"] 1).
Proof.
  apply update_absent. intros t [<-|[]]. discriminate.
Defined.

Lemma sql_update_check task_id fields (l : list task) (t : task) :
  In t l -> id t = task_id ->
  TaskRepo.sets_column c_priority fields = true ->
  (forall r, TaskRepo.check_priority
               (priority (fold_left TaskRepo.set_field fields r)) = false) ->
  TaskRepo.sql_update task_id fields l = Raise IntegrityError.
Proof.
  intros Hin Hid Hset Hbad. induction l as [|x l IH]; [destruct Hin|].
  simpl. destruct (id x =? task_id) eqn:E.
  - rewrite Hset, Hbad. reflexivity.
  - destruct Hin as [->|Hin]; [apply Z.eqb_neq in E; congruence|].
    rewrite (IH Hin). reflexivity.
Qed.

(** X5.  The table's CHECK on priority: [create] with a priority other
    than Low, Medium and High raises IntegrityError, and so does [update]
    that sets such a priority on an existing row; neither leaves a new
    state behind. *)
Theorem priority_check :
  (forall now title details category priority due_date s,
      ~ In priority PRIORITIES ->
      TaskRepo.create now title details category priority due_date s
      = Raise IntegrityError)
  /\ (forall now task_id fields s t v,
         In t (TaskRepo.rows s) -> id t = task_id ->
         NoDup (map TaskRepo.field_col fields) ->
         In (TaskRepo.f_priority v) fields ->
         ~ In v PRIORITIES ->
         TaskRepo.update now task_id fields s = Raise IntegrityError).
Proof.
  split.
  - intros now title details category priority due_date s Hp.
    unfold TaskRepo.create.
    destruct (TaskRepo.check_priority priority) eqn:E; [|reflexivity].
    apply check_priority_iff in E. contradiction.
  - intros now task_id fields s t v Hin Hid Hnd Hf Hv.
    unfold TaskRepo.update. destruct fields as [|f0 fields']; [destruct Hf|].
    set (fs := TaskRepo.dict_set (TaskRepo.f_updated_at now) (f0 :: fields')).
    assert (Hnd' : NoDup (map TaskRepo.field_col fs))
      by (apply dict_set_NoDup, Hnd).
    assert (Hin' : In (TaskRepo.f_priority v) fs)
      by (apply dict_set_old; [exact Hf | discriminate]).
    rewrite (sql_update_check task_id fs _ t Hin Hid); [reflexivity | |].
    + unfold TaskRepo.sets_column. apply existsb_exists.
      exists (TaskRepo.f_priority v). split; [exact Hin' | reflexivity].
    + intros r. pose proof (fold_set_in fs _ Hnd' Hin' r) as Hg.
      simpl in Hg. injection Hg as Hg. rewrite Hg.
      destruct (TaskRepo.check_priority v) eqn:E; [|reflexivity].
      apply check_priority_iff in E. contradiction.
Qed.

Lemma priority_check_witness :
  TaskRepo.create "t1" "a" None None "Urgent" None TaskRepo.empty
  = Raise IntegrityError
  /\ TaskRepo.update "t1" 1 [TaskRepo.f_priority "high"]
       (TaskRepo.mkrepo [mktask 1 "a" None None "Low" "" 0 1 "t0" "t0"] 1)
     = Raise IntegrityError.
Proof.
  assert (H1 : ~ In "Urgent" PRIORITIES)
    by (simpl; intuition discriminate).
  assert (H2 : ~ In "high" PRIORITIES)
    by (simpl; intuition discriminate).
  split.
  - exact (proj1 priority_check "t1" "a" None None "Urgent" None
             TaskRepo.empty H1).
  - apply (proj2 priority_check "t1" 1 [TaskRepo.f_priority "high"] _
             (mktask 1 "a" None None "Low" "" 0 1 "t0" "t0") "high").
    + left; reflexivity.
    + reflexivity.
    + constructor; [intros [] | constructor].
    + left; reflexivity.
    + exact H2.
Defined.

(** ** Queries: default order, rows added and removed, order of the table *)

Lemma StronglySorted_impl {A : Type} (R S : A -> A -> Prop) (l : list A) :
  (forall x y, R x y -> S x y) -> StronglySorted R l -> StronglySorted S l.
Proof.
  intros H. induction 1 as [|x l Hs IH Hx]; constructor; [exact IH|].
  eapply Forall_impl; [|exact Hx]. intros y. apply H.
Qed.

Lemma default_order_meaning (x y : task) :
  in_order TaskRepo.default_order x y <-> index_then_id x y.
Proof.
  unfold in_order, Sql.order_leb, TaskRepo.default_order, index_then_id.
  unfold Sql.order_compare, Sql.term_compare; simpl.
  destruct (Z.compare_spec (order_index x) (order_index y));
    destruct (Z.compare_spec (id x) (id y));
    split; intros Hxy; try reflexivity; try discriminate; try lia.
Qed.

(** X6.  [fetch] with its default arguments returns every row of the
    table, once, in order_index order with ties in id order. *)
Theorem fetch_default :
  forall s,
    exists l,
      TaskRepo.fetch None [] TaskRepo.default_order s = Ok l
      /\ Permutation l (TaskRepo.rows s)
      /\ StronglySorted index_then_id l.
Proof.
  intros s. eexists. split; [reflexivity|]. split.
  - apply order_by_perm.
  - eapply StronglySorted_impl; [|apply order_by_sorted].
    intros x y. apply default_order_meaning.
Qed.

Lemma insert_first o x (l : list task) :
  Forall (in_order o x) l -> Sql.insert o x l = x :: l.
Proof.
  destruct l as [|y l]; [reflexivity|]. intros H.
  inversion H as [|? ? Hy _]; subst. simpl. unfold in_order in Hy.
  rewrite Hy. reflexivity.
Qed.

Lemma filter_insert o p x (l : list task) :
  StronglySorted (in_order o) l ->
  filter p (Sql.insert o x l)
  = if p x then Sql.insert o x (filter p l) else filter p l.
Proof.
  induction 1 as [|y l Hs IH Hy]; [simpl; destruct (p x); reflexivity|].
  cbn [Sql.insert]. destruct (Sql.order_leb o x y) eqn:E.
  - change (filter p (x :: y :: l))
      with (if p x then x :: filter p (y :: l) else filter p (y :: l)).
    destruct (p x); [|reflexivity].
    symmetry. apply insert_first.
    assert (Hall : Forall (in_order o x) (y :: l)).
    { constructor; [exact E|]. eapply Forall_impl; [|exact Hy].
      intros z Hz. eapply order_leb_trans; [exact E | exact Hz]. }
    apply Forall_forall. intros z Hz. apply filter_In in Hz.
    rewrite Forall_forall in Hall. apply Hall, Hz.
  - cbn [filter]. rewrite IH.
    destruct (p y), (p x); try reflexivity.
    cbn [Sql.insert]. rewrite E. reflexivity.
Qed.

Lemma order_by_filter o p (l : list task) :
  Sql.order_by o (filter p l) = filter p (Sql.order_by o l).
Proof.
  induction l as [|x l IH]; [reflexivity|].
  cbn [filter Sql.order_by].
  rewrite filter_insert by apply order_by_sorted.
  destruct (p x); cbn [Sql.order_by]; rewrite IH; reflexivity.
Qed.

Lemma filter_comm {A : Type} (p q : A -> bool) (l : list A) :
  filter p (filter q l) = filter q (filter p l).
Proof.
  induction l as [|x l IH]; simpl; [reflexivity|].
  destruct (p x) eqn:Ep, (q x) eqn:Eq; simpl; rewrite ?Ep, ?Eq, IH; reflexivity.
Qed.

Lemma fetch_filter w ps o p (l : list task) rows n n' :
  TaskRepo.fetch w ps o (TaskRepo.mkrepo rows n) = Ok l ->
  TaskRepo.fetch w ps o (TaskRepo.mkrepo (filter p rows) n') = Ok (filter p l).
Proof.
  unfold TaskRepo.fetch, Sql.select, Sql.where_rows. cbn [TaskRepo.rows].
  destruct w as [c|].
  - destruct (Sql.bind_cond c ps) as [[c' [|v r]]|]; simpl; try discriminate.
    intros [= <-]. rewrite filter_comm, order_by_filter. reflexivity.
  - destruct ps; simpl; [|discriminate].
    intros [= <-]. rewrite order_by_filter. reflexivity.
Qed.

(** X7.  Removing rows does not disturb a query: after [delete] a query
    returns what it returned before without the rows of that id, and after
    [bulk_delete_done] without the rows whose flag is 1, the other rows in
    the same order. *)
Theorem fetch_after_delete :
  forall w ps o s l,
    TaskRepo.fetch w ps o s = Ok l ->
    (forall task_id,
        TaskRepo.fetch w ps o (TaskRepo.delete task_id s)
        = Ok (filter (fun t => negb (id t =? task_id)) l))
    /\ TaskRepo.fetch w ps o (TaskRepo.bulk_delete_done s)
       = Ok (filter (fun t => negb (is_done t =? 1)) l).
Proof.
  intros w ps o [rows n] l H. split; [intros task_id|];
    apply (fetch_filter _ _ _ _ _ _ _ _ H).
Qed.

Lemma fetch_after_delete_witness :
  TaskRepo.fetch None [] [(c_title, Sql.DESC)]
    (TaskRepo.delete 2
       (TaskRepo.mkrepo
          [mktask 1 "a" None None "Low" "" 0 1 "t0" "t0";
           mktask 2 "b" None None "Low" "" 1 2 "t0" "t0";
           mktask 3 "c" None None "Low" "" 0 3 "t0" "t0"] 3))
  = Ok [mktask 3 "c" None None "Low" "" 0 3 "t0" "t0";
        mktask 1 "a" None None "Low" "" 0 1 "t0" "t0"].
Proof.
  exact (proj1 (fetch_after_delete None [] [(c_title, Sql.DESC)]
                  (TaskRepo.mkrepo
                     [mktask 1 "a" None None "Low" "" 0 1 "t0" "t0";
                      mktask 2 "b" None None "Low" "" 1 2 "t0" "t0";
                      mktask 3 "c" None None "Low" "" 0 3 "t0" "t0"] 3)
                  _ eq_refl) 2).
Defined.

Lemma insert_before_last o x t (l : list task) :
  in_order o x t ->
  Sql.insert o x (l ++ [t])%list = (Sql.insert o x l ++ [t])%list.
Proof.
  intros H. induction l as [|y l IH]; simpl.
  - unfold in_order in H. rewrite H. reflexivity.
  - destruct (Sql.order_leb o x y); [reflexivity|]. rewrite IH. reflexivity.
Qed.

Lemma order_by_last o t (l : list task) :
  (forall x, In x l -> in_order o x t) ->
  Sql.order_by o (l ++ [t])%list = (Sql.order_by o l ++ [t])%list.
Proof.
  induction l as [|x l IH]; intros H; [reflexivity|].
  cbn [app Sql.order_by].
  rewrite IH by (intros y Hy; apply H; right; exact Hy).
  apply insert_before_last. apply H. left; reflexivity.
Qed.

(** X8.  A task made by [create] comes last in the default order: [fetch]
    with its default arguments returns, after the [create], the rows it
    returned before followed by the new row. *)
Theorem create_comes_last :
  forall now new_title details category priority due_date s,
    In priority PRIORITIES ->
    exists l i s1 t,
      TaskRepo.fetch None [] TaskRepo.default_order s = Ok l
      /\ TaskRepo.create now new_title details category priority due_date s
         = Ok (i, s1)
      /\ TaskRepo.fetch None [] TaskRepo.default_order s1 = Ok (l ++ [t])%list
      /\ id t = i /\ title t = new_title.
Proof.
  intros now new_title details category priority due_date s Hp.
  set (t := mktask (TaskRepo.next_rowid s) new_title details category priority
              (TaskRepo.or_empty due_date) 0
              (TaskRepo.coalesce
                 (TaskRepo.sql_max order_index (TaskRepo.rows s)) 0 + 1)
              now now).
  exists (Sql.order_by TaskRepo.default_order (TaskRepo.rows s)),
    (TaskRepo.next_rowid s),
    (TaskRepo.mkrepo (TaskRepo.rows s ++ [t])%list (TaskRepo.next_rowid s)), t.
  split; [reflexivity|].
  split; [exact (create_Ok _ _ _ _ _ _ s Hp)|].
  split; [|split; reflexivity].
  unfold TaskRepo.fetch, Sql.select, Sql.where_rows. cbn [TaskRepo.rows bind].
  rewrite order_by_last; [reflexivity|].
  intros x Hx. apply default_order_meaning. left. cbn [order_index].
  destruct (TaskRepo.sql_max order_index (TaskRepo.rows s)) as [m|] eqn:E.
  - pose proof (sql_max_upper order_index _ m x E Hx). simpl. lia.
  - destruct (TaskRepo.rows s); [destruct Hx | discriminate].
Qed.

Lemma create_comes_last_witness :
  exists l i s1 t,
    TaskRepo.fetch None [] TaskRepo.default_order
      (TaskRepo.mkrepo
         [mktask 4 "b" None None "Low" "" 0 9 "t0" "t0";
          mktask 2 "a" None None "Low" "" 0 3 "t0" "t0"] 4) = Ok l
    /\ TaskRepo.create "t1" "c" None None "High" None
         (TaskRepo.mkrepo
            [mktask 4 "b" None None "Low" "" 0 9 "t0" "t0";
             mktask 2 "a" None None "Low" "" 0 3 "t0" "t0"] 4) = Ok (i, s1)
    /\ TaskRepo.fetch None [] TaskRepo.default_order s1 = Ok (l ++ [t])%list
    /\ id t = i /\ title t = "c".
Proof.
  assert (Hp : In "High" PRIORITIES) by (simpl; auto).
  exact (create_comes_last "t1" "c" None None "High" None _ Hp).
Defined.

Lemma sorted_perm_unique (R : task -> task -> Prop) (l : list task) :
  forall l',
    StronglySorted R l -> StronglySorted R l' -> Permutation l l' ->
    (forall x y, In x l -> In y l -> R x y -> R y x -> x = y) ->
    l = l'.
Proof.
  induction l as [|x l IH]; intros l' Hs Hs' Hp Hanti.
  - apply Permutation_nil in Hp. congruence.
  - destruct l' as [|x' l'].
    + apply Permutation_sym, Permutation_nil in Hp. discriminate.
    + apply StronglySorted_inv in Hs, Hs'.
      destruct Hs as [Hs Hx], Hs' as [Hs' Hx'].
      rewrite Forall_forall in Hx, Hx'.
      assert (Hin' : In x' (x :: l))
        by (eapply Permutation_in; [apply Permutation_sym; exact Hp | left; reflexivity]).
      assert (Hin : In x (x' :: l'))
        by (eapply Permutation_in; [exact Hp | left; reflexivity]).
      assert (E : x = x').
      { destruct Hin' as [E|Hin']; [exact E|].
        destruct Hin as [E|Hin]; [congruence|].
        apply Hanti; [left; reflexivity | right; exact Hin' | |].
        - apply Hx, Hin'.
        - apply Hx', Hin. }
      subst x'. f_equal. apply IH; try assumption.
      * eapply Permutation_cons_inv; exact Hp.
      * intros y z Hy Hz. apply Hanti; right; assumption.
Qed.

Lemma NoDup_map_id_eq (l : list task) (x y : task) :
  NoDup (map id l) -> In x l -> In y l -> id x = id y -> x = y.
Proof.
  induction l as [|z l IH]; intros Hnd Hx Hy E; [destruct Hx|].
  simpl in Hnd. inversion Hnd as [|? ? Hz Hnd']; subst.
  destruct Hx as [->|Hx], Hy as [->|Hy]; try reflexivity.
  - exfalso. apply Hz. rewrite E. apply in_map, Hy.
  - exfalso. apply Hz. rewrite <- E. apply in_map, Hx.
  - apply IH; assumption.
Qed.

Lemma NoDup_map_id_filter p (l : list task) :
  NoDup (map id l) -> NoDup (map id (filter p l)).
Proof.
  induction l as [|x l IH]; simpl; intros H; [constructor|].
  inversion H as [|? ? Hx Hnd]; subst.
  destruct (p x); simpl; [|apply IH, Hnd].
  constructor; [|apply IH, Hnd].
  intros Hin. apply Hx. apply in_map_iff in Hin.
  destruct Hin as [y [E Hy]]. apply filter_In in Hy.
  rewrite <- E. apply in_map, Hy.
Qed.

Lemma Permutation_filter_task p (l l' : list task) :
  Permutation l l' -> Permutation (filter p l) (filter p l').
Proof.
  induction 1 as [|x l l' _ IH|x y l|l l' l'' _ IH1 _ IH2]; simpl.
  - constructor.
  - destruct (p x); [constructor|]; exact IH.
  - destruct (p x), (p y); try reflexivity. apply perm_swap.
  - eapply Permutation_trans; eassumption.
Qed.

(** With id as the last sort key, two rows that are in order both ways
    have the same id. *)
Lemma query_order_antisym (c : column) (d : Sql.direction) (x y : task) :
  in_order [(c, d); (c_order_index, Sql.ASC); (c_id, Sql.ASC)] x y ->
  in_order [(c, d); (c_order_index, Sql.ASC); (c_id, Sql.ASC)] y x ->
  id x = id y.
Proof.
  unfold in_order, Sql.order_leb.
  rewrite (order_compare_antisym _ x y).
  destruct (Sql.order_compare _ x y) eqn:E; simpl; try discriminate.
  intros _ _. simpl in E.
  destruct (Sql.term_compare (c, d) x y); try discriminate.
  destruct (Sql.term_compare (c_order_index, Sql.ASC) x y); try discriminate.
  unfold Sql.term_compare in E; simpl in E.
  destruct (Z.compare_spec (id x) (id y)); try discriminate. assumption.
Qed.

(** X9.  When the ids of the table are distinct, as a primary key makes
    them, the result of [_query_tasks] does not depend on the order in
    which the table holds its rows: the three sort keys decide the order
    of the result completely. *)
Theorem query_ignores_table_order :
  forall a rows' n',
    NoDup (map id (TaskRepo.rows (ToDoApp.repo a))) ->
    Permutation (TaskRepo.rows (ToDoApp.repo a)) rows' ->
    ToDoApp._query_tasks (ToDoApp.set_repo (TaskRepo.mkrepo rows' n') a)
    = ToDoApp._query_tasks a.
Proof.
  intros a rows' n' Hnd Hp.
  rewrite !query_tasks_value. f_equal.
  change (ToDoApp.query_order (ToDoApp.set_repo (TaskRepo.mkrepo rows' n') a))
    with (ToDoApp.query_order a).
  change (TaskRepo.rows (ToDoApp.repo
            (ToDoApp.set_repo (TaskRepo.mkrepo rows' n') a))) with rows'.
  rewrite (filter_ext (all_filters (ToDoApp.set_repo (TaskRepo.mkrepo rows' n') a))
             (all_filters a)) by reflexivity.
  set (l := filter (all_filters a) (TaskRepo.rows (ToDoApp.repo a))).
  set (l' := filter (all_filters a) rows').
  assert (Hpl : Permutation l l') by (apply Permutation_filter_task, Hp).
  assert (Hndl : NoDup (map id l)) by (apply NoDup_map_id_filter, Hnd).
  symmetry.
  apply (sorted_perm_unique (in_order (ToDoApp.query_order a)));
    try apply order_by_sorted.
  - rewrite order_by_perm, Hpl. symmetry. apply order_by_perm.
  - intros x y Hx Hy Hxy Hyx.
    apply In_order_by in Hx, Hy.
    apply (NoDup_map_id_eq l); try assumption.
    eapply query_order_antisym; eassumption.
Qed.

Lemma query_ignores_table_order_witness :
  ToDoApp._query_tasks
    (ToDoApp.set_repo
       (TaskRepo.mkrepo
          [mktask 2 "b" None None "Low" "" 0 1 "t0" "t0";
           mktask 1 "a" None None "Low" "" 0 1 "t0" "t0"] 2)
       (ToDoApp.make_vars
          (TaskRepo.mkrepo
             [mktask 1 "a" None None "Low" "" 0 1 "t0" "t0";
              mktask 2 "b" None None "Low" "" 0 1 "t0" "t0"] 2)))
  = Ok [mktask 1 "a" None None "Low" "" 0 1 "t0" "t0";
        mktask 2 "b" None None "Low" "" 0 1 "t0" "t0"].
Proof.
  rewrite (query_ignores_table_order
             (ToDoApp.make_vars
                (TaskRepo.mkrepo
                   [mktask 1 "a" None None "Low" "" 0 1 "t0" "t0";
                    mktask 2 "b" None None "Low" "" 0 1 "t0" "t0"] 2))).
  - reflexivity.
  - simpl. repeat constructor; simpl; intuition discriminate.
  - apply perm_swap.
Defined.

(** ** The handlers keep the table in order *)

Lemma keeps_flags_ids_refl a : keeps_flags_ids a a.
Proof. intros H; exact H. Qed.

Lemma keeps_flags_ids_trans a b c :
  keeps_flags_ids a b -> keeps_flags_ids b c -> keeps_flags_ids a c.
Proof. unfold keeps_flags_ids; auto. Qed.

Lemma refresh_flags_ids today : keeps keeps_flags_ids (ToDoApp.refresh today).
Proof.
  intros a. destruct (refresh_core today a) as [E _].
  unfold keeps_flags_ids. rewrite E. auto.
Qed.

(** The step of a handler that calls [create]. *)
Lemma create_step_flags_ids now title details category priority due_date :
  keeps keeps_flags_ids
    (fun a =>
       match TaskRepo.create now title details category priority due_date
               (ToDoApp.repo a) with
       | Ok (_, s) => (ToDoApp.set_repo s a, Ok tt)
       | Raise e => (a, Raise e)
       end).
Proof.
  intros a. unfold TaskRepo.create.
  destruct (TaskRepo.check_priority priority); [|apply keeps_flags_ids_refl].
  cbn [fst ToDoApp.repo ToDoApp.set_repo].
  intros [Hf [Hnd Hle]].
  split; [|split]; unfold ToDoApp.set_repo;
    cbn [ToDoApp.repo TaskRepo.rows TaskRepo.seq].
  - apply Forall_app; split; [exact Hf|].
    constructor; [left; reflexivity | constructor].
  - rewrite map_app. cbn [map id].
    assert (Hfresh : ~ In (TaskRepo.next_rowid (ToDoApp.repo a))
                       (map id (TaskRepo.rows (ToDoApp.repo a)))).
    { intros Hin. apply in_map_iff in Hin. destruct Hin as [r [E Hr]].
      pose proof (next_rowid_fresh _ r Hr). lia. }
    clear Hle Hf.
    induction (map id (TaskRepo.rows (ToDoApp.repo a))) as [|x l IH]; simpl.
    + constructor; [intros [] | constructor].
    + inversion Hnd as [|? ? Hx Hnd']; subst.
      constructor.
      * intros Hin. apply in_app_or in Hin. destruct Hin as [Hin|[Hin|[]]].
        -- contradiction.
        -- apply Hfresh. left. congruence.
      * apply IH; [exact Hnd'|]. intros Hin. apply Hfresh. right. exact Hin.
  - apply Forall_app; split.
    + apply Forall_forall. intros r Hr.
      pose proof (next_rowid_fresh _ r Hr). lia.
    + constructor; [simpl; lia | constructor].
Qed.

(** The step of a handler that calls [update] without touching the ids,
    with a completion flag, if any, of 0 or 1. *)
Lemma update_step_flags_ids now task_id fields :
  fields <> [] ->
  NoDup (map TaskRepo.field_col fields) ->
  (forall v, In (TaskRepo.f_priority v) fields -> In v PRIORITIES) ->
  (forall f, In f fields -> TaskRepo.field_col f = c_is_done ->
             f = TaskRepo.f_is_done 0 \/ f = TaskRepo.f_is_done 1) ->
  keeps keeps_flags_ids
    (fun a =>
       match TaskRepo.update now task_id fields (ToDoApp.repo a) with
       | Ok s => (ToDoApp.set_repo s a, Ok tt)
       | Raise e => (a, Raise e)
       end).
Proof.
  intros Hne Hnd Hpri Hflag a.
  rewrite update_rows by assumption.
  cbn [fst ToDoApp.repo ToDoApp.set_repo].
  set (fs := TaskRepo.dict_set (TaskRepo.f_updated_at now) fields).
  assert (Hnd' : NoDup (map TaskRepo.field_col fs)) by (apply dict_set_NoDup, Hnd).
  set (g := fun t => if id t =? task_id
                     then fold_left TaskRepo.set_field fs t else t).
  assert (Hid : forall t, id (g t) = id t).
  { intros t. unfold g. destruct (id t =? task_id); [apply fold_set_id | reflexivity]. }
  assert (Hmap : forall l, map id (map g l) = map id l).
  { intros l. rewrite map_map. apply map_ext. exact Hid. }
  intros [Hf [Hn Hle]].
  split; [|split]; unfold ToDoApp.set_repo;
    cbn [ToDoApp.repo TaskRepo.rows TaskRepo.seq].
  - apply Forall_map. rewrite Forall_forall in *. intros t Ht.
    unfold g. destruct (id t =? task_id); [|apply Hf, Ht].
    destruct (TaskRepo.sets_column c_is_done fs) eqn:Es.
    + destruct (sets_column_In _ _ Es) as [f [Hin Hcol]].
      pose proof (fold_set_in fs f Hnd' Hin t) as Hget. rewrite Hcol in Hget.
      destruct (dict_set_from _ _ _ Hin) as [->|Hin']; [discriminate|].
      destruct (Hflag f Hin' Hcol) as [->| ->]; simpl in Hget;
        injection Hget as Hget; unfold flag_ok; rewrite Hget; auto.
    + assert (Hno : ~ In c_is_done (map TaskRepo.field_col fs)).
      { intros Hin. apply in_map_iff in Hin. destruct Hin as [f [Hcol Hin]].
        unfold TaskRepo.sets_column in Es.
        assert (existsb (fun f => column_eqb (TaskRepo.field_col f) c_is_done) fs
                = true).
        { apply existsb_exists. exists f. split; [exact Hin|].
          rewrite Hcol. reflexivity. }
        congruence. }
      pose proof (fold_set_other fs c_is_done Hno t) as Hget.
      simpl in Hget. injection Hget as Hget.
      unfold flag_ok. rewrite Hget. apply Hf, Ht.
  - rewrite Hmap. exact Hn.
  - apply Forall_map. rewrite Forall_forall in *. intros t Ht.
    rewrite Hid. apply Hle, Ht.
Qed.

Lemma filter_step_flags_ids (p : task -> bool) :
  forall a,
    keeps_flags_ids a
      (ToDoApp.set_repo
         (TaskRepo.mkrepo (filter p (TaskRepo.rows (ToDoApp.repo a)))
            (TaskRepo.seq (ToDoApp.repo a))) a).
Proof.
  intros a [Hf [Hn Hle]].
  split; [|split]; unfold ToDoApp.set_repo;
    cbn [ToDoApp.repo TaskRepo.rows TaskRepo.seq].
  - apply Forall_forall. intros t Ht. apply filter_In in Ht.
    rewrite Forall_forall in Hf. apply Hf, Ht.
  - apply NoDup_map_id_filter, Hn.
  - apply Forall_forall. intros t Ht. apply filter_In in Ht.
    rewrite Forall_forall in Hle. apply Hle, Ht.
Qed.

Lemma import_rows_flags_ids (rows : list Csv.dict) :
  forall clock, keeps keeps_flags_ids (ToDoApp.import_rows clock rows).
Proof.
  induction rows as [|row rows IH]; intros clock;
    [apply keeps_ret, keeps_flags_ids_refl|].
  cbn [ToDoApp.import_rows].
  apply keeps_bnd;
    [exact keeps_flags_ids_trans | apply keeps_lift, keeps_flags_ids_refl|].
  intros [[[[[title details] category] priority] due_date]|]; [|apply IH].
  apply keeps_bnd;
    [exact keeps_flags_ids_trans | apply create_step_flags_ids
    | intros _; apply IH].
Qed.

Lemma update_each_flags_ids ids new_done :
  new_done = 0 \/ new_done = 1 ->
  forall clock, keeps keeps_flags_ids (ToDoApp.update_each clock ids new_done).
Proof.
  intros Hv. induction ids as [|tid ids IH]; intros clock;
    cbn [ToDoApp.update_each]; [apply keeps_ret, keeps_flags_ids_refl|].
  apply keeps_bnd; [exact keeps_flags_ids_trans | | intros _; apply IH].
  apply update_step_flags_ids.
  - discriminate.
  - constructor; [intros [] | constructor].
  - intros v [H|[]]; discriminate.
  - intros f [<-|[]] _. destruct Hv as [-> | ->]; auto.
Qed.

Lemma delete_each_flags_ids ids :
  forall a, keeps_flags_ids a (fst (ToDoApp.delete_each ids a)).
Proof.
  unfold ToDoApp.delete_each, ToDoApp.modify. cbn [fst].
  induction ids as [|tid ids IH]; intros a.
  - cbn [fold_left]. intros H. destruct a as [[rows n] ? ? ? ? ? ? ? ? ?]; exact H.
  - cbn [fold_left].
    eapply keeps_flags_ids_trans;
      [apply (filter_step_flags_ids (fun t => negb (id t =? tid)) a)|].
    specialize (IH (ToDoApp.set_repo (TaskRepo.delete tid (ToDoApp.repo a)) a)).
    exact IH.
Qed.

(** X10. The handlers that write to the database keep the table in
    order: from a table whose rows are well formed, whose completion
    flags are 0 or 1 and whose ids are distinct and not above the
    AUTOINCREMENT counter, [on_add], [on_edit], [on_import_csv],
    [on_toggle_done], [on_delete] and [on_clear_done] lead to such a
    table again, whatever the dialog, the file or the selection, and also
    when the handler stops with an exception. *)
Theorem handlers_keep_table (a : ToDoApp.app) :
  table_ok (ToDoApp.repo a) ->
  (forall now today d,
      table_ok (ToDoApp.repo (fst (ToDoApp.on_add now today d a))))
  /\ (forall now today task_id d,
         table_ok (ToDoApp.repo (fst (ToDoApp.on_edit now today task_id d a))))
  /\ (forall clock today f,
         table_ok (ToDoApp.repo (fst (ToDoApp.on_import_csv clock today f a))))
  /\ (forall clock today ids status,
         table_ok
           (ToDoApp.repo
              (fst (ToDoApp.on_toggle_done clock today ids status a))))
  /\ (forall today ids,
         table_ok (ToDoApp.repo (fst (ToDoApp.on_delete today ids a))))
  /\ (forall today,
         table_ok (ToDoApp.repo (fst (ToDoApp.on_clear_done today a)))).
Proof.
  intros [Hwf [Hf Hids]].
  destruct handlers_well_formed as [W1 [W2 [W3 [W4 [W5 W6]]]]].
  assert (K : forall (m : ToDoApp.act unit),
             keeps keeps_well_formed m -> keeps keeps_flags_ids m ->
             table_ok (ToDoApp.repo (fst (m a)))).
  { intros m Hm1 Hm2. destruct (Hm2 a (conj Hf Hids)) as [Hf' Hids'].
    split; [apply (Hm1 a Hwf) | split; assumption]. }
  split; [|split; [|split; [|split; [|split]]]].
  - intros now today d. apply K; [apply W1|].
    unfold ToDoApp.on_add. destruct (TaskDialog.on_ok d) as [r|];
      [|apply keeps_ret, keeps_flags_ids_refl].
    apply keeps_bnd;
      [exact keeps_flags_ids_trans | apply create_step_flags_ids
      | intros _; apply refresh_flags_ids].
  - intros now today task_id d. apply K; [apply W2|].
    unfold ToDoApp.on_edit. destruct (TaskDialog.on_ok d) as [r|] eqn:Er;
      [|apply keeps_ret, keeps_flags_ids_refl].
    apply keeps_bnd;
      [exact keeps_flags_ids_trans | | intros _; apply refresh_flags_ids].
    apply update_step_flags_ids.
    + discriminate.
    + repeat constructor; simpl; intuition discriminate.
    + intros v Hin. simpl in Hin.
      destruct Hin as [H|[H|[H|[H|[H|[]]]]]]; try discriminate.
      injection H as <-. rewrite (on_ok_priority _ _ Er).
      right; left; reflexivity.
    + intros f Hin Hcol. simpl in Hin.
      destruct Hin as [H|[H|[H|[H|[H|[]]]]]]; subst f; discriminate.
  - intros clock today f. apply K; [apply W3|].
    unfold ToDoApp.on_import_csv.
    apply keeps_bnd;
      [exact keeps_flags_ids_trans | apply import_rows_flags_ids
      | intros _; destruct (Csv.raises (Csv.reopen f));
        [apply keeps_lift, keeps_flags_ids_refl | apply refresh_flags_ids]].
  - intros clock today ids status. apply K; [apply W4|].
    destruct ids as [|i ids]; [apply keeps_ret, keeps_flags_ids_refl|].
    unfold ToDoApp.on_toggle_done.
    apply keeps_bnd;
      [exact keeps_flags_ids_trans | | intros _; apply refresh_flags_ids].
    apply update_each_flags_ids.
    destruct (String.eqb status "Выполнена"); simpl; auto.
  - intros today ids. apply K; [apply W5|].
    destruct ids as [|i ids]; [apply keeps_ret, keeps_flags_ids_refl|].
    unfold ToDoApp.on_delete.
    apply keeps_bnd;
      [exact keeps_flags_ids_trans | | intros _; apply refresh_flags_ids].
    intros b. apply delete_each_flags_ids.
  - intros today. apply K; [apply W6|].
    unfold ToDoApp.on_clear_done.
    apply keeps_bnd;
      [exact keeps_flags_ids_trans | | intros _; apply refresh_flags_ids].
    intros b. apply (filter_step_flags_ids (fun t => negb (is_done t =? 1)) b)
      || apply filter_step_flags_ids.
Qed.

Lemma handlers_keep_table_witness :
  table_ok
    (TaskRepo.mkrepo
       [mktask 1 "a" None None "Low" "" 0 1 "t0" "t0";
        mktask 3 "b" None (Some "home") "High" "2025-09-04" 1 2 "t0" "t1"] 4)
  /\ table_ok
       (ToDoApp.repo
          (fst (ToDoApp.on_toggle_done (fun _ => "t2") (Date.mkdate 2025 9 5)
                  [3; 1] "Выполнена"
                  (ToDoApp.make_vars
                     (TaskRepo.mkrepo
                        [mktask 1 "a" None None "Low" "" 0 1 "t0" "t0";
                         mktask 3 "b" None (Some "home") "High" "2025-09-04"
                           1 2 "t0" "t1"] 4))))).
Proof.
  assert (H : table_ok
    (TaskRepo.mkrepo
       [mktask 1 "a" None None "Low" "" 0 1 "t0" "t0";
        mktask 3 "b" None (Some "home") "High" "2025-09-04" 1 2 "t0" "t1"] 4)).
  { unfold table_ok, ids_ok, well_formed, flag_ok, stripped. simpl.
    repeat split;
      repeat (apply Forall_cons || apply Forall_nil || apply NoDup_cons
              || apply NoDup_nil);
      simpl; try lia; try discriminate; try reflexivity; auto 10;
      try (repeat split; try discriminate; try reflexivity; auto 10);
      intuition lia. }
  split; [exact H|].
  exact (proj1 (proj2 (proj2 (proj2
           (handlers_keep_table
              (ToDoApp.make_vars
                 (TaskRepo.mkrepo
                    [mktask 1 "a" None None "Low" "" 0 1 "t0" "t0";
                     mktask 3 "b" None (Some "home") "High" "2025-09-04"
                       1 2 "t0" "t1"] 4)) H))))
           (fun _ => "t2") (Date.mkdate 2025 9 5) [3; 1] "Выполнена").
Defined.

(** ** What the handlers write *)

Lemma refresh_repo today a :
  ToDoApp.repo (fst (ToDoApp.refresh today a)) = ToDoApp.repo a.
Proof. destruct (refresh_core today a) as [E _]. exact E. Qed.

(** X11. [on_add]: a dialog left with a title that is blank after
    stripping changes nothing at all; any other dialog appends exactly one
    row to the table, after the rows that were there, with the stripped
    texts of the dialog, the priority Medium, the completion flag 0, the
    next order index, both time stamps at the time of the call and an id
    above the counter.  The text of the due date is stored as it is
    typed, whatever it is. *)
Theorem on_add_row now today (d : TaskDialog.dialog) (a : ToDoApp.app) :
  (Py.strip (TaskDialog.var_title d) = EmptyString ->
   ToDoApp.on_add now today d a = (a, Ok tt))
  /\ (Py.strip (TaskDialog.var_title d) <> EmptyString ->
      ToDoApp.repo (fst (ToDoApp.on_add now today d a))
      = TaskRepo.mkrepo
          (TaskRepo.rows (ToDoApp.repo a)
           ++ [mktask (TaskRepo.next_rowid (ToDoApp.repo a))
                 (Py.strip (TaskDialog.var_title d))
                 (Some (Py.strip (TaskDialog.var_details d)))
                 (Some (Py.strip (TaskDialog.var_category d)))
                 "Medium"
                 (Py.strip (TaskDialog.var_due d))
                 0
                 (TaskRepo.coalesce
                    (TaskRepo.sql_max order_index
                       (TaskRepo.rows (ToDoApp.repo a))) 0 + 1)
                 now now])%list
          (TaskRepo.next_rowid (ToDoApp.repo a))
      /\ TaskRepo.seq (ToDoApp.repo a) < TaskRepo.next_rowid (ToDoApp.repo a)).
Proof.
  unfold ToDoApp.on_add, TaskDialog.on_ok.
  destruct (Py.truthy (Py.strip (TaskDialog.var_title d))) eqn:Et;
    cbn [negb]; split.
  - intros E. rewrite E in Et. discriminate.
  - intros _. split.
    + unfold ToDoApp.bnd.
      cbn [TaskDialog.r_title TaskDialog.r_details TaskDialog.r_category
           TaskDialog.r_priority TaskDialog.r_due_date].
      rewrite create_Ok by (right; left; reflexivity).
      rewrite refresh_repo. reflexivity.
    + unfold TaskRepo.next_rowid.
      destruct (TaskRepo.sql_max id (TaskRepo.rows (ToDoApp.repo a)));
        cbn [TaskRepo.coalesce]; lia.
  - intros _. reflexivity.
  - intros E. apply truthy_false in Et. contradiction.
Qed.

Lemma on_add_row_witness :
  ToDoApp.on_add "t1" (Date.mkdate 2025 9 5)
    (TaskDialog.mkdialog "   " "d" "c" "High" "x")
    (ToDoApp.make_vars TaskRepo.empty)
  = (ToDoApp.make_vars TaskRepo.empty, Ok tt)
  /\ TaskRepo.rows
       (ToDoApp.repo
          (fst (ToDoApp.on_add "t1" (Date.mkdate 2025 9 5)
                  (TaskDialog.mkdialog " milk " " 2 l " "" "High" "tomorrow ")
                  (ToDoApp.make_vars TaskRepo.empty))))
     = [mktask 1 "milk" (Some "2 l") (Some "") "Medium" "tomorrow" 0 1
          "t1" "t1"].
Proof.
  split.
  - apply (proj1 (on_add_row "t1" (Date.mkdate 2025 9 5)
                    (TaskDialog.mkdialog "   " "d" "c" "High" "x")
                    (ToDoApp.make_vars TaskRepo.empty))).
    reflexivity.
  - rewrite (proj1 (proj2 (on_add_row "t1" (Date.mkdate 2025 9 5)
                    (TaskDialog.mkdialog " milk " " 2 l " "" "High" "tomorrow ")
                    (ToDoApp.make_vars TaskRepo.empty))
               ltac:(discriminate))).
    reflexivity.
Defined.

Lemma map_no_match (g : task -> task) (task_id : Z) (l : list task) :
  ~ In task_id (map id l) ->
  map (fun t => if id t =? task_id then g t else t) l = l.
Proof.
  induction l as [|t l IH]; intros H; [reflexivity|].
  cbn [map]. rewrite IH by (intros Hin; apply H; right; exact Hin).
  destruct (Z.eqb_spec (id t) task_id) as [E|_]; [|reflexivity].
  exfalso. apply H. left. exact E.
Qed.

(** X12. [on_edit]: a dialog left with a blank title changes nothing;
    otherwise the rows with the id of the edited task take the stripped
    title, details, category and due date of the dialog, the priority
    Medium and the time of the call as [updated_at], and keep their id,
    completion flag, order index and creation time; every other row, the
    order of the rows and the counter stay as they are.  If no row has
    that id, the table is unchanged. *)
Theorem on_edit_frame now today task_id (d : TaskDialog.dialog)
  (a : ToDoApp.app) :
  (Py.strip (TaskDialog.var_title d) = EmptyString ->
   ToDoApp.on_edit now today task_id d a = (a, Ok tt))
  /\ (Py.strip (TaskDialog.var_title d) <> EmptyString ->
      ToDoApp.repo (fst (ToDoApp.on_edit now today task_id d a))
      = TaskRepo.mkrepo
          (map (fun t =>
                  if id t =? task_id
                  then mktask (id t)
                         (Py.strip (TaskDialog.var_title d))
                         (Some (Py.strip (TaskDialog.var_details d)))
                         (Some (Py.strip (TaskDialog.var_category d)))
                         "Medium"
                         (Py.strip (TaskDialog.var_due d))
                         (is_done t) (order_index t) (created_at t) now
                  else t)
             (TaskRepo.rows (ToDoApp.repo a)))
          (TaskRepo.seq (ToDoApp.repo a)))
  /\ (~ In task_id (map id (TaskRepo.rows (ToDoApp.repo a))) ->
      ToDoApp.repo (fst (ToDoApp.on_edit now today task_id d a))
      = ToDoApp.repo a).
Proof.
  assert (Hmain :
    Py.strip (TaskDialog.var_title d) <> EmptyString ->
    ToDoApp.repo (fst (ToDoApp.on_edit now today task_id d a))
    = TaskRepo.mkrepo
        (map (fun t =>
                if id t =? task_id
                then mktask (id t)
                       (Py.strip (TaskDialog.var_title d))
                       (Some (Py.strip (TaskDialog.var_details d)))
                       (Some (Py.strip (TaskDialog.var_category d)))
                       "Medium"
                       (Py.strip (TaskDialog.var_due d))
                       (is_done t) (order_index t) (created_at t) now
                else t)
           (TaskRepo.rows (ToDoApp.repo a)))
        (TaskRepo.seq (ToDoApp.repo a))).
  { intros Hne. unfold ToDoApp.on_edit, TaskDialog.on_ok.
    destruct (Py.truthy (Py.strip (TaskDialog.var_title d))) eqn:Et;
      cbn [negb]; [|apply truthy_false in Et; contradiction].
    unfold ToDoApp.bnd.
    cbn [TaskDialog.r_title TaskDialog.r_details TaskDialog.r_category
         TaskDialog.r_priority TaskDialog.r_due_date].
    rewrite update_rows.
    - rewrite refresh_repo. unfold ToDoApp.set_repo. cbn [ToDoApp.repo].
      reflexivity.
    - discriminate.
    - repeat constructor; simpl; intuition discriminate.
    - intros v Hin. simpl in Hin.
      destruct Hin as [H|[H|[H|[H|[H|[]]]]]]; try discriminate.
      injection H as <-. right; left; reflexivity. }
  split; [|split; [exact Hmain|]].
  - intros E. unfold ToDoApp.on_edit, TaskDialog.on_ok.
    rewrite E. reflexivity.
  - intros Hno.
    destruct (string_dec (Py.strip (TaskDialog.var_title d)) EmptyString)
      as [E|Hne].
    + unfold ToDoApp.on_edit, TaskDialog.on_ok. rewrite E. reflexivity.
    + rewrite (Hmain Hne). rewrite map_no_match by exact Hno.
      destruct (ToDoApp.repo a); reflexivity.
Qed.

Lemma on_edit_frame_witness :
  TaskRepo.rows
    (ToDoApp.repo
       (fst (ToDoApp.on_edit "t9" (Date.mkdate 2025 9 5) 2
               (TaskDialog.mkdialog " tea " "" " shop" "High" "soon")
               (ToDoApp.make_vars
                  (TaskRepo.mkrepo
                     [mktask 1 "a" None None "Low" "" 0 1 "t0" "t0";
                      mktask 2 "b" (Some "x") None "High" "2025-09-04" 1 5
                        "t1" "t2"] 2)))))
  = [mktask 1 "a" None None "Low" "" 0 1 "t0" "t0";
     mktask 2 "tea" (Some "") (Some "shop") "Medium" "soon" 1 5 "t1" "t9"]
  /\ ToDoApp.repo
       (fst (ToDoApp.on_edit "t9" (Date.mkdate 2025 9 5) 7
               (TaskDialog.mkdialog " tea " "" " shop" "High" "soon")
               (ToDoApp.make_vars
                  (TaskRepo.mkrepo
                     [mktask 1 "a" None None "Low" "" 0 1 "t0" "t0"] 2))))
     = TaskRepo.mkrepo [mktask 1 "a" None None "Low" "" 0 1 "t0" "t0"] 2.
Proof.
  split.
  - rewrite (proj1 (proj2 (on_edit_frame "t9" (Date.mkdate 2025 9 5) 2
               (TaskDialog.mkdialog " tea " "" " shop" "High" "soon")
               (ToDoApp.make_vars
                  (TaskRepo.mkrepo
                     [mktask 1 "a" None None "Low" "" 0 1 "t0" "t0";
                      mktask 2 "b" (Some "x") None "High" "2025-09-04" 1 5
                        "t1" "t2"] 2))))
               ltac:(discriminate)).
    reflexivity.
  - apply (proj2 (proj2 (on_edit_frame "t9" (Date.mkdate 2025 9 5) 7
               (TaskDialog.mkdialog " tea " "" " shop" "High" "soon")
               (ToDoApp.make_vars
                  (TaskRepo.mkrepo
                     [mktask 1 "a" None None "Low" "" 0 1 "t0" "t0"] 2))))).
    simpl. intros [H|[]]. discriminate.
Defined.

Lemma Forall2_map_left (R : task -> task -> Prop) (g : task -> task)
  (l l' : list task) :
  Forall2 R (map g l) l' -> Forall2 (fun t t' => R (g t) t') l l'.
Proof.
  revert l'. induction l as [|t l IH]; intros l' H; inversion H; subst;
    constructor; auto.
Qed.

Lemma Forall2_weaken (R R' : task -> task -> Prop) (l l' : list task) :
  (forall t t', R t t' -> R' t t') -> Forall2 R l l' -> Forall2 R' l l'.
Proof. intros HR H. induction H; constructor; auto. Qed.

Lemma toggled_refl (v : Z) (l : list task) :
  Forall2 (toggled [] v) l l.
Proof.
  induction l as [|t l IH]; constructor; [|exact IH].
  unfold toggled. repeat split; auto. intros [].
Qed.

(** The loop of [on_toggle_done]. *)
Lemma update_each_toggles (v : Z) (ids : list Z) :
  forall clock a,
    snd (ToDoApp.update_each clock ids v a) = Ok tt
    /\ TaskRepo.seq (ToDoApp.repo (fst (ToDoApp.update_each clock ids v a)))
       = TaskRepo.seq (ToDoApp.repo a)
    /\ Forall2 (toggled ids v) (TaskRepo.rows (ToDoApp.repo a))
         (TaskRepo.rows
            (ToDoApp.repo (fst (ToDoApp.update_each clock ids v a)))).
Proof.
  induction ids as [|tid ids IH]; intros clock a.
  - cbn [ToDoApp.update_each ToDoApp.ret fst snd].
    repeat split. apply toggled_refl.
  - cbn [ToDoApp.update_each]. unfold ToDoApp.bnd.
    rewrite update_rows;
      [ | discriminate | constructor; [intros [] | constructor]
        | intros p [H|[]]; discriminate ].
    set (g := fun t : task =>
                if id t =? tid
                then fold_left TaskRepo.set_field
                       (TaskRepo.dict_set (TaskRepo.f_updated_at (clock O))
                          [TaskRepo.f_is_done v]) t
                else t).
    set (a1 := ToDoApp.set_repo
                 (TaskRepo.mkrepo (map g (TaskRepo.rows (ToDoApp.repo a)))
                    (TaskRepo.seq (ToDoApp.repo a))) a).
    destruct (IH (fun k => clock (S k)) a1) as [Hs [Hseq Hrows]].
    split; [exact Hs|]. split; [rewrite Hseq; reflexivity|].
    change (TaskRepo.rows (ToDoApp.repo a1))
      with (map g (TaskRepo.rows (ToDoApp.repo a))) in Hrows.
    apply Forall2_map_left in Hrows.
    revert Hrows. apply Forall2_weaken. intros t t'.
    unfold toggled, g.
    intros [H1 [H2 [H3 [H4 [H5 [H6 [H7 [H8 [Hin Hout]]]]]]]]].
    destruct (Z.eqb_spec (id t) tid) as [E|Hne].
    + cbn in H1, H2, H3, H4, H5, H6, H7, H8, Hin, Hout.
      repeat (split; [assumption|]). split.
      * intros _. destruct (in_dec Z.eq_dec (id t) ids) as [Hi|Hi];
          [apply Hin, Hi|]. rewrite (Hout Hi). reflexivity.
      * intros Hn. exfalso. apply Hn. left. symmetry; exact E.
    + repeat (split; [assumption|]). split.
      * intros [E|Hi]; [exfalso; apply Hne; symmetry; exact E | apply Hin, Hi].
      * intros Hn. apply Hout. intros Hi. apply Hn. right. exact Hi.
Qed.

(** The body of [on_toggle_done], for the ids and the status text that
    its two reads from the table widget returned: every row of [ids] gets
    the flag 0 if the text is the word for done and 1 otherwise, every
    column but [is_done] and [updated_at] is kept, and the rows outside
    [ids], the number and order of the rows and the counter are
    untouched. *)
Lemma toggle_body_sets clock today (ids : list Z) (status : string)
  (a : ToDoApp.app) :
  (ids = [] -> ToDoApp.on_toggle_done clock today ids status a = (a, Ok tt))
  /\ (ids <> [] ->
      let v := if String.eqb status "Выполнена" then 0 else 1 in
      let s' := ToDoApp.repo
                  (fst (ToDoApp.on_toggle_done clock today ids status a)) in
      TaskRepo.seq s' = TaskRepo.seq (ToDoApp.repo a)
      /\ Forall2 (toggled ids v) (TaskRepo.rows (ToDoApp.repo a))
           (TaskRepo.rows s')).
Proof.
  split; [intros ->; reflexivity|].
  intros Hne. destruct ids as [|i ids]; [contradiction|].
  cbv zeta. unfold ToDoApp.on_toggle_done, ToDoApp.bnd.
  set (v := if (if String.eqb status "Выполнена" then 1 else 0) =? 0
            then 1 else 0).
  assert (Ev : v = if String.eqb status "Выполнена" then 0 else 1)
    by (unfold v; destruct (String.eqb status "Выполнена"); reflexivity).
  rewrite <- Ev.
  destruct (update_each_toggles v (i :: ids) clock a) as [Hs [Hseq Hrows]].
  destruct (ToDoApp.update_each clock (i :: ids) v a) as [a1 r] eqn:E1.
  cbn [fst snd] in Hs, Hseq, Hrows. subst r.
  rewrite refresh_repo. split; assumption.
Qed.

Lemma delete_each_rows (ids : list Z) :
  forall s,
    fold_left (fun s tid => TaskRepo.delete tid s) ids s
    = TaskRepo.mkrepo
        (filter (fun t => negb (existsb (Z.eqb (id t)) ids)) (TaskRepo.rows s))
        (TaskRepo.seq s).
Proof.
  induction ids as [|tid ids IH]; intros s.
  - cbn [fold_left existsb negb]. rewrite filter_true.
    destruct s; reflexivity.
  - cbn [fold_left]. rewrite IH. unfold TaskRepo.delete.
    cbn [TaskRepo.rows TaskRepo.seq]. f_equal.
    induction (TaskRepo.rows s) as [|t l IHl]; [reflexivity|].
    cbn [filter existsb].
    destruct (id t =? tid) eqn:E; cbn [negb orb].
    + exact IHl.
    + cbn [filter]. rewrite IHl. reflexivity.
Qed.

(** X14. [on_delete] removes from the table exactly the rows whose id is
    in the selection and keeps the other rows in their order; ids of the
    selection that no row has are ignored, and the AUTOINCREMENT counter
    stays as it is.  [on_clear_done] removes exactly the rows whose flag
    is 1 and keeps the counter too.  With an empty selection
    [on_delete] changes nothing. *)
Theorem on_delete_removes today (a : ToDoApp.app) :
  (forall ids,
      ToDoApp.repo (fst (ToDoApp.on_delete today ids a))
      = TaskRepo.mkrepo
          (filter (fun t => negb (existsb (Z.eqb (id t)) ids))
             (TaskRepo.rows (ToDoApp.repo a)))
          (TaskRepo.seq (ToDoApp.repo a)))
  /\ ToDoApp.on_delete today [] a = (a, Ok tt)
  /\ ToDoApp.repo (fst (ToDoApp.on_clear_done today a))
     = TaskRepo.mkrepo
         (filter (fun t => negb (is_done t =? 1))
            (TaskRepo.rows (ToDoApp.repo a)))
         (TaskRepo.seq (ToDoApp.repo a)).
Proof.
  split; [|split; [reflexivity|]].
  - intros [|i ids].
    + cbn [ToDoApp.on_delete ToDoApp.ret fst existsb negb].
      rewrite filter_true. destruct (ToDoApp.repo a); reflexivity.
    + unfold ToDoApp.on_delete, ToDoApp.bnd, ToDoApp.delete_each,
        ToDoApp.modify.
      rewrite refresh_repo. unfold ToDoApp.set_repo. cbn [ToDoApp.repo].
      apply delete_each_rows.
  - unfold ToDoApp.on_clear_done, ToDoApp.bnd, ToDoApp.modify.
    rewrite refresh_repo. reflexivity.
Qed.

(** ** The category filter *)

Lemma mem_In (x : string) (l : list string) : Py.mem x l = true <-> In x l.
Proof.
  induction l as [|y l IH]; simpl; [split; [discriminate | intros []]|].
  rewrite orb_true_iff, IH, String.eqb_eq. split; intros [H|H]; auto.
Qed.

Lemma insert_distinct_In (x c : string) (l : list string) :
  In c (TaskRepo.insert_distinct x l) <-> c = x \/ In c l.
Proof.
  induction l as [|y l IH]; simpl; [intuition|].
  destruct (String.compare x y) eqn:E; simpl.
  - apply String.compare_eq_iff in E. subst y. intuition.
  - intuition.
  - rewrite IH. intuition.
Qed.

Lemma insert_distinct_ascending (x : string) (l : list string) :
  ascending l -> ascending (TaskRepo.insert_distinct x l).
Proof.
  unfold ascending. induction l as [|y l IH]; intros H; simpl.
  - constructor; [constructor | constructor].
  - inversion H as [|? ? Hl Hy]; subst.
    destruct (String.compare x y) eqn:E.
    + exact H.
    + constructor; [exact H|]. constructor; [exact E|].
      rewrite Forall_forall in *. intros z Hz.
      apply (string_compare_lt_trans x y z E), Hy, Hz.
    + constructor; [apply IH, Hl|].
      rewrite Forall_forall in *. intros z Hz.
      apply insert_distinct_In in Hz. destruct Hz as [->|Hz]; [|apply Hy, Hz].
      rewrite String.compare_antisym, E. reflexivity.
Qed.

Lemma all_categories_In (s : TaskRepo.repo) (c : string) :
  In c (TaskRepo.all_categories s)
  <-> exists t, In t (TaskRepo.rows s) /\ TaskRepo.or_empty (category t) = c.
Proof.
  unfold TaskRepo.all_categories.
  induction (TaskRepo.rows s) as [|t l IH]; simpl.
  - split; [intros [] | intros [t [[] _]]].
  - rewrite insert_distinct_In, IH. split.
    + intros [->|[t' [Ht' E]]]; [exists t; auto | exists t'; auto].
    + intros [t' [[->|Ht'] E]]; [left; symmetry; exact E | right; exists t'; auto].
Qed.

Lemma all_categories_ascending (s : TaskRepo.repo) :
  ascending (TaskRepo.all_categories s).
Proof.
  unfold TaskRepo.all_categories.
  induction (TaskRepo.rows s) as [|t l IH]; simpl.
  - constructor.
  - apply insert_distinct_ascending, IH.
Qed.

Lemma ascending_filter (p : string -> bool) (l : list string) :
  ascending l -> ascending (filter p l).
Proof.
  unfold ascending. induction l as [|x l IH]; intros H; simpl; [constructor|].
  inversion H as [|? ? Hl Hx]; subst.
  destruct (p x); [|apply IH, Hl].
  constructor; [apply IH, Hl|].
  rewrite Forall_forall in *. intros z Hz. apply filter_In in Hz.
  apply Hx, Hz.
Qed.

Lemma same_choice_refl a : same_choice a a.
Proof. split; reflexivity. Qed.

Lemma same_choice_trans a b c :
  same_choice a b -> same_choice b c -> same_choice a c.
Proof. unfold same_choice; intros [? ?] [? ?]; split; congruence. Qed.

Lemma fill_tree_choice today rows :
  keeps same_choice (ToDoApp.fill_tree today rows).
Proof.
  induction rows as [|r rows IH]; simpl.
  - apply keeps_ret, same_choice_refl.
  - apply keeps_bnd;
      [exact same_choice_trans | apply keeps_lift, same_choice_refl |].
    intros tags.
    apply keeps_bnd; [exact same_choice_trans | | intros _; exact IH].
    apply keeps_modify; intros a; split; reflexivity.
Qed.

Lemma refresh_tail_choice today :
  keeps same_choice
    (ToDoApp.bnd (fun a0 => ToDoApp.lift (ToDoApp._query_tasks a0) a0)
       (fun rows =>
          ToDoApp.bnd (ToDoApp.fill_tree today rows)
            (fun _ =>
               ToDoApp.bnd
                 (fun a0 => ToDoApp.lift
                              (TaskRepo.stats today (ToDoApp.repo a0)) a0)
                 (fun st =>
                    ToDoApp.modify
                      (ToDoApp.set_lbl_stats
                         (TaskRepo.mkstats (TaskRepo.total st + 2)
                            (TaskRepo.done st) (TaskRepo.active st)
                            (TaskRepo.overdue st))))))).
Proof.
  apply keeps_bnd;
    [exact same_choice_trans | apply keeps_read, same_choice_refl |].
  intros rows.
  apply keeps_bnd; [exact same_choice_trans | apply fill_tree_choice |].
  intros _.
  apply keeps_bnd;
    [exact same_choice_trans | apply keeps_read, same_choice_refl |].
  intros st. apply keeps_modify; intros b; split; reflexivity.
Qed.

(** X15. [refresh] and the category filter: afterwards the choices of the
    combobox are the word for all followed by the categories of the table
    that are not empty, each once, in strictly ascending order (a NULL
    category counts as empty); the category filter is one of the choices;
    it is kept if it was one of them and is set back to the word for all
    if it was not, as when the last task of the chosen category has just
    been deleted. *)
Theorem refresh_categories today (a : ToDoApp.app) :
  let a' := fst (ToDoApp.refresh today a) in
  (exists cats,
      ToDoApp.cmb_category a' = (ToDoApp.ALL :: cats)%list
      /\ ascending cats
      /\ forall c, In c cats
                   <-> c <> EmptyString
                       /\ exists t, In t (TaskRepo.rows (ToDoApp.repo a))
                                    /\ category t = Some c)
  /\ In (ToDoApp.var_filter_category a') (ToDoApp.cmb_category a')
  /\ (In (ToDoApp.var_filter_category a) (ToDoApp.cmb_category a') ->
      ToDoApp.var_filter_category a' = ToDoApp.var_filter_category a)
  /\ (~ In (ToDoApp.var_filter_category a) (ToDoApp.cmb_category a') ->
      ToDoApp.var_filter_category a' = ToDoApp.ALL).
Proof.
  set (cats := filter Py.truthy (TaskRepo.all_categories (ToDoApp.repo a))).
  set (a1 := ToDoApp.set_tree []
               (if negb (Py.mem (ToDoApp.var_filter_category a)
                           (ToDoApp.ALL :: cats))
                then ToDoApp.set_filter_category ToDoApp.ALL
                       (ToDoApp.set_cmb_category (ToDoApp.ALL :: cats) a)
                else ToDoApp.set_cmb_category (ToDoApp.ALL :: cats) a)).
  assert (Hrest : same_choice a1 (fst (ToDoApp.refresh today a)))
    by exact (refresh_tail_choice today a1).
  destruct Hrest as [Hcat Hcmb].
  assert (Ecmb : ToDoApp.cmb_category a1 = (ToDoApp.ALL :: cats)%list).
  { unfold a1. destruct (negb _); reflexivity. }
  assert (Ecat : ToDoApp.var_filter_category a1
                 = if Py.mem (ToDoApp.var_filter_category a) (ToDoApp.ALL :: cats)
                   then ToDoApp.var_filter_category a else ToDoApp.ALL).
  { unfold a1. destruct (Py.mem _ _); reflexivity. }
  cbv zeta. rewrite Hcat, Hcmb, Ecmb, Ecat.
  split; [|split; [|split]].
  - exists cats. split; [reflexivity|]. split.
    + apply ascending_filter, all_categories_ascending.
    + intros c. unfold cats. rewrite filter_In, all_categories_In. split.
      * intros [[t [Ht E]] Hc]. split; [intros ->; discriminate|].
        exists t. split; [exact Ht|].
        destruct (category t) as [x|]; simpl in E; subst c;
          [reflexivity | discriminate].
      * intros [Hc [t [Ht E]]]. split.
        -- exists t. split; [exact Ht|]. rewrite E. reflexivity.
        -- destruct c; [contradiction | reflexivity].
  - destruct (Py.mem _ _) eqn:Em; [apply mem_In, Em | left; reflexivity].
  - intros Hin. apply mem_In in Hin. rewrite Hin. reflexivity.
  - intros Hn. destruct (Py.mem _ _) eqn:Em; [|reflexivity].
    apply mem_In in Em. contradiction.
Qed.

Lemma refresh_categories_witness :
  ToDoApp.var_filter_category
    (fst (ToDoApp.refresh (Date.mkdate 2025 9 5)
            (ToDoApp.set_filters "" "Все" "Все" "work"
               (ToDoApp.make_vars
                  (TaskRepo.mkrepo
                     [mktask 1 "a" None (Some "home") "Low" "" 0 1 "t0" "t0";
                      mktask 2 "b" None None "Low" "" 0 2 "t0" "t0";
                      mktask 3 "c" None (Some "art") "Low" "" 0 3 "t0" "t0"]
                     3)))))
  = "Все"
  /\ ToDoApp.var_filter_category
       (fst (ToDoApp.refresh (Date.mkdate 2025 9 5)
               (ToDoApp.set_filters "" "Все" "Все" "home"
                  (ToDoApp.make_vars
                     (TaskRepo.mkrepo
                        [mktask 1 "a" None (Some "home") "Low" "" 0 1 "t0" "t0";
                         mktask 2 "b" None None "Low" "" 0 2 "t0" "t0";
                         mktask 3 "c" None (Some "art") "Low" "" 0 3 "t0" "t0"]
                        3)))))
     = "home".
Proof.
  split.
  - apply (proj2 (proj2 (proj2
             (refresh_categories (Date.mkdate 2025 9 5)
                (ToDoApp.set_filters "" "Все" "Все" "work"
                   (ToDoApp.make_vars
                      (TaskRepo.mkrepo
                         [mktask 1 "a" None (Some "home") "Low" "" 0 1 "t0" "t0";
                          mktask 2 "b" None None "Low" "" 0 2 "t0" "t0";
                          mktask 3 "c" None (Some "art") "Low" "" 0 3 "t0" "t0"]
                         3))))))).
    vm_compute. intros [H|[H|[H|[]]]]; discriminate.
  - apply (proj1 (proj2 (proj2
             (refresh_categories (Date.mkdate 2025 9 5)
                (ToDoApp.set_filters "" "Все" "Все" "home"
                   (ToDoApp.make_vars
                      (TaskRepo.mkrepo
                         [mktask 1 "a" None (Some "home") "Low" "" 0 1 "t0" "t0";
                          mktask 2 "b" None None "Low" "" 0 2 "t0" "t0";
                          mktask 3 "c" None (Some "art") "Low" "" 0 3 "t0" "t0"]
                         3))))))).
    vm_compute. right; right; left; reflexivity.
Defined.

(** ** Dates written by [strftime] are read back by [strptime] *)

Lemma digit_ascii (k : Z) (r : list ascii) :
  0 <= k <= 9 -> Date.digit (Date.digit_char k :: r) = [(k, r)].
Proof.
  intros H.
  assert (Hk : k = 0 \/ k = 1 \/ k = 2 \/ k = 3 \/ k = 4 \/ k = 5 \/ k = 6
               \/ k = 7 \/ k = 8 \/ k = 9) by lia.
  repeat (destruct Hk as [->|Hk]; [reflexivity|]). subst k. reflexivity.
Qed.

Lemma re_Y_pad4 (y : Z) (r : list ascii) :
  0 <= y <= 9999 ->
  Date.re_Y (list_ascii_of_string (Date.pad4 y) ++ r)%list = [(y, r)].
Proof.
  intros H. unfold Date.re_Y, Date.pad4.
  cbn [list_ascii_of_string app]. unfold Date.two.
  rewrite digit_ascii by (Z.div_mod_to_equations; lia).
  cbn [flat_map map app].
  rewrite digit_ascii by (Z.div_mod_to_equations; lia).
  cbn [flat_map map app].
  rewrite digit_ascii by (Z.div_mod_to_equations; lia).
  cbn [flat_map map app].
  rewrite digit_ascii by (Z.div_mod_to_equations; lia).
  cbn [flat_map map app].
  do 2 f_equal. Z.div_mod_to_equations; lia.
Qed.

Lemma re_m_pad2 (m : Z) (r : list ascii) :
  1 <= m <= 12 ->
  exists rest,
    Date.re_m (list_ascii_of_string (Date.pad2 m) ++ r)%list = (m, r) :: rest.
Proof.
  intros H.
  assert (Hk : exists k : nat, m = Z.of_nat k /\ (k < 13)%nat)
    by (exists (Z.to_nat m); lia).
  destruct Hk as [k [-> Hk]].
  do 13 (destruct k as [|k]; [try lia; eexists; cbv; reflexivity|]).
  lia.
Qed.

Lemma re_d_pad2 (d : Z) :
  1 <= d <= 31 ->
  exists rest,
    Date.re_d (list_ascii_of_string (Date.pad2 d)) = (d, []) :: rest.
Proof.
  intros H.
  assert (Hk : exists k : nat, d = Z.of_nat k /\ (k < 32)%nat)
    by (exists (Z.to_nat d); lia).
  destruct Hk as [k [-> Hk]].
  do 32 (destruct k as [|k]; [try lia; eexists; cbv; reflexivity|]).
  lia.
Qed.

Lemma strptime_strftime (d : Date.date) :
  Date.valid d = true -> Date.strptime (Date.strftime d) = Some d.
Proof.
  intros Hv. destruct (valid_ranges d Hv) as [Hy [Hm Hd]].
  destruct d as [y m dd]. cbn [Date.year Date.month Date.day] in Hy, Hm, Hd.
  unfold Date.strptime, Date.strftime. cbn [Date.year Date.month Date.day].
  rewrite !list_ascii_of_string_app.
  unfold Date.re_date.
  rewrite re_Y_pad4 by lia.
  cbn [flat_map list_ascii_of_string app Date.dash Date.lit Ascii.eqb
       Bool.eqb].
  destruct (re_m_pad2 m ("-"%char :: list_ascii_of_string (Date.pad2 dd)) Hm)
    as [rest_m Em].
  rewrite Em.
  cbn [flat_map app Date.dash Date.lit Ascii.eqb Bool.eqb].
  destruct (re_d_pad2 dd Hd) as [rest_d Ed].
  rewrite Ed. cbn [map app].
  rewrite Hv. reflexivity.
Qed.

Lemma truthy_strftime (d : Date.date) : Py.truthy (Date.strftime d) = true.
Proof.
  pose proof (strftime_not_empty d) as H.
  destruct (Date.strftime d); [discriminate H | reflexivity].
Qed.

Lemma tagged_overdue_parsed (today d : Date.date) (t : task) :
  is_done t = 0 -> Py.truthy (due_date t) = true ->
  Date.strptime (due_date t) = Some d ->
  tagged_overdue today t = Date.ltb d today.
Proof.
  intros Hdone Ht Hp. unfold tagged_overdue, ToDoApp._apply_row_tags.
  rewrite Hdone, Ht, Hp. cbn [Z.eqb negb app].
  destruct (Date.ltb d today) eqn:El.
  - cbn [bind]. destruct (String.eqb (priority t) "High"); reflexivity.
  - destruct (Date.eqb d today).
    + cbn [bind]. destruct (String.eqb (priority t) "High"); reflexivity.
    + destruct (Date.add_days 3 today) as [lim|e]; cbn [bind]; [|reflexivity].
      destruct (Date.leb d lim); cbn [bind];
        destruct (String.eqb (priority t) "High"); reflexivity.
Qed.

Lemma tagged_overdue_none (today : Date.date) (t : task) :
  is_done t <> 0 \/ due_date t = EmptyString ->
  tagged_overdue today t = false.
Proof.
  intros H. unfold tagged_overdue, ToDoApp._apply_row_tags.
  destruct (Z.eqb_spec (is_done t) 0) as [E|Hne].
  - destruct H as [H|H]; [contradiction|]. rewrite H.
    cbn [negb Py.truthy bind app].
    destruct (String.eqb (priority t) "High"); reflexivity.
  - cbn [negb bind app].
    destruct (String.eqb (priority t) "High"); reflexivity.
Qed.

Lemma overdue_row_tagged (today : Date.date) (t : task) :
  Date.valid today = true -> canonical_due t ->
  overdue_row (Date.strftime today) t = tagged_overdue today t.
Proof.
  intros Hv Hc. unfold overdue_row.
  destruct (Z.eqb_spec (is_done t) 0) as [E|Hne].
  - destruct Hc as [Hc|[d [Hd Hc]]].
    + rewrite tagged_overdue_none by (right; exact Hc).
      rewrite Hc. reflexivity.
    + rewrite (tagged_overdue_parsed today d t E).
      * rewrite Hc, strftime_not_empty, strftime_ltb by assumption.
        reflexivity.
      * rewrite Hc. apply truthy_strftime.
      * rewrite Hc. apply strptime_strftime, Hd.
  - rewrite tagged_overdue_none by (left; exact Hne). reflexivity.
Qed.

(** X16. The number of overdue tasks in the statistics and the tag
    "overdue" in the table go by different tests: the statistics compare
    the text of the due date with the text of today's date, the tag
    compares the parsed date with today's date.  They agree on every row
    whose due date is empty or written as [strftime] writes it, so that
    for a table of such rows the number shown is the number of rows that
    carry the tag; for a not done row with a due date that [strptime]
    reads, the tag goes by the date read, whatever form the text has. *)
Theorem overdue_count_and_tag (today : Date.date) :
  Date.valid today = true ->
  (forall s,
      Forall canonical_due (TaskRepo.rows s) ->
      exists st,
        TaskRepo.stats today s = Ok st
        /\ TaskRepo.overdue st
           = count_rows (tagged_overdue today) (TaskRepo.rows s))
  /\ (forall t d,
         is_done t = 0 -> Date.strptime (due_date t) = Some d ->
         tagged_overdue today t = Date.ltb d today).
Proof.
  intros Hv. split.
  - intros s Hc. rewrite stats_value. eexists. split; [reflexivity|].
    cbn [TaskRepo.overdue]. apply count_rows_ext.
    intros t Ht. rewrite Forall_forall in Hc.
    apply overdue_row_tagged; [exact Hv | apply Hc, Ht].
  - intros t d Hdone Hp. apply tagged_overdue_parsed; try assumption.
    destruct (due_date t); [|reflexivity].
    rewrite strptime_empty in Hp. discriminate.
Qed.

Lemma overdue_count_and_tag_witness :
  (exists st,
      TaskRepo.stats (Date.mkdate 2025 9 5)
        (TaskRepo.mkrepo
           [mktask 1 "a" None None "Low" "2025-09-04" 0 1 "t0" "t0";
            mktask 2 "b" None None "High" "2025-09-05" 0 2 "t0" "t0";
            mktask 3 "c" None None "Low" "" 0 3 "t0" "t0"] 3) = Ok st
      /\ TaskRepo.overdue st = 1)
  /\ tagged_overdue (Date.mkdate 2025 9 5)
       (mktask 4 "d" None None "Low" "2025-9-4" 0 4 "t0" "t0") = true
  /\ overdue_row (Date.strftime (Date.mkdate 2025 9 5))
       (mktask 4 "d" None None "Low" "2025-9-4" 0 4 "t0" "t0") = false.
Proof.
  assert (Hv : Date.valid (Date.mkdate 2025 9 5) = true) by reflexivity.
  split; [|split].
  - assert (Hc : Forall canonical_due
             [mktask 1 "a" None None "Low" "2025-09-04" 0 1 "t0" "t0";
              mktask 2 "b" None None "High" "2025-09-05" 0 2 "t0" "t0";
              mktask 3 "c" None None "Low" "" 0 3 "t0" "t0"]).
    { repeat (apply Forall_cons || apply Forall_nil).
      - right. exists (Date.mkdate 2025 9 4). split; reflexivity.
      - right. exists (Date.mkdate 2025 9 5). split; reflexivity.
      - left. reflexivity. }
    destruct (proj1 (overdue_count_and_tag (Date.mkdate 2025 9 5) Hv)
                (TaskRepo.mkrepo
                   [mktask 1 "a" None None "Low" "2025-09-04" 0 1 "t0" "t0";
                    mktask 2 "b" None None "High" "2025-09-05" 0 2 "t0" "t0";
                    mktask 3 "c" None None "Low" "" 0 3 "t0" "t0"] 3) Hc)
      as [st [Hst Ho]].
    exists st. split; [exact Hst|]. rewrite Ho. reflexivity.
  - rewrite (proj2 (overdue_count_and_tag (Date.mkdate 2025 9 5) Hv)
               (mktask 4 "d" None None "Low" "2025-9-4" 0 4 "t0" "t0")
               (Date.mkdate 2025 9 4) eq_refl eq_refl).
    reflexivity.
  - reflexivity.
Defined.

(** ** What the import writes, and when it completes *)

Lemma adds_imported_refl a : adds_imported a a.
Proof. exists []. split; [rewrite app_nil_r; reflexivity | constructor]. Qed.

Lemma adds_imported_trans a b c :
  adds_imported a b -> adds_imported b c -> adds_imported a c.
Proof.
  intros [n1 [E1 H1]] [n2 [E2 H2]]. exists (n1 ++ n2)%list. split.
  - rewrite E2, E1, app_assoc. reflexivity.
  - apply Forall_app; split; assumption.
Qed.

Lemma import_rows_imported (rows : list Csv.dict) :
  forall clock, keeps adds_imported (ToDoApp.import_rows clock rows).
Proof.
  induction rows as [|row rows IH]; intros clock a;
    [apply adds_imported_refl|].
  cbn [ToDoApp.import_rows]. unfold ToDoApp.bnd at 1, ToDoApp.lift.
  unfold ToDoApp.import_row.
  destruct (Csv.get row "title" (Some "")) as [t|];
    [|apply adds_imported_refl].
  destruct (Py.strip t) as [|c s] eqn:Et; cbn [Py.truthy negb]; [apply IH|].
  destruct (Csv.get row "due_date" (Some "")) as [dd|];
    [|apply adds_imported_refl].
  set (p := match Csv.get row "priority" None with
            | Some p => if Py.mem p PRIORITIES then p else "Medium"
            | None => "Medium"
            end).
  set (due := if Py.truthy (Py.strip dd)
              then match Date.strptime (Py.strip dd) with
                   | Some _ => Py.strip dd
                   | None => EmptyString
                   end
              else Py.strip dd).
  assert (Hp : In p PRIORITIES).
  { unfold p. destruct (Csv.get row "priority" None) as [x|]; [|simpl; auto].
    destruct (Py.mem x PRIORITIES) eqn:Ex; [|simpl; auto].
    apply check_priority_iff; exact Ex. }
  assert (Hdue : stripped due).
  { unfold due. destruct (Py.truthy _); [|apply strip_stripped].
    destruct (Date.strptime _); [apply strip_stripped | reflexivity]. }
  assert (Hread : due = EmptyString \/ Date.strptime due <> None).
  { unfold due. destruct (Py.truthy (Py.strip dd)) eqn:Ed.
    - destruct (Date.strptime (Py.strip dd)) eqn:Ep; [|left; reflexivity].
      right. rewrite Ep. discriminate.
    - left. apply truthy_false, Ed. }
  unfold ToDoApp.bnd. rewrite (create_Ok _ _ _ _ _ _ _ Hp).
  eapply adds_imported_trans; [|apply IH].
  eexists. split; [unfold ToDoApp.set_repo; cbn [ToDoApp.repo TaskRepo.rows];
                   reflexivity|].
  constructor; [|constructor].
  unfold imported, well_formed. cbn [title priority due_date is_done
                                     updated_at created_at TaskRepo.or_empty].
  repeat split; auto; [discriminate|].
  rewrite <- Et. apply strip_stripped.
Qed.

(** X17. Whatever the file holds, [on_import_csv] only adds rows at the
    end of the table, and every row it adds has a title that is not empty
    and is stripped, one of the three priorities, the completion flag 0,
    a due date that is empty or that [strptime] accepts, and the same
    time in [created_at] and [updated_at]; this holds also for the rows
    written before an exception ends the import. *)
Theorem import_adds_valid_rows clock today (f : Csv.file) (a : ToDoApp.app) :
  exists new,
    TaskRepo.rows (ToDoApp.repo (fst (ToDoApp.on_import_csv clock today f a)))
    = (TaskRepo.rows (ToDoApp.repo a) ++ new)%list
    /\ Forall imported new.
Proof.
  assert (H : keeps adds_imported (ToDoApp.on_import_csv clock today f)).
  { unfold ToDoApp.on_import_csv.
    apply keeps_bnd;
      [exact adds_imported_trans | apply import_rows_imported |].
    intros _.
    destruct (Csv.raises (Csv.reopen f));
      [apply keeps_lift, adds_imported_refl|].
    intros b. exists []. split; [|constructor].
    rewrite refresh_repo, app_nil_r. reflexivity. }
  exact (H a).
Qed.







(** ** The days on which the tags can be computed *)












(** ** The view after a reset and at the start *)

Lemma refresh_filter_category today (a : ToDoApp.app) :
  ToDoApp.var_filter_category (fst (ToDoApp.refresh today a))
  = if Py.mem (ToDoApp.var_filter_category a)
         (ToDoApp.ALL
          :: filter Py.truthy (TaskRepo.all_categories (ToDoApp.repo a)))
    then ToDoApp.var_filter_category a else ToDoApp.ALL.
Proof.
  set (cats := (ToDoApp.ALL
                :: filter Py.truthy
                     (TaskRepo.all_categories (ToDoApp.repo a)))%list).
  set (a1 := ToDoApp.set_tree []
               (if negb (Py.mem (ToDoApp.var_filter_category a) cats)
                then ToDoApp.set_filter_category ToDoApp.ALL
                       (ToDoApp.set_cmb_category cats a)
                else ToDoApp.set_cmb_category cats a)).
  assert (Hrest : same_choice a1 (fst (ToDoApp.refresh today a)))
    by exact (refresh_tail_choice today a1).
  destruct Hrest as [Hcat _]. rewrite Hcat.
  unfold a1. destruct (Py.mem _ cats); reflexivity.
Qed.

Lemma insert_ext (o o' : list Sql.order_term) :
  (forall x y, Sql.order_leb o x y = Sql.order_leb o' x y) ->
  forall x l, Sql.insert o x l = Sql.insert o' x l.
Proof.
  intros H x l. induction l as [|y l IH]; [reflexivity|].
  cbn [Sql.insert]. rewrite H, IH. reflexivity.
Qed.

Lemma order_by_ext (o o' : list Sql.order_term) :
  (forall x y, Sql.order_leb o x y = Sql.order_leb o' x y) ->
  forall l, Sql.order_by o l = Sql.order_by o' l.
Proof.
  intros H l. induction l as [|x l IH]; [reflexivity|].
  cbn [Sql.order_by]. rewrite IH. apply insert_ext, H.
Qed.

Lemma index_twice_leb (x y : task) :
  Sql.order_leb
    [(c_order_index, Sql.ASC); (c_order_index, Sql.ASC); (c_id, Sql.ASC)] x y
  = Sql.order_leb TaskRepo.default_order x y.
Proof.
  unfold Sql.order_leb, TaskRepo.default_order. cbn [Sql.order_compare].
  destruct (Sql.term_compare (c_order_index, Sql.ASC) x y); reflexivity.
Qed.

Lemma active_only_filters (a : ToDoApp.app) (t : task) :
  Py.strip (ToDoApp.var_search a) = EmptyString ->
  ToDoApp.var_filter_status a = "Активные" ->
  ToDoApp.var_filter_priority a = ToDoApp.ALL ->
  ToDoApp.var_filter_category a = ToDoApp.ALL ->
  all_filters a t = (is_done t =? 0).
Proof.
  intros Hq Hs Hp Hc.
  unfold all_filters, search_filter, status_filter, priority_filter,
    category_filter.
  rewrite Hq, Hs, Hp, Hc. cbn [Py.truthy]. cbn.
  rewrite !andb_true_r. reflexivity.
Qed.

(** X20. After [_reset_filters] the view is the rows of the table that
    are not done, whatever the filters were, in the order of the sort
    settings, which the reset keeps; the table is not written.  At the
    start of the program, after [__init__], the view is the rows that
    are not done in the default order of [fetch]: by order index, then
    by id. *)
Theorem reset_filters_view today :
  (forall a,
      let a' := fst (ToDoApp._reset_filters today a) in
      ToDoApp.repo a' = ToDoApp.repo a
      /\ ToDoApp.sort_by a' = ToDoApp.sort_by a
      /\ ToDoApp.sort_desc a' = ToDoApp.sort_desc a
      /\ ToDoApp._query_tasks a'
         = Ok (Sql.order_by (ToDoApp.query_order a)
                 (filter (fun t => is_done t =? 0)
                    (TaskRepo.rows (ToDoApp.repo a)))))
  /\ (forall s,
         ToDoApp._query_tasks (fst (ToDoApp.init today s))
         = Ok (Sql.order_by TaskRepo.default_order
                 (filter (fun t => is_done t =? 0) (TaskRepo.rows s)))).
Proof.
  assert (Hview : forall b,
             ToDoApp.var_search b = EmptyString ->
             ToDoApp.var_filter_status b = "Активные" ->
             ToDoApp.var_filter_priority b = ToDoApp.ALL ->
             ToDoApp.var_filter_category b = ToDoApp.ALL ->
             ToDoApp._query_tasks (fst (ToDoApp.refresh today b))
             = Ok (Sql.order_by (ToDoApp.query_order b)
                     (filter (fun t => is_done t =? 0)
                        (TaskRepo.rows (ToDoApp.repo b))))).
  { intros b Hq Hs Hp Hc.
    destruct (refresh_core today b) as [Er [Eq [Es [Ep [Eb Ed]]]]].
    pose proof (refresh_filter_category today b) as Ec.
    rewrite Hc in Ec. cbn [Py.mem] in Ec.
    rewrite String.eqb_refl in Ec. cbn [orb] in Ec.
    rewrite query_tasks_value. f_equal.
    unfold ToDoApp.query_order. rewrite Eb, Ed, Er. f_equal.
    apply filter_ext. intros t. apply active_only_filters.
    - rewrite Eq, Hq. reflexivity.
    - rewrite Es. exact Hs.
    - rewrite Ep. exact Hp.
    - exact Ec. }
  split.
  - intros a. cbv zeta. unfold ToDoApp._reset_filters.
    change (fst (ToDoApp.bnd
                   (ToDoApp.modify
                      (ToDoApp.set_filters "" "Активные" ToDoApp.ALL ToDoApp.ALL))
                   (fun _ => ToDoApp.refresh today) a))
      with (fst (ToDoApp.refresh today
                   (ToDoApp.set_filters "" "Активные" ToDoApp.ALL ToDoApp.ALL a))).
    set (b := ToDoApp.set_filters "" "Активные" ToDoApp.ALL ToDoApp.ALL a).
    destruct (refresh_core today b) as [Er [_ [_ [_ [Eb Ed]]]]].
    split; [exact Er|]. split; [exact Eb|]. split; [exact Ed|].
    apply (Hview b); reflexivity.
  - intros s. unfold ToDoApp.init.
    rewrite (Hview (ToDoApp.make_vars s)) by reflexivity.
    f_equal. apply order_by_ext. intros x y. apply index_twice_leb.
Qed.

(** ** The three status filters *)

Lemma filter_partition (p q r : task -> bool) (l : list task) :
  (forall t, In t l -> r t = p t || q t) ->
  (forall t, In t l -> p t && q t = false) ->
  Permutation (filter p l ++ filter q l) (filter r l).
Proof.
  induction l as [|x l IH]; intros Hr Hpq; [constructor|].
  assert (IH' : Permutation (filter p l ++ filter q l) (filter r l)).
  { apply IH; intros t Ht; [apply Hr | apply Hpq]; right; exact Ht. }
  cbn [filter]. rewrite (Hr x) by (left; reflexivity).
  pose proof (Hpq x (or_introl eq_refl)) as Hx.
  destruct (p x), (q x); cbn [orb]; try discriminate.
  - cbn [app]. constructor. exact IH'.
  - apply Permutation_sym, Permutation_cons_app, Permutation_sym, IH'.
  - exact IH'.
Qed.

Lemma with_status_filters (st : string) (a : ToDoApp.app) (t : task) :
  all_filters (with_status st a) t
  = search_filter a t
    && (if String.eqb st "Активные" then is_done t =? 0
        else if String.eqb st "Выполненные" then is_done t =? 1 else true)
    && priority_filter a t && category_filter a t.
Proof. reflexivity. Qed.

(** X21. The status filter splits the view: with the other filters and
    the sort settings the same, no row is both in the view of the active
    tasks and in the view of the done tasks, every row of either is in
    the view of all tasks, and when every completion flag of the table is
    0 or 1 the two views together hold exactly the rows of the view of
    all tasks.  A row with another flag is in the view of all tasks
    only. *)
Theorem status_views_split (a : ToDoApp.app) :
  exists active done all,
    ToDoApp._query_tasks (with_status "Активные" a) = Ok active
    /\ ToDoApp._query_tasks (with_status "Выполненные" a) = Ok done
    /\ ToDoApp._query_tasks (with_status "Все" a) = Ok all
    /\ (forall t, In t active -> In t done -> False)
    /\ (forall t, In t active \/ In t done -> In t all)
    /\ (forall t, In t all -> is_done t <> 0 -> is_done t <> 1 ->
                  ~ In t active /\ ~ In t done)
    /\ (Forall flag_ok (TaskRepo.rows (ToDoApp.repo a)) ->
        Permutation (active ++ done) all).
Proof.
  rewrite !query_tasks_value.
  do 3 eexists. split; [reflexivity|]. split; [reflexivity|].
  split; [reflexivity|].
  assert (Hin : forall st t,
             In t (Sql.order_by (ToDoApp.query_order (with_status st a))
                     (filter (all_filters (with_status st a))
                        (TaskRepo.rows (ToDoApp.repo (with_status st a)))))
             <-> In t (TaskRepo.rows (ToDoApp.repo a))
                 /\ all_filters (with_status st a) t = true).
  { intros st t. rewrite In_order_by, filter_In. reflexivity. }
  split; [|split; [|split]].
  - intros t H1 H2. apply Hin in H1. apply Hin in H2.
    destruct H1 as [_ H1]. destruct H2 as [_ H2].
    rewrite with_status_filters in H1, H2. cbn in H1, H2.
    rewrite !andb_true_iff in H1, H2.
    destruct H1 as [[[_ H1] _] _]. destruct H2 as [[[_ H2] _] _].
    apply Z.eqb_eq in H1. apply Z.eqb_eq in H2. lia.
  - intros t [H|H]; apply Hin in H; apply Hin; destruct H as [Ht H];
      (split; [exact Ht|]); rewrite with_status_filters in *; cbn in *;
      rewrite !andb_true_iff in *; tauto.
  - intros t _ H0 H1. split; intros H; apply Hin in H; destruct H as [_ H];
      rewrite with_status_filters in H; cbn in H;
      rewrite !andb_true_iff in H; destruct H as [[[_ H] _] _];
      apply Z.eqb_eq in H; contradiction.
  - intros Hflags.
    eapply Permutation_trans;
      [apply Permutation_app; apply order_by_perm|].
    eapply Permutation_trans; [|apply Permutation_sym, order_by_perm].
    apply filter_partition.
    + intros t Ht. rewrite !with_status_filters. cbn.
      rewrite Forall_forall in Hflags. destruct (Hflags t Ht) as [E|E];
        rewrite E; cbn;
        destruct (search_filter a t), (priority_filter a t),
          (category_filter a t); reflexivity.
    + intros t Ht. rewrite !with_status_filters. cbn.
      destruct (Z.eqb_spec (is_done t) 0) as [E0|E0];
        destruct (Z.eqb_spec (is_done t) 1) as [E1|E1]; try lia;
        destruct (search_filter a t), (priority_filter a t),
          (category_filter a t); reflexivity.
Qed.

Lemma status_views_split_witness :
  exists active done all,
    ToDoApp._query_tasks
      (with_status "Активные"
         (ToDoApp.make_vars
            (TaskRepo.mkrepo
               [mktask 1 "a" None None "Low" "" 1 1 "t0" "t0";
                mktask 2 "b" None None "Low" "" 0 2 "t0" "t0"] 2))) = Ok active
    /\ ToDoApp._query_tasks
         (with_status "Выполненные"
            (ToDoApp.make_vars
               (TaskRepo.mkrepo
                  [mktask 1 "a" None None "Low" "" 1 1 "t0" "t0";
                   mktask 2 "b" None None "Low" "" 0 2 "t0" "t0"] 2))) = Ok done
    /\ ToDoApp._query_tasks
         (with_status "Все"
            (ToDoApp.make_vars
               (TaskRepo.mkrepo
                  [mktask 1 "a" None None "Low" "" 1 1 "t0" "t0";
                   mktask 2 "b" None None "Low" "" 0 2 "t0" "t0"] 2))) = Ok all
    /\ Permutation (active ++ done) all.
Proof.
  destruct (status_views_split
              (ToDoApp.make_vars
                 (TaskRepo.mkrepo
                    [mktask 1 "a" None None "Low" "" 1 1 "t0" "t0";
                     mktask 2 "b" None None "Low" "" 0 2 "t0" "t0"] 2)))
    as [active [done [all [H1 [H2 [H3 [_ [_ [_ H]]]]]]]]].
  exists active, done, all. repeat (split; [assumption|]).
  apply H. cbn [ToDoApp.repo ToDoApp.make_vars TaskRepo.rows].
  repeat (apply Forall_cons || apply Forall_nil);
    [right | left]; reflexivity.
Defined.

(** ** The label of the statistics *)

Lemma same_label_refl a : same_label a a.
Proof. reflexivity. Qed.

Lemma same_label_trans a b c :
  same_label a b -> same_label b c -> same_label a c.
Proof. unfold same_label; congruence. Qed.

Lemma fill_tree_label today rows :
  keeps same_label (ToDoApp.fill_tree today rows).
Proof.
  induction rows as [|r rows IH]; simpl.
  - apply keeps_ret, same_label_refl.
  - apply keeps_bnd;
      [exact same_label_trans | apply keeps_lift, same_label_refl |].
    intros tags.
    apply keeps_bnd; [exact same_label_trans | | intros _; exact IH].
    apply keeps_modify; intros a; reflexivity.
Qed.

(** X22. The label that [refresh] writes: when [refresh] ends without an
    exception the label shows, as the total, the number of rows of the
    table plus two, and the numbers of the rows with flag 1, of the rows
    with flag 0 and of the overdue rows, all counted over the whole table
    whatever the filters of the view are; when [refresh] ends in an
    exception the label is left as it was, since it is written last. *)
Theorem refresh_label today (a : ToDoApp.app) :
  (snd (ToDoApp.refresh today a) = Ok tt ->
   ToDoApp.lbl_stats (fst (ToDoApp.refresh today a))
   = Some (TaskRepo.mkstats
             (Z.of_nat (List.length (TaskRepo.rows (ToDoApp.repo a))) + 2)
             (count_rows (fun t => is_done t =? 1)
                (TaskRepo.rows (ToDoApp.repo a)))
             (count_rows (fun t => is_done t =? 0)
                (TaskRepo.rows (ToDoApp.repo a)))
             (count_rows (overdue_row (Date.strftime today))
                (TaskRepo.rows (ToDoApp.repo a)))))
  /\ (snd (ToDoApp.refresh today a) <> Ok tt ->
      ToDoApp.lbl_stats (fst (ToDoApp.refresh today a)) = ToDoApp.lbl_stats a).
Proof.
  remember (ToDoApp.refresh today a) as r eqn:Er.
  unfold ToDoApp.refresh in Er.
  unfold ToDoApp.bnd at 1 in Er. unfold ToDoApp.modify at 1 in Er.
  match type of Er with
  | context [ToDoApp.set_tree [] ?b] => set (mid := ToDoApp.set_tree [] b) in Er
  end.
  assert (Hrepo : ToDoApp.repo mid = ToDoApp.repo a).
  { unfold mid. destruct (negb _); reflexivity. }
  assert (Hlbl : ToDoApp.lbl_stats mid = ToDoApp.lbl_stats a).
  { unfold mid. destruct (negb _); reflexivity. }
  unfold ToDoApp.bnd at 1, ToDoApp.lift at 1 in Er.
  rewrite (query_tasks_value mid) in Er.
  set (rows := Sql.order_by (ToDoApp.query_order mid)
                 (filter (all_filters mid) (TaskRepo.rows (ToDoApp.repo mid))))
    in Er.
  unfold ToDoApp.bnd at 1 in Er.
  pose proof (fill_tree_label today rows mid) as Hfl.
  pose proof (fill_tree_core today rows mid) as Hfc.
  destruct (ToDoApp.fill_tree today rows mid) as [a2 [[]|e]].
  - cbn [fst] in Hfl, Hfc. destruct Hfc as [Er2 _].
    unfold ToDoApp.bnd at 1, ToDoApp.lift at 1 in Er.
    rewrite stats_value in Er. unfold ToDoApp.modify in Er. subst r.
    cbn [fst snd].
    split; [intros _ | intros H; contradiction H; reflexivity].
    cbn [ToDoApp.lbl_stats ToDoApp.set_lbl_stats TaskRepo.total TaskRepo.done
         TaskRepo.active TaskRepo.overdue].
    rewrite Er2, Hrepo. reflexivity.
  - subst r. cbn [fst snd]. split; [discriminate|]. intros _.
    cbn [fst] in Hfl. unfold same_label in Hfl. rewrite Hfl. exact Hlbl.
Qed.

Lemma refresh_label_witness :
  ToDoApp.lbl_stats
    (fst (ToDoApp.refresh (Date.mkdate 2025 9 5)
            (ToDoApp.make_vars
               (TaskRepo.mkrepo
                  [mktask 1 "a" None None "Low" "2025-09-04" 0 1 "t0" "t0";
                   mktask 2 "b" None None "Low" "" 1 2 "t0" "t0"] 2))))
  = Some (TaskRepo.mkstats 4 1 1 1)
  /\ ToDoApp.lbl_stats
       (fst (ToDoApp.refresh (Date.mkdate 9999 12 30)
               (ToDoApp.make_vars
                  (TaskRepo.mkrepo
                     [mktask 1 "a" None None "Low" "9999-12-31" 0 1 "t0" "t0"]
                     1))))
     = None.
Proof.
  split.
  - rewrite (proj1 (refresh_label (Date.mkdate 2025 9 5)
               (ToDoApp.make_vars
                  (TaskRepo.mkrepo
                     [mktask 1 "a" None None "Low" "2025-09-04" 0 1 "t0" "t0";
                      mktask 2 "b" None None "Low" "" 1 2 "t0" "t0"] 2)))
               eq_refl).
    reflexivity.
  - rewrite (proj2 (refresh_label (Date.mkdate 9999 12 30)
               (ToDoApp.make_vars
                  (TaskRepo.mkrepo
                     [mktask 1 "a" None None "Low" "9999-12-31" 0 1 "t0" "t0"]
                     1)))
               ltac:(discriminate)).
    reflexivity.
Defined.

(** ** Order indexes and ids *)

(** X23. An order index, unlike an id, can be given twice: when the task
    that [create] has just made is deleted, the next [create] gives its
    row the order index of the deleted row and an id that is one higher,
    and the table is the old table followed by that row. *)
Theorem order_index_given_again now now' title title' details details'
  category category' priority priority' due_date due_date'
  (s : TaskRepo.repo) :
  In priority PRIORITIES -> In priority' PRIORITIES ->
  exists t s1 t' s2,
    TaskRepo.create now title details category priority due_date s
    = Ok (id t, s1)
    /\ TaskRepo.rows s1 = (TaskRepo.rows s ++ [t])%list
    /\ TaskRepo.create now' title' details' category' priority' due_date'
         (TaskRepo.delete (id t) s1)
       = Ok (id t', s2)
    /\ TaskRepo.rows s2 = (TaskRepo.rows s ++ [t'])%list
    /\ order_index t' = order_index t
    /\ id t' = id t + 1.
Proof.
  intros Hp Hp'.
  set (i := TaskRepo.next_rowid s).
  set (k := TaskRepo.coalesce (TaskRepo.sql_max order_index (TaskRepo.rows s)) 0
            + 1).
  assert (Hrows :
            filter (fun r => negb (id r =? i))
              (TaskRepo.rows s
               ++ [mktask i title details category priority
                     (TaskRepo.or_empty due_date) 0 k now now])%list
            = TaskRepo.rows s).
  { rewrite filter_app. cbn [filter id]. rewrite Z.eqb_refl. cbn [negb].
    rewrite app_nil_r. apply filter_all_true. intros r Hr.
    apply negb_true_iff, Z.eqb_neq.
    pose proof (next_rowid_fresh s r Hr) as H. fold i in H. lia. }
  exists (mktask i title details category priority
            (TaskRepo.or_empty due_date) 0 k now now).
  eexists.
  exists (mktask (i + 1) title' details' category' priority'
            (TaskRepo.or_empty due_date') 0 k now' now').
  eexists.
  split; [exact (create_Ok _ _ _ _ _ _ s Hp)|].
  split; [reflexivity|].
  split.
  - rewrite (create_Ok _ _ _ _ _ _ _ Hp').
    unfold TaskRepo.delete. cbn [TaskRepo.rows TaskRepo.seq id].
    fold i. fold k. rewrite Hrows. fold k.
    rewrite next_rowid_after_seq; [reflexivity | |].
    + apply Forall_forall. intros r Hr.
      pose proof (next_rowid_fresh s r Hr) as H. fold i in H. lia.
    + intros E. unfold i, TaskRepo.next_rowid.
      rewrite E, sql_max_empty. cbn [TaskRepo.coalesce]. lia.
  - split; [reflexivity|]. split; reflexivity.
Qed.

Lemma order_index_given_again_witness :
  exists t s1 t' s2,
    TaskRepo.create "t1" "a" None None "Low" None
      (TaskRepo.mkrepo [mktask 4 "x" None None "High" "" 0 7 "t0" "t0"] 4)
    = Ok (id t, s1)
    /\ TaskRepo.rows s1
       = ([mktask 4 "x" None None "High" "" 0 7 "t0" "t0"] ++ [t])%list
    /\ TaskRepo.create "t2" "b" None None "High" None
         (TaskRepo.delete (id t) s1)
       = Ok (id t', s2)
    /\ TaskRepo.rows s2
       = ([mktask 4 "x" None None "High" "" 0 7 "t0" "t0"] ++ [t'])%list
    /\ order_index t' = order_index t
    /\ id t' = id t + 1.
Proof.
  apply (order_index_given_again "t1" "t2" "a" "b" None None None None
           "Low" "High" None None
           (TaskRepo.mkrepo [mktask 4 "x" None None "High" "" 0 7 "t0" "t0"] 4)).
  - left. reflexivity.
  - right. right. left. reflexivity.
Defined.

(** ** The import reads the cells by the names of the header *)

(** X24. The import finds its five cells by the names in the header,
    wherever the columns are and whatever other columns the file has: for
    a header without repeated names, a record that has its title,
    details, category, priority and due date under these names is read
    by the loop exactly as the record with just these five cells in the
    order of the names. *)
Theorem import_reads_by_name (header r : Csv.record)
  (it id_ ic ip idd : nat) (t d c p dd : string) :
  NoDup header ->
  nth_error header it = Some "title" -> nth_error r it = Some t ->
  nth_error header id_ = Some "details" -> nth_error r id_ = Some d ->
  nth_error header ic = Some "category" -> nth_error r ic = Some c ->
  nth_error header ip = Some "priority" -> nth_error r ip = Some p ->
  nth_error header idd = Some "due_date" -> nth_error r idd = Some dd ->
  ToDoApp.import_row (Csv.row_dict header r)
  = ToDoApp.import_row
      (Csv.row_dict ["title"; "details"; "category"; "priority"; "due_date"]
         [t; d; c; p; dd]).
Proof.
  intros Hnd Ht Ht' Hd Hd' Hc Hc' Hp Hp' Hdd Hdd'.
  unfold ToDoApp.import_row.
  rewrite !(row_get_by_name header r it "title" t _ Hnd Ht Ht').
  rewrite !(row_get_by_name header r id_ "details" d _ Hnd Hd Hd').
  rewrite !(row_get_by_name header r ic "category" c _ Hnd Hc Hc').
  rewrite !(row_get_by_name header r ip "priority" p _ Hnd Hp Hp').
  rewrite !(row_get_by_name header r idd "due_date" dd _ Hnd Hdd Hdd').
  reflexivity.
Qed.

Lemma import_reads_by_name_witness :
  ToDoApp.import_row
    (Csv.row_dict
       ["due_date"; "id"; "priority"; "title"; "category"; "details"]
       ["2025-09-04"; "17"; "High"; " milk "; "home"; "2 l"])
  = Ok (Some ("milk", Some "2 l", Some "home", "High", Some "2025-09-04")).
Proof.
  rewrite (import_reads_by_name
             ["due_date"; "id"; "priority"; "title"; "category"; "details"]
             ["2025-09-04"; "17"; "High"; " milk "; "home"; "2 l"]
             3 5 4 2 0 " milk " "2 l" "home" "High" "2025-09-04").
  - reflexivity.
  - repeat constructor; simpl; intuition discriminate.
  - reflexivity.
  - reflexivity.
  - reflexivity.
  - reflexivity.
  - reflexivity.
  - reflexivity.
  - reflexivity.
  - reflexivity.
  - reflexivity.
  - reflexivity.
Defined.

(** ** The sort clause and the two ways to change it *)

Lemma all_filters_same (a a' : ToDoApp.app) (t : task) :
  ToDoApp.var_search a' = ToDoApp.var_search a ->
  ToDoApp.var_filter_status a' = ToDoApp.var_filter_status a ->
  ToDoApp.var_filter_priority a' = ToDoApp.var_filter_priority a ->
  ToDoApp.var_filter_category a' = ToDoApp.var_filter_category a ->
  all_filters a' t = all_filters a t.
Proof.
  intros H1 H2 H3 H4.
  unfold all_filters, search_filter, status_filter, priority_filter,
    category_filter.
  rewrite H1, H2, H3, H4. reflexivity.
Qed.

(** The choice that [refresh] leaves in the category filter. *)
Lemma refresh_category_again today (a b : ToDoApp.app) :
  ToDoApp.repo b = ToDoApp.repo a ->
  ToDoApp.var_filter_category b
  = ToDoApp.var_filter_category (fst (ToDoApp.refresh today a)) ->
  ToDoApp.var_filter_category (fst (ToDoApp.refresh today b))
  = ToDoApp.var_filter_category (fst (ToDoApp.refresh today a)).
Proof.
  intros Hr Hc. rewrite (refresh_filter_category today b), Hr, Hc.
  rewrite (refresh_filter_category today a).
  destruct (Py.mem (ToDoApp.var_filter_category a) _) eqn:E.
  - rewrite E. reflexivity.
  - cbn [Py.mem]. rewrite String.eqb_refl. reflexivity.
Qed.

(** The state after [_sort_by]: the table and the filters are those that
    [refresh] alone leaves, the sort settings are the new ones. *)
Lemma sort_by_state today (c : column) (a : ToDoApp.app) :
  let a0 := fst (ToDoApp.refresh today a) in
  let a1 := fst (ToDoApp._sort_by today c a) in
  ToDoApp.repo a1 = ToDoApp.repo a
  /\ ToDoApp.var_search a1 = ToDoApp.var_search a0
  /\ ToDoApp.var_filter_status a1 = ToDoApp.var_filter_status a0
  /\ ToDoApp.var_filter_priority a1 = ToDoApp.var_filter_priority a0
  /\ ToDoApp.var_filter_category a1 = ToDoApp.var_filter_category a0
  /\ ToDoApp.sort_by a1 = c
  /\ ToDoApp.sort_desc a1
     = (if column_eqb (ToDoApp.sort_by a) c
        then negb (ToDoApp.sort_desc a) else false).
Proof.
  cbv zeta.
  change (fst (ToDoApp._sort_by today c a))
    with (fst (ToDoApp.refresh today
                 (if column_eqb (ToDoApp.sort_by a) c
                  then ToDoApp.set_sort (ToDoApp.sort_by a)
                         (negb (ToDoApp.sort_desc a)) a
                  else ToDoApp.set_sort c false a))).
  set (b := if column_eqb (ToDoApp.sort_by a) c
            then ToDoApp.set_sort (ToDoApp.sort_by a)
                   (negb (ToDoApp.sort_desc a)) a
            else ToDoApp.set_sort c false a).
  assert (Hb : ToDoApp.repo b = ToDoApp.repo a
               /\ ToDoApp.var_search b = ToDoApp.var_search a
               /\ ToDoApp.var_filter_status b = ToDoApp.var_filter_status a
               /\ ToDoApp.var_filter_priority b = ToDoApp.var_filter_priority a
               /\ ToDoApp.var_filter_category b = ToDoApp.var_filter_category a
               /\ ToDoApp.sort_by b = c
               /\ ToDoApp.sort_desc b
                  = (if column_eqb (ToDoApp.sort_by a) c
                     then negb (ToDoApp.sort_desc a) else false)).
  { unfold b. destruct (column_eqb (ToDoApp.sort_by a) c) eqn:E;
      repeat split. apply column_eqb_eq, E. }
  destruct Hb as (B1 & B2 & B3 & B4 & B5 & B6 & B7).
  destruct (refresh_core today b) as (R1 & R2 & R3 & R4 & R5 & R6).
  destruct (refresh_core today a) as (_ & S2 & S3 & S4 & _ & _).
  repeat split; try congruence.
  rewrite !refresh_filter_category, B1, B5. reflexivity.
Qed.

(** The rows of a query, by the filters and the sort settings. *)
Lemma query_by_settings (a : ToDoApp.app) :
  ToDoApp._query_tasks a
  = Ok (Sql.order_by (sort_clause (ToDoApp.sort_by a) (ToDoApp.sort_desc a))
          (filter (all_filters a) (TaskRepo.rows (ToDoApp.repo a)))).
Proof. apply query_tasks_value. Qed.

Lemma before_sorted (R : task -> task -> Prop) (x y : task) (l : list task) :
  StronglySorted R l -> before x y l -> R x y.
Proof.
  intros Hs (l1 & l2 & l3 & ->). exact (sorted_pair R l1 l2 l3 x y Hs).
Qed.

(** Two rows that are in order for both directions of the sort column
    agree on it. *)
Lemma both_directions (c : column) (d : bool) (x y : task) :
  in_order (sort_clause c d) x y ->
  in_order (sort_clause c (negb d)) x y ->
  Sql.get c x = Sql.get c y.
Proof.
  unfold in_order, Sql.order_leb, sort_clause.
  destruct d; cbn [negb Sql.order_compare];
    change (Sql.term_compare (c, Sql.DESC) x y)
      with (Sql.value_compare (Sql.get c y) (Sql.get c x));
    change (Sql.term_compare (c, Sql.ASC) x y)
      with (Sql.value_compare (Sql.get c x) (Sql.get c y));
    rewrite (value_compare_antisym (Sql.get c x) (Sql.get c y));
    destruct (Sql.value_compare (Sql.get c x) (Sql.get c y)) eqn:E;
    cbn [CompOpp]; intros H1 H2; try discriminate;
    apply value_compare_eq, E.
Qed.

(** C4.  Every query goes to [fetch] with the ORDER BY clause made of the
    sort column with the chosen direction, then order_index ASC, then id
    ASC.  What it returns is the rows of the table that pass the filters,
    each once, in the order of that clause; of two returned rows that
    agree on the sort column the earlier one has the smaller order_index,
    or the same order_index and the smaller or equal id; and when the ids
    of the table are distinct no other arrangement of the returned rows
    is in the order of the clause.  [_sort_by] on the current sort column
    flips the direction and a second time restores it: after one call
    the query returns the same rows in the order of the clause with the
    other direction, so that two rows keep their relative order only if
    they agree on the sort column, and then they are in order_index and
    id order; after two calls it returns what it returned before.
    [_sort_by] on another column selects that column, ascending, and the
    query returns the same rows in that order. *)
Theorem sort_clause_and_toggle :
  (forall a,
      let clause := sort_clause (ToDoApp.sort_by a) (ToDoApp.sort_desc a) in
      ToDoApp._query_tasks a
      = TaskRepo.fetch (ToDoApp.join_and (fst (ToDoApp.query_where a)))
          (snd (ToDoApp.query_where a)) clause (ToDoApp.repo a)
      /\ exists rows,
          ToDoApp._query_tasks a = Ok rows
          /\ Permutation rows
               (filter (all_filters a) (TaskRepo.rows (ToDoApp.repo a)))
          /\ StronglySorted (in_order clause) rows
          /\ (forall x y,
                 before x y rows ->
                 Sql.get (ToDoApp.sort_by a) x = Sql.get (ToDoApp.sort_by a) y ->
                 index_then_id x y)
          /\ (NoDup (map id (TaskRepo.rows (ToDoApp.repo a))) ->
              forall l,
                Permutation l rows -> StronglySorted (in_order clause) l ->
                l = rows))
  /\ (forall today c a,
         ToDoApp.sort_by a = c ->
         let a0 := fst (ToDoApp.refresh today a) in
         let a1 := fst (ToDoApp._sort_by today c a) in
         let a2 := fst (ToDoApp._sort_by today c a1) in
         ToDoApp.sort_by a1 = c
         /\ ToDoApp.sort_desc a1 = negb (ToDoApp.sort_desc a)
         /\ ToDoApp.sort_by a2 = c
         /\ ToDoApp.sort_desc a2 = ToDoApp.sort_desc a
         /\ exists rows0 rows1,
             ToDoApp._query_tasks a0 = Ok rows0
             /\ ToDoApp._query_tasks a1 = Ok rows1
             /\ ToDoApp._query_tasks a2 = Ok rows0
             /\ Permutation rows1 rows0
             /\ StronglySorted
                  (in_order (sort_clause c (negb (ToDoApp.sort_desc a)))) rows1
             /\ forall x y,
                 before x y rows0 -> before x y rows1 ->
                 Sql.get c x = Sql.get c y /\ index_then_id x y)
  /\ (forall today c a,
         ToDoApp.sort_by a <> c ->
         let a0 := fst (ToDoApp.refresh today a) in
         let a1 := fst (ToDoApp._sort_by today c a) in
         ToDoApp.sort_by a1 = c
         /\ ToDoApp.sort_desc a1 = false
         /\ exists rows0 rows1,
             ToDoApp._query_tasks a0 = Ok rows0
             /\ ToDoApp._query_tasks a1 = Ok rows1
             /\ Permutation rows1 rows0
             /\ StronglySorted (in_order (sort_clause c false)) rows1).
Proof.
  assert (Hview : forall today c a,
             let a0 := fst (ToDoApp.refresh today a) in
             let a1 := fst (ToDoApp._sort_by today c a) in
             filter (all_filters a1) (TaskRepo.rows (ToDoApp.repo a1))
             = filter (all_filters a0) (TaskRepo.rows (ToDoApp.repo a0))).
  { intros today c a. cbv zeta.
    destruct (sort_by_state today c a) as (S1 & S2 & S3 & S4 & S5 & _).
    destruct (refresh_core today a) as (R1 & _).
    rewrite S1, R1. apply filter_ext. intros t.
    apply all_filters_same; assumption. }
  split; [|split].
  - intros a. cbv zeta. split.
    { unfold ToDoApp._query_tasks. destruct (ToDoApp.query_where a).
      reflexivity. }
    eexists. split; [apply query_by_settings|].
    split; [apply order_by_perm|].
    split; [apply order_by_sorted|]. split.
    + intros x y Hb E.
      eapply tie_break; [|exact E].
      eapply before_sorted; [apply order_by_sorted | exact Hb].
    + intros Hnd l Hp Hs.
      apply (sorted_perm_unique
               (in_order (sort_clause (ToDoApp.sort_by a) (ToDoApp.sort_desc a))));
        [exact Hs | apply order_by_sorted | exact Hp |].
      intros x y Hx Hy Hxy Hyx.
      assert (Hin : forall z, In z l -> In z (TaskRepo.rows (ToDoApp.repo a))).
      { intros z Hz. eapply Permutation_in in Hz; [|exact Hp].
        apply In_order_by in Hz. apply filter_In in Hz. apply Hz. }
      apply (NoDup_map_id_eq _ x y Hnd (Hin x Hx) (Hin y Hy)).
      eapply query_order_antisym; eassumption.
  - intros today c a Hc. cbv zeta.
    set (a0 := fst (ToDoApp.refresh today a)).
    set (a1 := fst (ToDoApp._sort_by today c a)).
    set (a2 := fst (ToDoApp._sort_by today c a1)).
    destruct (sort_by_state today c a) as (S1 & S2 & S3 & S4 & S5 & S6 & S7).
    fold a0 a1 in S1, S2, S3, S4, S5, S6, S7.
    destruct (sort_by_state today c a1) as (T1 & T2 & T3 & T4 & T5 & T6 & T7).
    fold a2 in T1, T2, T3, T4, T5, T6, T7.
    destruct (refresh_core today a) as (R1 & R2 & R3 & R4 & R5 & R6).
    fold a0 in R1, R2, R3, R4, R5, R6.
    destruct (refresh_core today a1) as (Q1 & Q2 & Q3 & Q4 & _ & _).
    rewrite Hc, column_eqb_refl in S7.
    rewrite S6, column_eqb_refl, S7, negb_involutive in T7.
    repeat (split; [assumption|]).
    pose proof (Hview today c a) as V1. cbv zeta in V1. fold a0 a1 in V1.
    pose proof (Hview today c a1) as V2. cbv zeta in V2. fold a2 in V2.
    assert (V3 : filter (all_filters (fst (ToDoApp.refresh today a1)))
                   (TaskRepo.rows (ToDoApp.repo (fst (ToDoApp.refresh today a1))))
                 = filter (all_filters a0) (TaskRepo.rows (ToDoApp.repo a0))).
    { rewrite Q1, S1, R1. apply filter_ext. intros t.
      apply all_filters_same; try congruence.
      apply (refresh_category_again today a a1 S1 S5). }
    exists (Sql.order_by (sort_clause c (ToDoApp.sort_desc a))
              (filter (all_filters a0) (TaskRepo.rows (ToDoApp.repo a0)))).
    exists (Sql.order_by (sort_clause c (negb (ToDoApp.sort_desc a)))
              (filter (all_filters a0) (TaskRepo.rows (ToDoApp.repo a0)))).
    split; [rewrite query_by_settings, R5, R6, Hc; reflexivity|].
    split; [rewrite query_by_settings, S6, S7, V1; reflexivity|].
    split; [rewrite query_by_settings, T6, T7, V2, V3; reflexivity|].
    split; [rewrite !order_by_perm; reflexivity|].
    split; [apply order_by_sorted|].
    intros x y H0 H1.
    pose proof (before_sorted _ x y _ (order_by_sorted _ _) H0) as I0.
    pose proof (before_sorted _ x y _ (order_by_sorted _ _) H1) as I1.
    pose proof (both_directions c _ x y I0 I1) as E.
    split; [exact E|]. eapply tie_break; [exact I0 | exact E].
  - intros today c a Hc. cbv zeta.
    set (a0 := fst (ToDoApp.refresh today a)).
    set (a1 := fst (ToDoApp._sort_by today c a)).
    destruct (sort_by_state today c a) as (S1 & S2 & S3 & S4 & S5 & S6 & S7).
    fold a0 a1 in S1, S2, S3, S4, S5, S6, S7.
    apply column_eqb_neq in Hc. rewrite Hc in S7.
    repeat (split; [assumption|]).
    pose proof (Hview today c a) as V1. cbv zeta in V1. fold a0 a1 in V1.
    do 2 eexists.
    split; [apply query_by_settings|].
    split; [rewrite query_by_settings, S6, S7, V1; reflexivity|].
    split; [rewrite !order_by_perm; reflexivity | apply order_by_sorted].
Qed.

Lemma sort_clause_and_toggle_witness :
  (exists rows0 rows1,
      ToDoApp._query_tasks
        (fst (ToDoApp.refresh (Date.mkdate 2025 9 5)
                (ToDoApp.set_sort c_title false
                   (ToDoApp.make_vars
                      (TaskRepo.mkrepo
                         [mktask 1 "b" None None "High" "" 0 1 "t0" "t0";
                          mktask 2 "a" None None "High" "" 0 2 "t0" "t0";
                          mktask 3 "a" None None "Low" "" 0 3 "t0" "t0"] 3)))))
      = Ok rows0
      /\ ToDoApp._query_tasks
           (fst (ToDoApp._sort_by (Date.mkdate 2025 9 5) c_title
                   (ToDoApp.set_sort c_title false
                      (ToDoApp.make_vars
                         (TaskRepo.mkrepo
                            [mktask 1 "b" None None "High" "" 0 1 "t0" "t0";
                             mktask 2 "a" None None "High" "" 0 2 "t0" "t0";
                             mktask 3 "a" None None "Low" "" 0 3 "t0" "t0"]
                            3)))))
         = Ok rows1
      /\ map id rows0 = [2; 3; 1] /\ map id rows1 = [1; 2; 3])
  /\ ToDoApp.sort_desc
       (fst (ToDoApp._sort_by (Date.mkdate 2025 9 5) c_due_date
               (ToDoApp.set_sort c_title true
                  (ToDoApp.make_vars TaskRepo.empty))))
     = false.
Proof.
  split.
  - destruct (proj1 (proj2 sort_clause_and_toggle) (Date.mkdate 2025 9 5)
                c_title
                (ToDoApp.set_sort c_title false
                   (ToDoApp.make_vars
                      (TaskRepo.mkrepo
                         [mktask 1 "b" None None "High" "" 0 1 "t0" "t0";
                          mktask 2 "a" None None "High" "" 0 2 "t0" "t0";
                          mktask 3 "a" None None "Low" "" 0 3 "t0" "t0"] 3)))
                eq_refl)
      as (_ & _ & _ & _ & rows0 & rows1 & E0 & E1 & _).
    exists rows0, rows1. split; [exact E0|]. split; [exact E1|].
    vm_compute in E0, E1. injection E0 as <-. injection E1 as <-.
    split; reflexivity.
  - assert (Hne : c_title <> c_due_date) by discriminate.
    exact (proj1 (proj2 (proj2 (proj2 sort_clause_and_toggle)
                    (Date.mkdate 2025 9 5) c_due_date
                    (ToDoApp.set_sort c_title true
                       (ToDoApp.make_vars TaskRepo.empty)) Hne))).
Defined.

(** ** The toggle, from the selection of the table widget *)

Lemma shown_status (i : ToDoApp.item) (r : task) :
  ToDoApp.values i = item_values r ->
  ToDoApp.tree_set_status i = due_date r /\ ToDoApp.line_id i = id r.
Proof.
  unfold ToDoApp.tree_set_status, ToDoApp.line_id, item_values.
  intros ->. split; reflexivity.
Qed.

(** X13. [on_toggle_done] gives every selected row one and the same
    flag, and does not invert each row by itself: the flag is 0 if the
    text that the table widget returns for the column status of the first
    selected line is the word for done, and 1 otherwise.  The widget has
    six columns and [refresh] gives each line seven values, so that text
    is the fifth value of the line, the due date of the row: for a first
    line that shows a row whose due date is not that word the flag is 1,
    also when the row is done, and the handler never sets it back to not
    done.  Every column but [is_done] and [updated_at] is kept, the rows
    that are not selected are untouched, and so are the number and order
    of the rows and the counter.  With no line selected nothing
    changes. *)
Theorem on_toggle_done_sets clock today (mask : list bool)
  (a : ToDoApp.app) :
  let lines := ToDoApp.selection mask a in
  let s' := ToDoApp.repo
              (fst (ToDoApp.on_toggle_done_selected clock today mask a)) in
  (lines = [] ->
   ToDoApp.on_toggle_done_selected clock today mask a = (a, Ok tt))
  /\ (forall first rest,
         lines = first :: rest ->
         let v := if String.eqb (ToDoApp.tree_set_status first) "Выполнена"
                  then 0 else 1 in
         TaskRepo.seq s' = TaskRepo.seq (ToDoApp.repo a)
         /\ Forall2 (toggled (map ToDoApp.line_id lines) v)
              (TaskRepo.rows (ToDoApp.repo a)) (TaskRepo.rows s'))
  /\ (forall first rest r,
         lines = first :: rest ->
         ToDoApp.values first = item_values r ->
         due_date r <> "Выполнена" ->
         Forall2 (toggled (map ToDoApp.line_id lines) 1)
           (TaskRepo.rows (ToDoApp.repo a)) (TaskRepo.rows s')).
Proof.
  cbv zeta.
  assert (Hmain : forall first rest,
             ToDoApp.selection mask a = first :: rest ->
             TaskRepo.seq
               (ToDoApp.repo
                  (fst (ToDoApp.on_toggle_done_selected clock today mask a)))
             = TaskRepo.seq (ToDoApp.repo a)
             /\ Forall2
                  (toggled (map ToDoApp.line_id (ToDoApp.selection mask a))
                     (if String.eqb (ToDoApp.tree_set_status first) "Выполнена"
                      then 0 else 1))
                  (TaskRepo.rows (ToDoApp.repo a))
                  (TaskRepo.rows
                     (ToDoApp.repo
                        (fst (ToDoApp.on_toggle_done_selected clock today
                                mask a))))).
  { intros first rest E. unfold ToDoApp.on_toggle_done_selected.
    unfold ToDoApp._get_selected_ids. rewrite E.
    apply (proj2 (toggle_body_sets clock today
                    (map ToDoApp.line_id (first :: rest))
                    (ToDoApp.tree_set_status first) a)).
    discriminate. }
  split; [|split].
  - intros E. unfold ToDoApp.on_toggle_done_selected. rewrite E. reflexivity.
  - exact Hmain.
  - intros first rest r E Hv Hd.
    destruct (Hmain first rest E) as [_ H].
    destruct (shown_status first r Hv) as [Es _]. rewrite Es in H.
    apply String.eqb_neq in Hd. rewrite Hd in H. exact H.
Qed.

Lemma on_toggle_done_sets_witness :
  Forall2 (toggled [1; 3] 1)
    [mktask 1 "a" None None "Low" "" 1 1 "t0" "t0";
     mktask 2 "b" None None "Low" "" 0 2 "t0" "t0";
     mktask 3 "c" None None "Low" "" 0 3 "t0" "t0"]
    (TaskRepo.rows
       (ToDoApp.repo
          (fst (ToDoApp.on_toggle_done_selected (fun _ => "t5")
                  (Date.mkdate 2025 9 5) [true; false; true]
                  (fst (ToDoApp.refresh (Date.mkdate 2025 9 5)
                          (ToDoApp.set_filters "" "Все" "Все" "Все"
                             (ToDoApp.make_vars
                                (TaskRepo.mkrepo
                                   [mktask 1 "a" None None "Low" "" 1 1 "t0" "t0";
                                    mktask 2 "b" None None "Low" "" 0 2 "t0" "t0";
                                    mktask 3 "c" None None "Low" "" 0 3 "t0" "t0"]
                                   3))))))))).
Proof.
  exact (proj2 (proj2 (on_toggle_done_sets (fun _ => "t5")
                         (Date.mkdate 2025 9 5) [true; false; true]
                         (fst (ToDoApp.refresh (Date.mkdate 2025 9 5)
                                 (ToDoApp.set_filters "" "Все" "Все" "Все"
                                    (ToDoApp.make_vars
                                       (TaskRepo.mkrepo
                                          [mktask 1 "a" None None "Low" "" 1 1
                                             "t0" "t0";
                                           mktask 2 "b" None None "Low" "" 0 2
                                             "t0" "t0";
                                           mktask 3 "c" None None "Low" "" 0 3
                                             "t0" "t0"] 3)))))))
           (ToDoApp.mkitem (1, "a", None, "Low", "", "Выполнена", "t0") ["done"])
           [ToDoApp.mkitem (3, "c", None, "Low", "", "Активна", "t0") []]
           (mktask 1 "a" None None "Low" "" 1 1 "t0" "t0")
           eq_refl eq_refl ltac:(discriminate)).
Defined.
